(** * Calendar-Agent: the message pipeline of [agent.py] over the ledger of
    [FastAPI/database.py]

    A shallow embedding of the rule-based assistant: intent classification,
    slot extraction, reference resolution, the booking decision engine and
    the event formatter, over a list model of the SQLite [bookings] table;
    with them the endpoint of [main.py] and the reply reader of
    [streamlit_app.py].

    Conventions.
    - Text is a [string] of bytes; the case functions and the character
      classes are the ASCII ones, which is what Python's are on ASCII text
      ([Py.is_ascii]).
    - The [dateparser] and [pytz] packages are not part of the repository:
      their entry points are the variables of Section [Agent].
    - An exception that leaves a Python function is a value [inl e]. *)

From Stdlib Require Import ZArith List Bool Lia Arith.
From Stdlib Require Import Strings.String Strings.Ascii.
From Stdlib Require Import Numbers.DecimalString.
From Stdlib Require Import Sorting.Sorted Sorting.Permutation.
Import ListNotations.
Open Scope string_scope.
Open Scope Z_scope.

Set Implicit Arguments.

(** ** Python string primitives (ASCII) *)

Module Py.

Definition code (a : ascii) : nat := nat_of_ascii a.

Definition between (lo hi : nat) (a : ascii) : bool :=
  (Nat.leb lo (code a) && Nat.leb (code a) hi)%bool.

Definition is_digit : ascii -> bool := between 48 57.
Definition is_upper : ascii -> bool := between 65 90.
Definition is_lower : ascii -> bool := between 97 122.
Definition is_alpha (a : ascii) : bool := (is_upper a || is_lower a)%bool.

(** [str.isspace] on the ASCII range: TAB..CR, FS..US and the blank. *)
Definition is_space (a : ascii) : bool :=
  (between 9 13 a || between 28 32 a)%bool.

(** [\w] *)
Definition is_word (a : ascii) : bool :=
  (is_alpha a || is_digit a || Ascii.eqb a "_")%bool.

Definition lower_char (a : ascii) : ascii :=
  if is_upper a then ascii_of_nat (code a + 32) else a.

Definition upper_char (a : ascii) : ascii :=
  if is_lower a then ascii_of_nat (code a - 32) else a.

(** [s.lower()] *)
Fixpoint lower (s : string) : string :=
  match s with
  | EmptyString => EmptyString
  | String a s' => String (lower_char a) (lower s')
  end.

(** [s.startswith(p)] *)
Fixpoint startswith (p s : string) : bool :=
  match p, s with
  | EmptyString, _ => true
  | String a p', String b s' => (Ascii.eqb a b && startswith p' s')%bool
  | String _ _, EmptyString => false
  end.

(** [p in s] *)
Fixpoint contains (p s : string) : bool :=
  (startswith p s ||
   match s with
   | EmptyString => false
   | String _ s' => contains p s'
   end)%bool.

(** [any(p(c) for c in s)] *)
Fixpoint any_char (p : ascii -> bool) (s : string) : bool :=
  match s with
  | EmptyString => false
  | String a s' => (p a || any_char p s')%bool
  end.

(** [any(w in s for w in ws)] *)
Definition any_in (ws : list string) (s : string) : bool :=
  existsb (fun w => contains w s) ws.

(** The first [n] characters and what follows them. *)
Fixpoint take (n : nat) (s : string) : string :=
  match n, s with
  | S n', String a s' => String a (take n' s')
  | _, _ => EmptyString
  end.

Fixpoint drop (n : nat) (s : string) : string :=
  match n, s with
  | S n', String _ s' => drop n' s'
  | _, _ => s
  end.

Fixpoint lstrip (s : string) : string :=
  match s with
  | String a s' => if is_space a then lstrip s' else s
  | EmptyString => EmptyString
  end.

Fixpoint rev_onto (s acc : string) : string :=
  match s with
  | EmptyString => acc
  | String a s' => rev_onto s' (String a acc)
  end.

Definition rev (s : string) : string := rev_onto s EmptyString.

Definition rstrip (s : string) : string := rev (lstrip (rev s)).

(** [s.strip()] *)
Definition strip (s : string) : string := rstrip (lstrip s).

(** [s.title()]: a letter that follows a letter is lowered, any other
    letter is raised. *)
Fixpoint title_from (prev_cased : bool) (s : string) : string :=
  match s with
  | EmptyString => EmptyString
  | String a s' =>
      if is_alpha a
      then String (if prev_cased then lower_char a else upper_char a)
                  (title_from true s')
      else String a (title_from false s')
  end.

Definition title (s : string) : string := title_from false s.

(** [sep.join(xs)] *)
Fixpoint join (sep : string) (xs : list string) : string :=
  match xs with
  | [] => EmptyString
  | [x] => x
  | x :: rest => x ++ sep ++ join sep rest
  end.

(** Truth value of a string, and of an optional string ([None] is false). *)
Definition truthy (s : string) : bool :=
  match s with EmptyString => false | _ => true end.

Definition truthy_opt (o : option string) : bool :=
  match o with Some s => truthy s | None => false end.

(** The value [int(s)] has for a string of decimal digits, when the
    conversion does not raise (see [int_checked]). *)
Definition digit_val (a : ascii) : Z := Z.of_nat (code a - 48).

Fixpoint int_from (acc : Z) (s : string) : Z :=
  match s with
  | EmptyString => acc
  | String a s' => int_from (10 * acc + digit_val a) s'
  end.

Definition int (s : string) : Z := int_from 0 s.

(** [int(s)] for a string of decimal digits of any length: the conversion
    raises [ValueError] beyond [sys.get_int_max_str_digits()] digits, 4300
    unless the interpreter was started otherwise; [None] is that error. *)
Definition max_str_digits : nat := 4300.

Definition int_checked (s : string) : option Z :=
  if Nat.leb (String.length s) max_str_digits then Some (int s) else None.

(** [s.isascii()] *)
Definition is_ascii (s : string) : bool :=
  negb (any_char (fun a => Nat.leb 128 (code a)) s).

(** [str(n)] *)
Definition str (n : Z) : string := NilZero.string_of_int (Z.to_int n).

(** [f"{n:0{w}d}"] for [n >= 0]. *)
Fixpoint zeros (n : nat) : string :=
  match n with O => EmptyString | S n' => String "0" (zeros n') end.

Definition zpad (w : nat) (n : Z) : string :=
  let d := str n in zeros (w - String.length d) ++ d.

(** [s.split(sep)] for a non-empty [sep]: the separators are taken
    leftmost first and do not overlap. [skip] counts the characters of a
    separator still to pass, [cur] is the current piece, reversed. *)
Fixpoint split_go (sep : string) (skip : nat) (cur s : string)
    : list string :=
  match s with
  | EmptyString => [rev cur]
  | String a s' =>
      match skip with
      | S k => split_go sep k cur s'
      | O =>
          if startswith sep s
          then rev cur :: split_go sep (String.length sep - 1) EmptyString s'
          else split_go sep 0 (String a cur) s'
      end
  end.

Definition split (sep s : string) : list string :=
  split_go sep 0 EmptyString s.

End Py.

(** ** A backtracking matcher for the patterns of [agent.py]

    Leftmost match, alternatives in order, greedy and lazy repetition,
    numbered groups: the semantics of [re.search] on the patterns used. *)

Module Re.

Inductive regex : Type :=
| Eps : regex
| Chr : (ascii -> bool) -> regex
| Cat : regex -> regex -> regex
| Alt : regex -> regex -> regex
| Rep : bool -> regex -> regex
| Grp : nat -> regex -> regex.

(** The patterns that match the empty string. *)
Fixpoint nullable (r : regex) : bool :=
  match r with
  | Eps => true
  | Chr _ => false
  | Cat r1 r2 => (nullable r1 && nullable r2)%bool
  | Alt r1 r2 => (nullable r1 || nullable r2)%bool
  | Rep _ _ => true
  | Grp _ r1 => nullable r1
  end.

Definition caps := list (nat * string).

Fixpoint group (i : nat) (c : caps) : option string :=
  match c with
  | [] => None
  | (j, s) :: c' => if Nat.eqb i j then Some s else group i c'
  end.

(** [Rep greedy r] is [r*] (greedy) or [r*?] (lazy); an iteration has to
    consume at least one character. *)
Fixpoint rmatch (A : Type) (r : regex) (s : string) (c : caps)
    (k : string -> caps -> option A) {struct r} : option A :=
  match r with
  | Eps => k s c
  | Chr p =>
      match s with
      | String a s' => if p a then k s' c else None
      | EmptyString => None
      end
  | Cat r1 r2 => rmatch r1 s c (fun s1 c1 => rmatch r2 s1 c1 k)
  | Alt r1 r2 =>
      match rmatch r1 s c k with
      | Some x => Some x
      | None => rmatch r2 s c k
      end
  | Rep greedy r1 =>
      (fix loop (n : nat) (s : string) (c : caps) {struct n} : option A :=
         match n with
         | O => k s c
         | S n' =>
             let again (_ : unit) :=
               rmatch r1 s c (fun s1 c1 =>
                 if Nat.ltb (String.length s1) (String.length s)
                 then loop n' s1 c1 else None) in
             if greedy
             then match again tt with Some x => Some x | None => k s c end
             else match k s c with Some x => Some x | None => again tt end
         end) (String.length s) s c
  | Grp i r1 =>
      rmatch r1 s c (fun s1 c1 =>
        k s1 ((i, Py.take (String.length s - String.length s1) s) :: c1))
  end.

Record rmatch_obj : Type := MatchObj {
  m_start : nat;          (* m.start() *)
  m_text : string;        (* m.group(0) *)
  m_caps : caps
}.

Definition m_group (i : nat) (m : rmatch_obj) : option string :=
  group i (m_caps m).

Definition match_here (r : regex) (pos : nat) (s : string) : option rmatch_obj :=
  rmatch r s [] (fun s1 c1 =>
    Some (MatchObj pos (Py.take (String.length s - String.length s1) s) c1)).

Fixpoint search_from (r : regex) (pos : nat) (s : string) : option rmatch_obj :=
  match match_here r pos s with
  | Some m => Some m
  | None =>
      match s with
      | EmptyString => None
      | String _ s' => search_from r (S pos) s'
      end
  end.

(** [re.search(r, s)] *)
Definition search (r : regex) (s : string) : option rmatch_obj :=
  search_from r 0 s.

(** Pattern syntax. *)
Definition opt (r : regex) : regex := Alt r Eps.           (* r?  *)
Definition star (r : regex) : regex := Rep true r.         (* r*  *)
Definition plus (r : regex) : regex := Cat r (Rep true r). (* r+  *)
Definition lazy_star (r : regex) : regex := Rep false r.   (* r*? *)
Definition lazy_plus (r : regex) : regex := Cat r (Rep false r). (* r+? *)

Definition chr (a : ascii) : regex := Chr (Ascii.eqb a).

(** A character under [re.I], as it folds on ASCII text. On other text
    [re.I] folds four more letters onto ASCII ones (U+0130 and U+0131 onto
    [i], U+017F onto [s], U+212A onto [k]) and [str.lower] two (U+0130,
    U+212A): a statement that sets a pattern under [re.I] against
    [Py.lower], or a class against its ASCII range, is made of ASCII text
    ([Py.is_ascii]). *)
Definition chr_i (a : ascii) : regex :=
  Chr (fun b => Ascii.eqb (Py.lower_char a) (Py.lower_char b)).

(** A literal, case-sensitive or under [re.I]. *)
Fixpoint lit (s : string) : regex :=
  match s with
  | EmptyString => Eps
  | String a s' => Cat (chr a) (lit s')
  end.

Fixpoint lit_i (s : string) : regex :=
  match s with
  | EmptyString => Eps
  | String a s' => Cat (chr_i a) (lit_i s')
  end.

Fixpoint alts (rs : list regex) : regex :=
  match rs with
  | [] => Chr (fun _ => false)
  | [r] => r
  | r :: rs' => Alt r (alts rs')
  end.

Definition digit : regex := Chr Py.is_digit.               (* \d *)
Definition space : regex := Chr Py.is_space.               (* \s *)
Definition dot : regex := Chr (fun a => negb (Ascii.eqb a "010")). (* . *)
Definition none_of (s : string) : regex :=                 (* [^...] *)
  Chr (fun a => negb (Py.contains (String a EmptyString) s)).

(** [re.split(r, s)] for a pattern that never matches the empty string. *)
Fixpoint split_fuel (fuel : nat) (r : regex) (s : string) : list string :=
  match fuel with
  | O => [s]
  | S fuel' =>
      match search r s with
      | None => [s]
      | Some m =>
          Py.take (m_start m) s ::
          split_fuel fuel' r (Py.drop (m_start m + String.length (m_text m)) s)
      end
  end.

Definition split (r : regex) (s : string) : list string :=
  split_fuel (String.length s) r s.

End Re.

(** ** Python [datetime] values *)

Module Dt.

(** [tzoffset] is [utcoffset()] in seconds; [None] for a naive value. *)
Record datetime : Type := DateTime {
  year : Z; month : Z; day : Z;
  hour : Z; minute : Z; second : Z; microsecond : Z;
  tzoffset : option Z
}.

(** The field ranges every [datetime] object satisfies. *)
Definition valid (d : datetime) : bool :=
  ((1 <=? year d) && (year d <=? 9999) &&
   (1 <=? month d) && (month d <=? 12) &&
   (1 <=? day d) && (day d <=? 31) &&
   (0 <=? hour d) && (hour d <=? 23) &&
   (0 <=? minute d) && (minute d <=? 59) &&
   (0 <=? second d) && (second d <=? 59) &&
   (0 <=? microsecond d) && (microsecond d <=? 999999))%bool.

(** Days since 1970-01-01 of a proleptic Gregorian date, and back. *)
Definition days_from_civil (y m d : Z) : Z :=
  let y := if m <=? 2 then y - 1 else y in
  let era := y / 400 in
  let yoe := y - era * 400 in
  let doy := (153 * (if 2 <? m then m - 3 else m + 9) + 2) / 5 + d - 1 in
  let doe := yoe * 365 + yoe / 4 - yoe / 100 + doy in
  era * 146097 + doe - 719468.

Definition civil_from_days (z : Z) : Z * Z * Z :=
  let z := z + 719468 in
  let era := z / 146097 in
  let doe := z - era * 146097 in
  let yoe := (doe - doe / 1460 + doe / 36524 - doe / 146096) / 365 in
  let y := yoe + era * 400 in
  let doy := doe - (365 * yoe + yoe / 4 - yoe / 100) in
  let mp := (5 * doy + 2) / 153 in
  let d := doy - (153 * mp + 2) / 5 + 1 in
  let m := if mp <? 10 then mp + 3 else mp - 9 in
  ((if m <=? 2 then y + 1 else y), m, d).

(** [d.weekday()]: Monday is 0. *)
Definition weekday (d : datetime) : Z :=
  (days_from_civil (year d) (month d) (day d) + 3) mod 7.

(** Wall-clock seconds since 1970-01-01T00:00:00 of the fields. *)
Definition wall_seconds (d : datetime) : Z :=
  days_from_civil (year d) (month d) (day d) * 86400
  + hour d * 3600 + minute d * 60 + second d.

(** Microseconds since the epoch of an aware value. *)
Definition instant (d : datetime) : option Z :=
  match tzoffset d with
  | Some off => Some ((wall_seconds d - off) * 1000000 + microsecond d)
  | None => None
  end.

(** The fields of wall-clock second [s] and microsecond [us]. *)
Definition of_wall (s us : Z) (tz : option Z) : datetime :=
  let '(y, m, d) := civil_from_days (s / 86400) in
  let r := s mod 86400 in
  DateTime y m d (r / 3600) ((r mod 3600) / 60) (r mod 60) us tz.

(** [datetime.utcnow()] at clock reading [t] (microseconds since the
    epoch). *)
Definition utcnow (t : Z) : datetime :=
  of_wall (t / 1000000) (t mod 1000000) None.

(** [int(datetime.now().timestamp())] *)
Definition timestamp_int (t : Z) : Z := Z.quot t 1000000.

(** [d.replace(hour=h, minute=m)]; [None] is [ValueError]. *)
Definition replace_hm (d : datetime) (h m : Z) : option datetime :=
  if ((0 <=? h) && (h <=? 23) && (0 <=? m) && (m <=? 59))%bool
  then Some (DateTime (year d) (month d) (day d) h m
                      (second d) (microsecond d) (tzoffset d))
  else None.

(** [d + timedelta(minutes=n)]; [None] is [OverflowError], raised by
    [timedelta] beyond 999999999 days and by the sum outside years
    1..9999. *)
Definition add_minutes (d : datetime) (n : Z) : option datetime :=
  if Z.abs (n * 60 / 86400) <=? 999999999 then
    let r := of_wall (wall_seconds d + n * 60) (microsecond d) (tzoffset d) in
    if ((1 <=? year r) && (year r <=? 9999))%bool then Some r else None
  else None.

(** [d.isoformat()] *)
Definition iso_offset (off : Z) : string :=
  let a := Z.abs off in
  (if off <? 0 then "-" else "+")
  ++ Py.zpad 2 (a / 3600) ++ ":" ++ Py.zpad 2 ((a mod 3600) / 60)
  ++ (if a mod 60 =? 0 then "" else ":" ++ Py.zpad 2 (a mod 60)).

Definition isoformat (d : datetime) : string :=
  Py.zpad 4 (year d) ++ "-" ++ Py.zpad 2 (month d) ++ "-" ++ Py.zpad 2 (day d)
  ++ "T" ++ Py.zpad 2 (hour d) ++ ":" ++ Py.zpad 2 (minute d)
  ++ ":" ++ Py.zpad 2 (second d)
  ++ (if microsecond d =? 0 then "" else "." ++ Py.zpad 6 (microsecond d))
  ++ match tzoffset d with Some off => iso_offset off | None => "" end.

(** [strftime]: the directives of ["%A, %B %d at %I:%M %p"]. *)
Definition day_names : list string :=
  ["Monday"; "Tuesday"; "Wednesday"; "Thursday"; "Friday"; "Saturday";
   "Sunday"].

Definition month_names : list string :=
  ["January"; "February"; "March"; "April"; "May"; "June"; "July";
   "August"; "September"; "October"; "November"; "December"].

Definition day_name (d : datetime) : string :=
  nth (Z.to_nat (weekday d)) day_names "".

Definition month_name (m : Z) : string :=
  nth (Z.to_nat (m - 1)) month_names "".

Definition hour12 (h : Z) : Z :=
  if h mod 12 =? 0 then 12 else h mod 12.

Definition am_pm (h : Z) : string := if h <? 12 then "AM" else "PM".

Definition two (n : Z) : string :=
  String (ascii_of_nat (48 + Z.to_nat (n / 10)))
    (String (ascii_of_nat (48 + Z.to_nat (n mod 10))) EmptyString).

(** [d.strftime("%A, %B %d at %I:%M %p")] *)
Definition strftime_event (d : datetime) : string :=
  day_name d ++ ", " ++ month_name (month d) ++ " " ++ two (day d)
  ++ " at " ++ two (hour12 (hour d)) ++ ":" ++ two (minute d)
  ++ " " ++ am_pm (hour d).

End Dt.

(** ** The booking ledger ([database.py])

    The table is the list of its rows in insertion order; the model covers
    the tables the program itself builds, whose [id]s grow along the list
    and whose [status] is one of the two values the code writes. *)

Module Db.

Inductive status : Type := active | cancelled.

Definition status_eqb (a b : status) : bool :=
  match a, b with
  | active, active | cancelled, cancelled => true
  | _, _ => false
  end.

Definition status_text (s : status) : string :=
  match s with active => "active" | cancelled => "cancelled" end.

(** A row; [list_bookings] and its siblings select the first seven columns,
    which the agent reads as [b[0]] .. [b[6]]. *)
Record row : Type := Row {
  id : Z;                 (* b[0] *)
  summary : string;       (* b[1] *)
  event_id : string;      (* b[2] *)
  start_time : string;    (* b[3] *)
  end_time : string;      (* b[4] *)
  timezone : string;      (* b[5] *)
  st : status;            (* b[6] *)
  created_at : string;
  updated_at : string
}.

Definition ledger := list row.

(** INTEGER PRIMARY KEY AUTOINCREMENT: one more than the largest [id]. *)
Definition next_id (db : ledger) : Z :=
  1 + fold_right (fun r m => Z.max (id r) m) 0 db.

(** [save_booking]; [now] is [datetime.utcnow().isoformat()]. *)
Definition save_booking (summary event_id start_time end_time timezone : string)
    (now : string) (db : ledger) : ledger :=
  (db ++ [Row (next_id db) summary event_id start_time end_time timezone
              active now now])%list.

(** ORDER BY start_time ASC: a stable insertion sort, text compared
    bytewise. *)
Fixpoint insert_by_start (r : row) (rs : list row) : list row :=
  match rs with
  | [] => [r]
  | r' :: rs' =>
      if String.ltb (start_time r) (start_time r')
      then r :: rs
      else r' :: insert_by_start r rs'
  end.

Definition order_by_start (rs : list row) : list row :=
  fold_left (fun acc r => insert_by_start r acc) rs [].

(** [list_bookings(status)] *)
Definition list_bookings_with (s : status) (db : ledger) : list row :=
  order_by_start (filter (fun r => status_eqb (st r) s) db).

(** [list_bookings()] *)
Definition list_bookings (db : ledger) : list row :=
  list_bookings_with active db.

(** [get_booking_by_id] *)
Definition get_booking_by_id (booking_id : Z) (db : ledger) : option row :=
  find (fun r => id r =? booking_id) db.

(** [get_last_booking]: WHERE status = 'active' ORDER BY id DESC LIMIT 1. *)
Definition get_last_booking (db : ledger) : option row :=
  fold_left
    (fun best r =>
       if status_eqb (st r) active then
         match best with
         | Some b => if id b <? id r then Some r else best
         | None => Some r
         end
       else best)
    db None.

(** [cancel_booking]: UPDATE ... WHERE id = ? AND status = 'active'. *)
Definition cancel_booking (booking_id : Z) (now : string) (db : ledger) : ledger :=
  map (fun r =>
         if ((id r =? booking_id) && status_eqb (st r) active)%bool
         then Row (id r) (summary r) (event_id r) (start_time r) (end_time r)
                  (timezone r) cancelled (created_at r) now
         else r) db.

(** [update_booking]: UPDATE ... WHERE id = ? AND status = 'active'. *)
Definition update_booking (booking_id : Z)
    (summary' start_time' end_time' timezone' : string)
    (now : string) (db : ledger) : ledger :=
  map (fun r =>
         if ((id r =? booking_id) && status_eqb (st r) active)%bool
         then Row (id r) summary' (event_id r) start_time' end_time'
                  timezone' (st r) (created_at r) now
         else r) db.

End Db.

(** ** The agent ([agent.py]) *)

(** The exceptions that can leave the functions below. *)
Inductive exn : Type :=
| ValueError | TypeError | OverflowError
| OtherError (what : string).

Definition raises (A : Type) : Type := (exn + A)%type.

Definition bind (A B : Type) (m : raises A) (f : A -> raises B) : raises B :=
  match m with
  | inl e => inl e
  | inr a => f a
  end.

Notation "'do' x <- m ; f" := (bind m (fun x => f))
  (at level 10, x name, m at level 100, f at level 200).

(** A list comprehension whose element expression can raise. *)
Fixpoint map_raising (A B : Type) (f : A -> raises B) (xs : list A)
    : raises (list B) :=
  match xs with
  | [] => inr []
  | x :: xs' =>
      do y <- f x;
      do ys <- map_raising f xs';
      inr (y :: ys)
  end.

Definition nl : string := String "010" EmptyString.

Inductive intent : Type :=
| Book | Cancel | Edit | List | Check | Help | Unknown.

Definition intent_text (i : intent) : string :=
  match i with
  | Book => "book" | Cancel => "cancel" | Edit => "edit" | List => "list"
  | Check => "check" | Help => "help" | Unknown => "unknown"
  end.

(** The context event rebuilt from the chat history. *)
Record context_event : Type := ContextEvent {
  ce_summary : string;
  ce_datetime : option string;
  ce_duration : Z;
  ce_timezone : string;
  ce_attendees : list string
}.

(** The slot record [extract_slots] returns. *)
Record slots : Type := Slots {
  datetime : option string;
  duration : Z;
  summary : string;
  timezone : string;
  attendees : list string;
  ambiguity : bool;
  reference : option string
}.

Record message : Type := Message { role : string; content : string }.

(** The dictionary [handle_user_message] returns. *)
Record result : Type := Result {
  res_intent : intent;
  res_slots : slots;
  response : string
}.

(** *** Patterns *)

Module Pat.
Import Re.

(** A group that always takes part in its pattern. *)
Definition grp (i : nat) (m : rmatch_obj) : string :=
  match m_group i m with Some g => g | None => EmptyString end.

(** [(\d{1,2})(?::(\d{2}))?\s*(am|pm)], re.I *)
Definition clock_time : regex :=
  Cat (Grp 1 (Cat digit (opt digit)))
 (Cat (opt (Cat (chr ":") (Grp 2 (Cat digit digit))))
 (Cat (star space)
      (Grp 3 (Alt (lit_i "am") (lit_i "pm"))))).

(** [1 ?hour], re.I *)
Definition one_hour : regex :=
  Cat (chr "1") (Cat (opt (chr " ")) (lit_i "hour")).

(** [(\d+)\s*min], re.I *)
Definition minutes : regex :=
  Cat (Grp 1 (plus digit)) (Cat (star space) (lit_i "min")).

(** [(\d+)\s*hour], re.I *)
Definition hours : regex :=
  Cat (Grp 1 (plus digit)) (Cat (star space) (lit_i "hour")).

(** [for ([^,\\.;]+)], re.I *)
Definition for_summary : regex :=
  Cat (lit_i "for ") (Grp 1 (plus (none_of ",\.;"))).

(** [([A-Za-z]+/[A-Za-z_]+)] *)
Definition tz_name : regex :=
  Grp 1 (Cat (plus (Chr Py.is_alpha))
        (Cat (chr "/")
             (plus (Chr (fun a => (Py.is_alpha a || Ascii.eqb a "_")%bool))))).

(** [with ([A-Za-z ,and]+)], re.I *)
Definition with_names : regex :=
  Cat (lit_i "with ")
      (Grp 1 (plus (Chr (fun a =>
         (Py.is_alpha a || Ascii.eqb a " " || Ascii.eqb a ",")%bool)))).

(** [,| and ] *)
Definition name_sep : regex := Alt (lit ",") (lit " and ").

(** [(\d{1,2}(:\d{2})?\s*(am|pm)?)], re.I *)
Definition time_token : regex :=
  Grp 1 (Cat digit (Cat (opt digit)
        (Cat (opt (Grp 2 (Cat (chr ":") (Cat digit digit))))
        (Cat (star space)
             (opt (Grp 3 (Alt (lit_i "am") (lit_i "pm")))))))).

(** [(event|call|appointment) (about|on|for) ([^,\\.]+)], re.I *)
Definition event_phrase : regex :=
  Cat (Grp 1 (alts [lit_i "event"; lit_i "call"; lit_i "appointment"]))
 (Cat (chr " ")
 (Cat (Grp 2 (alts [lit_i "about"; lit_i "on"; lit_i "for"]))
 (Cat (chr " ")
      (Grp 3 (plus (none_of ",\.")))))).

(** ['(.+?)' (?:booked|scheduled|updated|cancelled).*?for ([\w, :]+)] *)
Definition history_event : regex :=
  Cat (chr "'")
 (Cat (Grp 1 (lazy_plus dot))
 (Cat (lit "' ")
 (Cat (alts [lit "booked"; lit "scheduled"; lit "updated"; lit "cancelled"])
 (Cat (lazy_star dot)
 (Cat (lit "for ")
      (Grp 2 (plus (Chr (fun a =>
         (Py.is_word a || Ascii.eqb a "," || Ascii.eqb a " "
          || Ascii.eqb a ":")%bool))))))))).

End Pat.

(** *** Functions that call no external package *)

Definition extract_intent (user_msg : string) : intent :=
  let msg := Py.lower user_msg in
  if Py.any_in ["cancel"; "delete"; "remove"] msg then Cancel
  else if Py.any_in ["edit"; "reschedule"; "move"; "change"] msg then Edit
  else if Py.any_in ["book"; "schedule"; "set up"; "add"] msg then Book
  else if Py.any_in ["list"; "show"; "what"; "upcoming"; "events"; "history";
                     "held"] msg then List
  else if Py.any_in ["free"; "available"; "slots"] msg then Check
  else if Py.any_in ["help"; "how"] msg then Help
  else Unknown.

Definition extract_attendees (user_msg : string) : list string :=
  match Re.search Pat.with_names user_msg with
  | Some m =>
      let names := Re.split Pat.name_sep (Pat.grp 1 m) in
      map (fun n => Py.title (Py.strip n))
          (filter (fun n => Py.truthy (Py.strip n)) names)
  | None => []
  end.

Definition extract_reference (user_msg : string) : option string :=
  let time_match := Re.search Pat.time_token user_msg in
  let summary_match := Re.search Pat.event_phrase user_msg in
  match time_match with
  | Some m => Some (Re.m_text m)
  | None =>
      match summary_match with
      | Some m => Some (Py.strip (Pat.grp 3 m))
      | None =>
          if Py.contains "last" (Py.lower user_msg) then Some "last"
          else if Py.contains "next" (Py.lower user_msg) then Some "next"
          else if Py.any_in ["it"; "that"; "this"] (Py.lower user_msg)
               then Some "context"
          else None
      end
  end.

Definition vague_words : list string :=
  ["next week"; "someday"; "later"; "soon"; "whenever"; "some time";
   "not sure"].

(** [int(m.group(1))] on the digits of a duration: the run [\d+] is as
    long as the text makes it, and the conversion raises on a run beyond
    the limit. *)
Definition int_of_group (m : Re.rmatch_obj) : raises Z :=
  match Py.int_checked (Pat.grp 1 m) with
  | Some n => inr n
  | None => inl ValueError
  end.

(** Lines 234-242 of [extract_slots]. *)
Definition extract_duration (user_msg : string) (ctx : option context_event)
    : raises Z :=
  match Re.search Pat.one_hour user_msg with
  | Some _ => inr 60
  | None =>
      match Re.search Pat.minutes user_msg with
      | Some m => int_of_group m
      | None =>
          match Re.search Pat.hours user_msg with
          | Some m => do n <- int_of_group m; inr (n * 60)
          | None =>
              inr match ctx with
                  | Some c => if ce_duration c =? 0 then 30 else ce_duration c
                  | None => 30
                  end
          end
      end
  end.

(** Lines 243-247 of [extract_slots]. *)
Definition extract_summary (user_msg : string) (ctx : option context_event)
    : string :=
  match Re.search Pat.for_summary user_msg with
  | Some m => Py.strip (Pat.grp 1 m)
  | None =>
      match ctx with
      | Some c => if Py.truthy (ce_summary c) then ce_summary c else "Event"
      | None => "Event"
      end
  end.

Definition extract_timezone (user_msg : string) (ctx : option context_event)
    : string :=
  match Re.search Pat.tz_name user_msg with
  | Some m => Pat.grp 1 m
  | None =>
      match ctx with
      | Some c => if Py.truthy (ce_timezone c) then ce_timezone c else "UTC"
      | None => "UTC"
      end
  end.

Definition slot_attendees (user_msg : string) (ctx : option context_event)
    : list string :=
  match extract_attendees user_msg with
  | [] => match ctx with Some c => ce_attendees c | None => [] end
  | names => names
  end.

(** Lines 223-233: the hour and minute of an explicit [H(:MM)? am|pm];
    the groups hold one or two digits, on which [int] never raises. *)
Definition refill_time (m : Re.rmatch_obj) : Z * Z :=
  let hour := Py.int (Pat.grp 1 m) in
  let minute :=
    match Re.m_group 2 m with Some g => Py.int g | None => 0 end in
  let ampm := Py.lower (Pat.grp 3 m) in
  let hour :=
    if ((ampm =? "pm")%string && negb (hour =? 12))%bool then hour + 12
    else if ((ampm =? "am")%string && (hour =? 12))%bool then 0
    else hour in
  (hour, minute).

(** *** Functions over [dateparser], [pytz] and the ledger *)

Section Agent.

(** [search_dates(text, settings={"RETURN_AS_TIMEZONE_AWARE": True,
    "DATE_ORDER": "DMY"})]: [None] or the list of (fragment, datetime). *)
Variable search_dates : string -> option (list (string * Dt.datetime)).

(** [dateparser.parse(text)] *)
Variable dateparser_parse : string -> option Dt.datetime.

(** [dt.astimezone(pytz.timezone(name))]; an unknown zone name raises. *)
Variable astimezone : string -> Dt.datetime -> raises Dt.datetime.

(** Lines 218-233 of [extract_slots]: [dt]. *)
Definition parse_when (user_msg : string) : raises (option Dt.datetime) :=
  match search_dates user_msg with
  | Some ((_, dt) :: _) =>
      if ((Dt.hour dt =? 0) && (Dt.minute dt =? 0))%bool then
        match Re.search Pat.clock_time user_msg with
        | Some m =>
            let '(hour, minute) := refill_time m in
            match Dt.replace_hm dt hour minute with
            | Some dt' => inr (Some dt')
            | None => inl ValueError
            end
        | None => inr (Some dt)
        end
      else inr (Some dt)
  | Some [] | None => inr None
  end.

Definition extract_slots (user_msg : string) (ctx : option context_event)
    : raises slots :=
  do dt <- parse_when user_msg;
  do duration <- extract_duration user_msg ctx;
  let summary := extract_summary user_msg ctx in
  let timezone := extract_timezone user_msg ctx in
  let attendees := slot_attendees user_msg ctx in
  let ambiguity :=
    (match dt with None => true | Some _ => false end
     || Py.any_in vague_words (Py.lower user_msg))%bool in
  let reference := extract_reference user_msg in
  inr (Slots (option_map Dt.isoformat dt) duration summary timezone
             attendees ambiguity reference).

Definition find_booking_by_reference (reference : string)
    (ctx : option context_event) (db : Db.ledger) : option Db.row :=
  let bookings := Db.list_bookings db in
  match bookings with
  | [] => None
  | first :: _ =>
      if (reference =? "last")%string then Some (last bookings first)
      else if (reference =? "next")%string then Some first
      else
        let by_context :=
          match ctx with
          | Some c =>
              if (reference =? "context")%string then
                find (fun b =>
                  ((Py.truthy (ce_summary c)
                    && Py.contains (Py.lower (ce_summary c))
                                   (Py.lower (Db.summary b)))
                   || match ce_datetime c with
                      | Some d => Py.truthy d && Py.contains d (Db.start_time b)
                      | None => false
                      end)%bool) bookings
              else None
          | None => None
          end in
        match by_context with
        | Some b => Some b
        | None =>
            find (fun b =>
              (Py.truthy reference
               && (Py.contains reference (Db.start_time b)
                   || Py.contains (Py.lower reference)
                                  (Py.lower (Db.summary b))))%bool) bookings
        end
  end.

Definition format_event_natural (b : Db.row) : raises string :=
  match dateparser_parse (Db.start_time b) with
  | None => inr ("Your event '" ++ Db.summary b ++ "' (time unknown).")
  | Some dt =>
      do dt_local <- (if (Db.timezone b =? "UTC")%string then inr dt
                      else astimezone (Db.timezone b) dt);
      let date_str := Dt.strftime_event dt_local in
      inr ("Your event '" ++ Db.summary b ++ "' is scheduled for "
           ++ date_str ++ " (" ++ Db.timezone b ++ "). Status: "
           ++ Db.status_text (Db.st b) ++ ".")
  end.

Fixpoint first_event_reply (msgs : list message) : option context_event :=
  match msgs with
  | [] => None
  | msg :: older =>
      if ((role msg =? "assistant")%string
          && Py.contains "event" (Py.lower (content msg)))%bool then
        match Re.search Pat.history_event (content msg) with
        | Some m =>
            Some (ContextEvent (Pat.grp 1 m)
                    (option_map Dt.isoformat (dateparser_parse (Pat.grp 2 m)))
                    30 "UTC" [])
        | None => first_event_reply older
        end
      else first_event_reply older
  end.

Definition get_context_event_from_history (messages : list message)
    : option context_event :=
  first_event_reply (List.rev messages).

(** [get_context_event_from_history(messages) if messages else None] *)
Definition history_context (messages : option (list message))
    : option context_event :=
  match messages with
  | Some (m :: ms) => get_context_event_from_history (m :: ms)
  | Some [] | None => None
  end.

(** [(dateparser.parse(start) + timedelta(minutes=duration)).isoformat()] *)
Definition end_time_of (start : string) (duration : Z) : raises string :=
  match dateparser_parse start with
  | None => inl TypeError
  | Some dt =>
      match Dt.add_minutes dt duration with
      | Some e => inr (Dt.isoformat e)
      | None => inl OverflowError
      end
  end.

(** [dateparser.parse(b[3]) < now] and [... >= now], [now] being
    [datetime.now(pytz.UTC)], the instant of clock reading [t]: aware
    datetimes compare by their instants, a naive one does not compare with
    an aware one. *)
Definition starts_before (t : Z) (b : Db.row) : raises bool :=
  match dateparser_parse (Db.start_time b) with
  | None => inl TypeError
  | Some dt =>
      match Dt.instant dt with
      | Some i => inr (i <? t)
      | None => inl TypeError
      end
  end.

Definition starts_at_or_after (t : Z) (b : Db.row) : raises bool :=
  match dateparser_parse (Db.start_time b) with
  | None => inl TypeError
  | Some dt =>
      match Dt.instant dt with
      | Some i => inr (i >=? t)
      | None => inl TypeError
      end
  end.

(** [[b for b in bookings if test(now(), b)]]: the clock is read once per
    element, from reading number [tick] on. *)
Fixpoint select (clock : nat -> Z) (test : Z -> Db.row -> raises bool)
    (tick : nat) (bookings : list Db.row) : raises (list Db.row) :=
  match bookings with
  | [] => inr []
  | b :: rest =>
      do keep <- test (clock tick) b;
      do kept <- select clock test (S tick) rest;
      inr (if keep then b :: kept else kept)
  end.

Definition help_text : string :=
  "You can ask me to book, cancel, edit, or list your events. "
  ++ "Examples:" ++ nl
  ++ "- Book an event tomorrow at 10am for 1 hour with Alice" ++ nl
  ++ "- Cancel my last event" ++ nl
  ++ "- Edit my next event to Friday at 3pm" ++ nl
  ++ "- What are my events this week?" ++ nl
  ++ "- You can also use natural language like 'Add a call after lunch next Monday.'".

(** The reply of the [list] branch from its two sections. *)
Definition list_reply (upcoming held : list string) : string :=
  match upcoming, held with
  | [], [] => "You have no events scheduled."
  | _, _ =>
      (match upcoming with
       | [] => ""
       | _ => "Here are your upcoming events:" ++ nl ++ Py.join nl upcoming
       end)
      ++ (match held with
          | [] => ""
          | _ => nl ++ nl ++ "Here are your past events:" ++ nl
                 ++ Py.join nl held
          end)
  end.

(** The target of a cancel or an edit (lines 342-343 and 350-351). *)
Definition resolve_target (s : slots) (ctx : option context_event)
    (db : Db.ledger) : option Db.row :=
  match reference s with
  | Some ref =>
      if Py.truthy ref then find_booking_by_reference ref ctx db
      else Db.get_last_booking db
  | None => Db.get_last_booking db
  end.

(** [handle_user_message(user_msg, messages)] on ledger [db]; [clock n] is
    the n-th reading of the system clock during the call, in microseconds
    since the epoch. The ledger after the call comes first. *)
Definition handle_user_message (user_msg : string)
    (messages : option (list message)) (clock : nat -> Z) (db : Db.ledger)
    : Db.ledger * raises result :=
  let context_event := history_context messages in
  let intent := extract_intent user_msg in
  match extract_slots user_msg context_event with
  | inl e => (db, inl e)
  | inr slots =>
      let reply (r : string) : raises result :=
        inr (Result intent slots r) in
      match intent with
      | Book =>
          if ambiguity slots then
            (db, reply "Please specify a clear date and time for your event.")
          else
            match datetime slots with
            | None => (db, inl TypeError)
            | Some start_time =>
                match end_time_of start_time (duration slots) with
                | inl e => (db, inl e)
                | inr end_time =>
                    if existsb (fun b =>
                         ((Db.start_time b =? start_time)%string
                          && Db.status_eqb (Db.st b) Db.active)%bool)
                         (Db.list_bookings db)
                    then (db, reply "You already have an event at that time.")
                    else
                      let event_id :=
                        "evt_" ++ Py.str (Dt.timestamp_int (clock 0%nat)) in
                      (Db.save_booking (summary slots) event_id start_time
                         end_time (timezone slots)
                         (Dt.isoformat (Dt.utcnow (clock 1%nat))) db,
                       reply ("Event '" ++ summary slots ++ "' booked for "
                              ++ start_time ++ " (" ++ timezone slots ++ ")."
                              ++ match attendees slots with
                                 | [] => ""
                                 | names =>
                                     " Attendees: " ++ Py.join ", " names
                                     ++ "."
                                 end))
                end
            end
      | Cancel =>
          match resolve_target slots context_event db with
          | Some booking =>
              (Db.cancel_booking (Db.id booking)
                 (Dt.isoformat (Dt.utcnow (clock 0%nat))) db,
               reply ("Cancelled event: '" ++ Db.summary booking ++ "' at "
                      ++ Db.start_time booking))
          | None => (db, reply "No matching event found to cancel.")
          end
      | Edit =>
          match resolve_target slots context_event db with
          | Some booking =>
              if ambiguity slots then
                (db, reply "Please specify the new date/time or summary for your event.")
              else
                match datetime slots with
                | None => (db, inl TypeError)
                | Some start_time =>
                    match end_time_of start_time (duration slots) with
                    | inl e => (db, inl e)
                    | inr end_time =>
                        (Db.update_booking (Db.id booking) (summary slots)
                           start_time end_time (timezone slots)
                           (Dt.isoformat (Dt.utcnow (clock 0%nat))) db,
                         reply ("Updated event to '" ++ summary slots
                                ++ "' at " ++ start_time ++ " ("
                                ++ timezone slots ++ ")."))
                    end
                end
          | None => (db, reply "No matching event found to edit.")
          end
      | List =>
          let bookings := Db.list_bookings db in
          (db,
           do held <- select clock starts_before 0 bookings;
           do upcoming <- select clock starts_at_or_after
                            (List.length bookings) bookings;
           do upcoming_text <- map_raising format_event_natural upcoming;
           do held_text <- map_raising format_event_natural held;
           reply (list_reply upcoming_text held_text))
      | Check =>
          match Db.list_bookings db with
          | [] => (db, reply "You are free! No events scheduled.")
          | bookings =>
              (db, reply ("You are busy at:" ++ nl
                          ++ Py.join nl
                               (map (fun b => Db.start_time b ++ " - "
                                              ++ Db.end_time b ++ " ("
                                              ++ Db.timezone b ++ ")")
                                    bookings)))
          end
      | Help => (db, reply help_text)
      | Unknown =>
          (db, reply "Sorry, I didn't understand. Please try again or type 'help'.")
      end
  end.

End Agent.

(** *** The booking node of the graph pipeline *)

(** What [calendar_utils.create_event] returns: the created event, or the
    dictionary [{'error': ...}]. *)
Inductive provider_reply : Type :=
| Created (event : string)
| Failed (error : string).

(** The graph state: the slots ["date/time"], ["duration"], ["summary"]
    and the key ["response"], each absent or present. *)
Record booking_state : Type := BookingState {
  bs_datetime : option string;
  bs_duration : option Z;
  bs_summary : option string;
  bs_response : option string
}.

Section Provider.

(** [datetime.datetime.fromisoformat(s)] as evaluated inside the node's
    [try]: [None] stands for whatever exception the expression raises
    there (a malformed string; the attribute lookup itself once line 18 of
    the module has rebound [datetime] to the class). *)
Variable fromisoformat : string -> option Dt.datetime.

(** [calendar_utils.create_event(dt, end, summary)] *)
Variable create_event : Dt.datetime -> Dt.datetime -> string -> provider_reply.

Definition set_response (state : booking_state) (r : string) : booking_state :=
  BookingState (bs_datetime state) (bs_duration state) (bs_summary state)
               (Some r).

(** The body of the [try] of [confirm_booking_node]; [None] when it
    raises. *)
Definition try_confirm (state : booking_state) : option string :=
  match bs_datetime state with
  | None => None
  | Some s =>
      match fromisoformat s with
      | None => None
      | Some dt =>
          let duration :=
            match bs_duration state with Some d => d | None => 30 end in
          match Dt.add_minutes dt duration with
          | None => None
          | Some end_ =>
              let summary :=
                match bs_summary state with
                | Some t => t
                | None => "Meeting"
                end in
              match create_event dt end_ summary with
              | Failed error => Some ("Failed to book: " ++ error)
              | Created _ =>
                  Some ("âœ… Meeting '" ++ summary ++ "' booked on "
                        ++ Dt.strftime_event dt)
              end
          end
      end
  end.

(** [confirm_booking_node(state)] beside ledger [db]: the node calls no
    function of [database.py], the ledger comes back as it went in. *)
Definition confirm_booking_node (state : booking_state) (db : Db.ledger)
    : Db.ledger * booking_state :=
  match try_confirm state with
  | Some r => (db, set_response state r)
  | None => (db, set_response state "Booking failed. Please try again.")
  end.

End Provider.



(** ** Reading a rendered date back

    The inverse of the format string of [format_event_natural], for the
    round-trip property of the formatter: it returns the month, day, hour
    and minute that ["%A, %B %d at %I:%M %p"] renders. *)

Module Rd.

Fixpoint strip_prefix (p s : string) : option string :=
  match p, s with
  | EmptyString, _ => Some s
  | String a p', String b s' =>
      if Ascii.eqb a b then strip_prefix p' s' else None
  | String _ _, EmptyString => None
  end.

(** The first name of [names], counted from [i], that [s] starts with
    followed by [sep]. *)
Fixpoint read_name (names : list string) (sep : string) (i : Z) (s : string)
    : option (Z * string) :=
  match names with
  | [] => None
  | n :: rest =>
      match strip_prefix (n ++ sep) s with
      | Some s' => Some (i, s')
      | None => read_name rest sep (i + 1) s
      end
  end.

Definition read_two (s : string) : option (Z * string) :=
  match s with
  | String a (String b s') =>
      if (Py.is_digit a && Py.is_digit b)%bool
      then Some (10 * Py.digit_val a + Py.digit_val b, s')
      else None
  | _ => None
  end.

Definition read_event_date (s : string) : option (Z * Z * Z * Z) :=
  match read_name Dt.day_names ", " 0 s with
  | None => None
  | Some (_, s1) =>
  match read_name Dt.month_names " " 1 s1 with
  | None => None
  | Some (month, s2) =>
  match read_two s2 with
  | None => None
  | Some (day, s3) =>
  match strip_prefix " at " s3 with
  | None => None
  | Some s4 =>
  match read_two s4 with
  | None => None
  | Some (h12, s5) =>
  match strip_prefix ":" s5 with
  | None => None
  | Some s6 =>
  match read_two s6 with
  | None => None
  | Some (minute, s7) =>
      if (s7 =? " AM")%string then Some (month, day, h12 mod 12, minute)
      else if (s7 =? " PM")%string
           then Some (month, day, h12 mod 12 + 12, minute)
      else None
  end end end end end end end.

End Rd.

(** ** Stand-ins for the external packages, for the worked runs *)

Module Stub.

Definition jan5 : Dt.datetime := Dt.DateTime 2030 1 5 10 0 0 0 (Some 0).
Definition jan6 : Dt.datetime := Dt.DateTime 2030 1 6 10 0 0 0 (Some 0).
Definition jan5_2019 : Dt.datetime := Dt.DateTime 2019 1 5 10 0 0 0 (Some 0).

(** Finds the two dates the runs mention, written out in full. *)
Definition search_dates (text : string)
    : option (list (string * Dt.datetime)) :=
  if Py.contains "2030-01-05 10:00" text
  then Some [("2030-01-05 10:00", jan5)]
  else if Py.contains "2030-01-06 10:00" text
  then Some [("2030-01-06 10:00", jan6)]
  else None.

(** Parses the ISO strings of the dates above. *)
Definition parse (text : string) : option Dt.datetime :=
  if (text =? Dt.isoformat jan5)%string then Some jan5
  else if (text =? Dt.isoformat jan6)%string then Some jan6
  else if (text =? Dt.isoformat jan5_2019)%string then Some jan5_2019
  else None.

(** No zone but UTC is known. *)
Definition astimezone (name : string) (d : Dt.datetime) : raises Dt.datetime :=
  inl (OtherError "UnknownTimeZoneError").

(** A clock standing at 2025-11-03T17:13:20Z. *)
Definition clock (n : nat) : Z := 1762190000000000.

Definition handle (user_msg : string) (db : Db.ledger)
    : Db.ledger * raises result :=
  handle_user_message search_dates parse astimezone user_msg None clock db.

(** The ledger after the messages of [msgs], in order. *)
Definition run (msgs : list string) (db : Db.ledger) : Db.ledger :=
  fold_left (fun db msg => fst (handle msg db)) msgs db.

(** The ledger after one booking, and after two. *)
Definition booked_once : Db.ledger :=
  Eval vm_compute in run ["book a call on 2030-01-05 10:00"] [].

Definition booked_twice : Db.ledger :=
  Eval vm_compute in
    run ["book a call on 2030-01-05 10:00";
         "book a call on 2030-01-06 10:00"] [].

End Stub.

(** A date at the end of the range of [datetime]: ten minutes before the
    year 10000. *)
Module Edge.

Definition last_evening : Dt.datetime :=
  Dt.DateTime 9999 12 31 23 50 0 0 (Some 0).

Definition search_dates (text : string)
    : option (list (string * Dt.datetime)) :=
  if Py.contains "9999-12-31 23:50" text
  then Some [("9999-12-31 23:50", last_evening)]
  else None.

Definition parse (text : string) : option Dt.datetime :=
  if (text =? Dt.isoformat last_evening)%string then Some last_evening
  else None.

End Edge.

(** A clock that advances by one microsecond from a reading to the next,
    from [t0] on. *)
Definition ticking (t0 : Z) (n : nat) : Z := t0 + Z.of_nat n.

(** ** Properties the statements below speak of *)

(** The active rows of [db] that start at [s]. *)
Definition active_at (s : string) (db : Db.ledger) : list Db.row :=
  filter (fun r => ((Db.start_time r =? s)%string
                    && Db.status_eqb (Db.st r) Db.active)%bool) db.

(** At most one active row for any start time. *)
Definition unique_active_start (db : Db.ledger) : Prop :=
  forall s, (List.length (active_at s db) <= 1)%nat.

(** [w] occurs in [s]. *)
Definition substring (w s : string) : Prop :=
  exists pre post, s = pre ++ w ++ post.

(** Two datetimes that show the same minute. *)
Definition agree_to_minute (a b : Dt.datetime) : bool :=
  ((Dt.year a =? Dt.year b) && (Dt.month a =? Dt.month b)
   && (Dt.day a =? Dt.day b) && (Dt.hour a =? Dt.hour b)
   && (Dt.minute a =? Dt.minute b))%bool.

Section Sections.

Variable dateparser_parse : string -> option Dt.datetime.




End Sections.

(** The datetime [format_event_natural] renders for row [b]. *)
Definition localized (astimezone : string -> Dt.datetime -> raises Dt.datetime)
    (b : Db.row) (dt : Dt.datetime) : raises Dt.datetime :=
  if (Db.timezone b =? "UTC")%string then inr dt
  else astimezone (Db.timezone b) dt.

(** ** The rest of the pipeline *)

(** [end_conversation_node(state)]: a missing or empty reply is replaced
    by the closing sentence. *)
Definition end_conversation_node (state : booking_state) : booking_state :=
  if Py.truthy_opt (bs_response state) then state
  else set_response state
         "Let me know if you want to schedule another meeting.".

(** What [chat_endpoint] of [main.py] answers: the result dictionary, or
    [{"error": str(e)}] for an exception. *)
Inductive chat_response : Type :=
| ChatResult (r : result)
| ChatError (e : exn).

Section Endpoint.

Variable search_dates : string -> option (list (string * Dt.datetime)).
Variable dateparser_parse : string -> option Dt.datetime.
Variable astimezone : string -> Dt.datetime -> raises Dt.datetime.

(** [chat_endpoint(chat_request)]: the message is handled without chat
    history; any exception is caught. *)
Definition chat_endpoint (message : string) (clock : nat -> Z)
    (db : Db.ledger) : Db.ledger * chat_response :=
  match handle_user_message search_dates dateparser_parse astimezone
          message None clock db with
  | (db', inr r) => (db', ChatResult r)
  | (db', inl e) => (db', ChatError e)
  end.

End Endpoint.

(** What [fetch_events] of [streamlit_app.py] stores as the upcoming and
    the held events, from the reply to the message "list". *)
Definition fetch_events (reply : string) : list string * list string :=
  let lines_of (part : string) : list string :=
    filter (fun line => Py.truthy (Py.strip line))
           (tl (Py.split nl part)) in
  if Py.contains "Here are your upcoming events" reply then
    match Py.split (nl ++ nl) reply with
    | first :: second :: _ => (lines_of first, lines_of second)
    | [first] => (lines_of first, [])
    | [] => ([], [])
    end
  else ([], []).

(** A line of a list reply as the sidebar can read it back: no line feed
    in it, and not blank. *)
Definition plain_line (line : string) : Prop :=
  Py.any_char (Ascii.eqb "010") line = false
  /\ Py.truthy (Py.strip line) = true.

(** The ids of a table that grew from the empty one: 1, 2, 3, ... *)
Definition ids_sequential (db : Db.ledger) : Prop :=
  map Db.id db = map Z.of_nat (seq 1 (List.length db)).

(** How a request may change a row: the id, the event id and the creation
    time stay, a cancelled row stays as it is, and no row becomes active. *)
Definition evolves (r r' : Db.row) : Prop :=
  Db.id r' = Db.id r
  /\ Db.event_id r' = Db.event_id r
  /\ Db.created_at r' = Db.created_at r
  /\ (Db.st r = Db.cancelled -> r' = r)
  /\ (Db.st r' = Db.active -> Db.st r = Db.active).

(** The rows in the order [list_bookings] promises. *)
Definition start_le (a b : Db.row) : Prop :=
  String.leb (Db.start_time a) (Db.start_time b) = true.

(** * Theorems *)

(** ** Strings *)

Lemma startswith_spec (p s : string) :
  Py.startswith p s = true <-> exists post, s = p ++ post.
Proof.
  revert s; induction p as [|a p IH]; intros s; simpl.
  - split; [intros _; exists s; reflexivity | reflexivity].
  - destruct s as [|b s].
    + split; [discriminate | intros [post H]; discriminate].
    + rewrite andb_true_iff, IH. split.
      * intros [Hab [post ->]]. apply Ascii.eqb_eq in Hab. subst b.
        exists post. reflexivity.
      * intros [post H]. injection H as -> ->. split.
        -- apply Ascii.eqb_refl.
        -- exists post. reflexivity.
Qed.

Lemma contains_spec (p s : string) :
  Py.contains p s = true <-> substring p s.
Proof.
  unfold substring.
  induction s as [|a s IH].
  - cbn [Py.contains]. rewrite orb_false_r, startswith_spec. split.
    + intros [post H]. exists "", post. exact H.
    + intros [pre [post H]]. destruct pre; [|discriminate].
      exists post. exact H.
  - cbn [Py.contains]. rewrite orb_true_iff, startswith_spec, IH. split.
    + intros [[post H] | [pre [post H]]].
      * exists "", post. exact H.
      * exists (String a pre), post. simpl. now rewrite H.
    + intros [pre [post H]]. destruct pre as [|b pre].
      * left. exists post. exact H.
      * right. simpl in H. injection H as _ H. exists pre, post. exact H.
Qed.

Lemma any_in_spec (ws : list string) (s : string) :
  Py.any_in ws s = true <-> exists w, In w ws /\ substring w s.
Proof.
  unfold Py.any_in. rewrite existsb_exists.
  split; intros [w [Hin H]]; exists w; split; try assumption;
    now apply contains_spec.
Qed.

(** ** The matcher *)

(** A pattern that matches the empty string never fails in front of a
    continuation that never fails. *)
Lemma rmatch_nullable (A : Type) (r : Re.regex) :
  Re.nullable r = true ->
  forall (k : string -> Re.caps -> option A) (s : string) (c : Re.caps),
    (forall s' c', k s' c' <> None) -> Re.rmatch r s c k <> None.
Proof.
  induction r as [|p|r1 IH1 r2 IH2|r1 IH1 r2 IH2|g r1 IH1|i r1 IH1];
    intros Hn k s c Hk; simpl in *.
  - apply Hk.
  - discriminate.
  - apply andb_true_iff in Hn. destruct Hn as [H1 H2].
    apply IH1; [exact H1|]. intros s' c'. now apply IH2.
  - destruct (Re.rmatch r1 s c k) eqn:E; [discriminate|].
    destruct (Re.nullable r1) eqn:N1.
    + exfalso. revert E. now apply IH1.
    + simpl in Hn. now apply IH2.
  - generalize (String.length s) at 1. intros n. revert s c.
    induction n as [|n IHn]; intros s c; [apply Hk|].
    destruct g.
    + destruct (Re.rmatch r1 s c _); [discriminate | apply Hk].
    + destruct (k s c) eqn:E; [discriminate|]. exfalso. revert E. apply Hk.
  - apply IH1; [exact Hn|]. intros s' c'. apply Hk.
Qed.

(** A pattern [(p rest)] with [rest] matching the empty string is found
    exactly in the texts that hold a character of class [p]. *)
Lemma search_head_class (i : nat) (p : ascii -> bool) (rest : Re.regex)
    (text : string) :
  Re.nullable rest = true ->
  (Re.search (Re.Grp i (Re.Cat (Re.Chr p) rest)) text = None
   <-> Py.any_char p text = false).
Proof.
  intros Hn. unfold Re.search. generalize 0%nat.
  induction text as [|a s IH]; intros pos.
  - simpl. split; reflexivity.
  - cbn [Re.search_from Py.any_char].
    unfold Re.match_here at 1. cbn [Re.rmatch].
    destruct (p a) eqn:Ep.
    + split; [|discriminate]. intros H. exfalso.
      match type of H with
      | match ?m with _ => _ end = None => destruct m eqn:E
      end; [discriminate|].
      revert E. apply rmatch_nullable; [exact Hn|]. discriminate.
    + simpl. apply IH.
Qed.

(** The time-like token of [extract_reference] matches as soon as the text
    holds a digit. *)
Lemma time_token_iff_digit (text : string) :
  Re.search Pat.time_token text = None
  <-> Py.any_char Py.is_digit text = false.
Proof.
  apply search_head_class. reflexivity.
Qed.

(** ** The slot extractor *)

Section SlotFacts.

Variable search_dates : string -> option (list (string * Dt.datetime)).

Lemma extract_slots_fields (text : string) (ctx : option context_event)
    (s : slots) :
  extract_slots search_dates text ctx = inr s ->
  exists dt,
    parse_when search_dates text = inr dt /\
    datetime s = option_map Dt.isoformat dt /\
    extract_duration text ctx = inr (duration s) /\
    ambiguity s =
      (match dt with None => true | Some _ => false end
       || Py.any_in vague_words (Py.lower text))%bool /\
    reference s = extract_reference text.
Proof.
  unfold extract_slots, bind. destruct (parse_when search_dates text) as [e|dt].
  - discriminate.
  - destruct (extract_duration text ctx) as [e|d]; [discriminate|].
    intros H. injection H as <-. exists dt. simpl. auto.
Qed.

(** [extract_slots] returns unless the explicit clock time that refills a
    date-only match is out of range, or the digits of the duration are
    too many to convert. *)
Lemma extract_slots_returns (text : string) (ctx : option context_event)
    (d : Z) :
  Re.search Pat.clock_time text = None ->
  extract_duration text ctx = inr d ->
  exists s, extract_slots search_dates text ctx = inr s.
Proof.
  intros H Hd. unfold extract_slots, parse_when, bind. rewrite H, Hd.
  destruct (search_dates text) as [[|[f dt] l]|]; try (eexists; reflexivity).
  destruct ((Dt.hour dt =? 0) && (Dt.minute dt =? 0))%bool;
    eexists; reflexivity.
Qed.

(** C4. The ambiguity flag [extract_slots] returns is true exactly when
    the parsed datetime is absent or the lowercased text contains one of
    the vague-time phrases as a substring. *)
Theorem ambiguity_iff_absent_or_vague (text : string)
    (ctx : option context_event) (s : slots) :
  extract_slots search_dates text ctx = inr s ->
  (ambiguity s = true <->
   datetime s = None \/
   exists w, In w ["next week"; "someday"; "later"; "soon"; "whenever";
                   "some time"; "not sure"]
             /\ substring w (Py.lower text)).
Proof.
  intros H. apply extract_slots_fields in H.
  destruct H as [dt [_ [Hd [_ [Ha _]]]]].
  rewrite Ha, Hd, orb_true_iff, any_in_spec.
  destruct dt as [d|]; simpl; split.
  - intros [Hf|Hv]; [discriminate | right; exact Hv].
  - intros [Hf|Hv]; [discriminate | right; exact Hv].
  - intros _. left. reflexivity.
  - intros _. left. reflexivity.
Qed.

End SlotFacts.

Lemma ambiguity_iff_absent_or_vague_witness :
  let s := Slots (Some "2030-01-05T10:00:00+00:00") 30 "Event" "UTC" []
                 true (Some "20") in
  extract_slots Stub.search_dates
    "maybe later, say 2030-01-05 10:00" None = inr s /\
  (ambiguity s = true <->
   datetime s = None \/
   exists w, In w ["next week"; "someday"; "later"; "soon"; "whenever";
                   "some time"; "not sure"]
             /\ substring w (Py.lower "maybe later, say 2030-01-05 10:00")).
Proof.
  split.
  - reflexivity.
  - apply (@ambiguity_iff_absent_or_vague Stub.search_dates
             "maybe later, say 2030-01-05 10:00" None). reflexivity.
Defined.

(** C9. When no time-like token and no event phrase match and the
    lowercased text holds neither "last" nor "next", [extract_reference]
    answers "context" as soon as "it", "that" or "this" occurs anywhere in
    the lowercased text, inside a longer word ("with", "without") as well
    as on its own. *)
Theorem pronoun_substring_gives_context (text : string) :
  Re.search Pat.time_token text = None ->
  Re.search Pat.event_phrase text = None ->
  ~ substring "last" (Py.lower text) ->
  ~ substring "next" (Py.lower text) ->
  substring "it" (Py.lower text) \/ substring "that" (Py.lower text)
    \/ substring "this" (Py.lower text) ->
  extract_reference text = Some "context".
Proof.
  intros Ht Hs Hl Hn Hp. unfold extract_reference. rewrite Ht, Hs.
  destruct (Py.contains "last" (Py.lower text)) eqn:El.
  { exfalso. apply Hl. now apply contains_spec. }
  destruct (Py.contains "next" (Py.lower text)) eqn:En.
  { exfalso. apply Hn. now apply contains_spec. }
  assert (Ha : Py.any_in ["it"; "that"; "this"] (Py.lower text) = true).
  { apply any_in_spec.
    destruct Hp as [H|[H|H]]; eexists; (split; [|exact H]); simpl; auto. }
  now rewrite Ha.
Qed.

Lemma not_substring_of_contains (w s : string) :
  Py.contains w s = false -> ~ substring w s.
Proof.
  intros H Hs. apply contains_spec in Hs. congruence.
Qed.

Lemma pronoun_substring_gives_context_witness :
  extract_reference "Meet WITHOUT Bob" = Some "context"
  /\ extract_reference "lunch with Ann" = Some "context".
Proof.
  split.
  - apply (@pronoun_substring_gives_context "Meet WITHOUT Bob");
      try reflexivity;
      try (apply not_substring_of_contains; reflexivity).
    left. exists "meet w", "hout bob". reflexivity.
  - apply (@pronoun_substring_gives_context "lunch with Ann");
      try reflexivity;
      try (apply not_substring_of_contains; reflexivity).
    left. exists "lunch w", "h ann". reflexivity.
Defined.

(** The first scenario of the specification: the intent, the duration and
    the attendees of "Book a meeting tomorrow at 10am for 1 hour with
    Alice and Bob". *)
Lemma scenario_book_with_attendees :
  let text := "Book a meeting tomorrow at 10am for 1 hour with Alice and Bob" in
  extract_intent text = Book
  /\ extract_duration text None = inr 60
  /\ extract_attendees text = ["Alice"; "Bob"]
  /\ extract_reference text = Some "10am".
Proof.
  vm_compute. repeat split.
Qed.

(** ** Duration *)

(** C5 as the specification words it does not hold: "45 min, not 1 hour"
    matches [<N> min] with N = 45, and the duration is 60. *)
Lemma minutes_yield_to_one_hour :
  ~ (forall search_dates text ctx s m,
       Re.search Pat.minutes text = Some m ->
       extract_slots search_dates text ctx = inr s ->
       duration s = Py.int (Pat.grp 1 m)).
Proof.
  intros H.
  specialize (H Stub.search_dates "45 min, not 1 hour" None _ _
                eq_refl eq_refl).
  vm_compute in H. discriminate H.
Qed.

Section DurationFacts.

Variable search_dates : string -> option (list (string * Dt.datetime)).

(** C5, amended. For a text that matches [<N> min] and in which
    [1 ?hour] matches nowhere, the duration is N, whatever [<M> hour]
    phrases the text holds and whatever the context event supplies. *)
Theorem minutes_after_one_hour (text : string) (ctx : option context_event)
    (s : slots) (m : Re.rmatch_obj) :
  extract_slots search_dates text ctx = inr s ->
  Re.search Pat.minutes text = Some m ->
  Re.search Pat.one_hour text = None ->
  duration s = Py.int (Pat.grp 1 m).
Proof.
  intros Hs Hm H1. apply extract_slots_fields in Hs.
  destruct Hs as [dt [_ [_ [Hd _]]]]. revert Hd.
  unfold extract_duration, int_of_group, Py.int_checked. rewrite H1, Hm.
  destruct (Nat.leb _ _); [|discriminate]. intros Hd. now injection Hd.
Qed.

(** The literal "1 hour" is looked for first. *)
Lemma one_hour_first (text : string) (ctx : option context_event)
    (s : slots) (m : Re.rmatch_obj) :
  extract_slots search_dates text ctx = inr s ->
  Re.search Pat.one_hour text = Some m ->
  duration s = 60.
Proof.
  intros Hs H1. apply extract_slots_fields in Hs.
  destruct Hs as [dt [_ [_ [Hd _]]]]. revert Hd. unfold extract_duration.
  rewrite H1. intros Hd. now injection Hd.
Qed.

End DurationFacts.

Lemma minutes_after_one_hour_witness :
  exists s m,
    extract_slots Stub.search_dates "45 min then 2 hours" None = inr s
    /\ Re.search Pat.minutes "45 min then 2 hours" = Some m
    /\ duration s = 45.
Proof.
  eexists. eexists. split; [reflexivity|]. split; [reflexivity|].
  exact (@minutes_after_one_hour Stub.search_dates
           "45 min then 2 hours" None _ _ eq_refl eq_refl eq_refl).
Defined.

(** ** The ledger *)

Lemma status_eqb_eq (a b : Db.status) : Db.status_eqb a b = true <-> a = b.
Proof.
  destruct a, b; simpl; split; intros H; try reflexivity; discriminate.
Qed.

Lemma In_insert_by_start (r x : Db.row) (rs : list Db.row) :
  In x (Db.insert_by_start r rs) <-> x = r \/ In x rs.
Proof.
  induction rs as [|r' rs IH]; simpl.
  - intuition.
  - destruct (String.ltb (Db.start_time r) (Db.start_time r')); simpl.
    + intuition.
    + rewrite IH. intuition.
Qed.

Lemma In_fold_insert (rs acc : list Db.row) (x : Db.row) :
  In x (fold_left (fun acc r => Db.insert_by_start r acc) rs acc)
  <-> In x rs \/ In x acc.
Proof.
  revert acc; induction rs as [|r rs IH]; intros acc; simpl.
  - intuition.
  - rewrite IH, In_insert_by_start. intuition.
Qed.

Lemma In_order_by_start (rs : list Db.row) (x : Db.row) :
  In x (Db.order_by_start rs) <-> In x rs.
Proof.
  unfold Db.order_by_start. rewrite In_fold_insert. simpl. intuition.
Qed.

(** [list_bookings()] returns the active rows, all of them. *)
Lemma In_list_bookings (db : Db.ledger) (x : Db.row) :
  In x (Db.list_bookings db) <-> In x db /\ Db.st x = Db.active.
Proof.
  unfold Db.list_bookings, Db.list_bookings_with.
  rewrite In_order_by_start, filter_In, status_eqb_eq. reflexivity.
Qed.

Lemma list_bookings_none (db : Db.ledger) :
  (forall b, In b db -> Db.st b = Db.cancelled) -> Db.list_bookings db = [].
Proof.
  intros H. destruct (Db.list_bookings db) as [|b l] eqn:E; [reflexivity|].
  assert (Hin : In b (Db.list_bookings db)) by (rewrite E; left; reflexivity).
  apply In_list_bookings in Hin. destruct Hin as [Hin Hst].
  apply H in Hin. congruence.
Qed.

Lemma get_last_booking_from (db : Db.ledger) (best : option Db.row) :
  (forall b, In b db -> Db.st b = Db.cancelled) ->
  fold_left
    (fun best r =>
       if Db.status_eqb (Db.st r) Db.active then
         match best with
         | Some b => if Db.id b <? Db.id r then Some r else best
         | None => Some r
         end
       else best) db best = best.
Proof.
  revert best; induction db as [|r db IH]; intros best H; simpl.
  - reflexivity.
  - rewrite (H r (or_introl eq_refl)). simpl. apply IH.
    intros b Hb. apply H. right. exact Hb.
Qed.

Lemma get_last_booking_none (db : Db.ledger) :
  (forall b, In b db -> Db.st b = Db.cancelled) -> Db.get_last_booking db = None.
Proof.
  intros H. unfold Db.get_last_booking. now apply get_last_booking_from.
Qed.

(** [cancel_booking] changes nothing when no active row has the id. *)
Lemma cancel_booking_noop (booking_id : Z) (now : string) (db : Db.ledger) :
  (forall b, In b db -> Db.id b = booking_id -> Db.st b = Db.cancelled) ->
  Db.cancel_booking booking_id now db = db.
Proof.
  intros H. unfold Db.cancel_booking.
  induction db as [|r db IH]; simpl; [reflexivity|].
  rewrite IH by (intros b Hb; apply H; right; exact Hb). f_equal.
  destruct (Db.id r =? booking_id) eqn:E; simpl; [|reflexivity].
  apply Z.eqb_eq in E. rewrite (H r (or_introl eq_refl) E). reflexivity.
Qed.

(** The collision scan of the [book] branch finds exactly the active rows
    that start at [start]. *)
Lemma collision_scan_spec (start : string) (db : Db.ledger) :
  existsb (fun b => ((Db.start_time b =? start)%string
                     && Db.status_eqb (Db.st b) Db.active)%bool)
          (Db.list_bookings db) = true
  <-> exists b, In b (Db.list_bookings db) /\ Db.start_time b = start.
Proof.
  rewrite existsb_exists. split.
  - intros [b [Hin H]]. apply andb_true_iff in H. destruct H as [H _].
    apply String.eqb_eq in H. exists b. auto.
  - intros [b [Hin H]]. exists b. split; [exact Hin|].
    apply In_list_bookings in Hin. destruct Hin as [_ Hst].
    rewrite H, Hst, String.eqb_refl. reflexivity.
Qed.

(** ** The booking decision engine *)

(** C2 as the specification words it does not hold: "book a call on
    9999-12-31 23:50" is a clear request and the empty ledger holds no
    booking at that time, yet nothing is inserted and nothing is replied:
    the end time, half an hour later, is past the last [datetime], and the
    sum of line 330 raises [OverflowError] before the ledger is looked
    at. *)
Lemma book_end_time_overflow :
  ~ (forall search_dates dateparser_parse astimezone text msgs clock db s
            start,
       extract_intent text = Book ->
       extract_slots search_dates text
         (history_context dateparser_parse msgs) = inr s ->
       ambiguity s = false ->
       datetime s = Some start ->
       ((exists b, In b (Db.list_bookings db) /\ Db.start_time b = start) ->
        handle_user_message search_dates dateparser_parse astimezone
          text msgs clock db
        = (db, inr (Result Book s "You already have an event at that time.")))
       /\
       (~ (exists b, In b (Db.list_bookings db) /\ Db.start_time b = start) ->
        exists row r,
          handle_user_message search_dates dateparser_parse astimezone
            text msgs clock db
          = ((db ++ [row])%list, inr (Result Book s r))
          /\ Db.st row = Db.active
          /\ Db.start_time row = start)).
Proof.
  intros H.
  pose (s := Slots (Some "9999-12-31T23:50:00+00:00") 30 "Event" "UTC" []
                   false (Some "99")).
  assert (Hi : extract_intent "book a call on 9999-12-31 23:50" = Book)
    by (vm_compute; reflexivity).
  assert (Hs : extract_slots Edge.search_dates
                 "book a call on 9999-12-31 23:50"
                 (history_context Edge.parse None) = inr s)
    by (vm_compute; reflexivity).
  destruct (H Edge.search_dates Edge.parse Stub.astimezone
              "book a call on 9999-12-31 23:50" None Stub.clock [] s
              "9999-12-31T23:50:00+00:00" Hi Hs eq_refl eq_refl)
    as [_ H2].
  destruct H2 as [row [r [E _]]].
  - intros [b [[] _]].
  - assert (Hv : handle_user_message Edge.search_dates Edge.parse
                   Stub.astimezone "book a call on 9999-12-31 23:50" None
                   Stub.clock []
                 = ([], inl OverflowError)) by (vm_compute; reflexivity).
    rewrite Hv in E. discriminate E.
Qed.

Section Engine.

Variable search_dates : string -> option (list (string * Dt.datetime)).
Variable dateparser_parse : string -> option Dt.datetime.
Variable astimezone : string -> Dt.datetime -> raises Dt.datetime.

Local Abbreviation handle :=
  (handle_user_message search_dates dateparser_parse astimezone).
Local Abbreviation slots_of text msgs :=
  (extract_slots search_dates text (history_context dateparser_parse msgs)).

(** A request that is not ambiguous carries a datetime. *)
Lemma clear_request_has_datetime (text : string)
    (ctx : option context_event) (s : slots) :
  extract_slots search_dates text ctx = inr s ->
  ambiguity s = false ->
  exists start, datetime s = Some start.
Proof.
  intros H Ha. apply extract_slots_fields in H.
  destruct H as [dt [_ [Hd [_ [Hamb _]]]]]. rewrite Hamb in Ha.
  destruct dt as [d|]; [|discriminate]. rewrite Hd. eexists. reflexivity.
Qed.

(** C2, amended. A book request that is not ambiguous computes its end
    time, start plus duration, before it looks at the ledger. When that
    computation raises, the exception leaves [handle_user_message]: no
    reply, and the ledger as before. Otherwise: if the active bookings
    hold a row whose [start_time] equals the extracted datetime the reply
    is "You already have an event at that time." and the ledger is as
    before; if not, the ledger gains exactly one row, an active one at that
    start time. *)
Theorem book_rejects_collision_else_inserts (text : string)
    (msgs : option (list message)) (clock : nat -> Z) (db : Db.ledger)
    (s : slots) (start : string) :
  extract_intent text = Book ->
  slots_of text msgs = inr s ->
  ambiguity s = false ->
  datetime s = Some start ->
  (forall e,
     end_time_of dateparser_parse start (duration s) = inl e ->
     handle text msgs clock db = (db, inl e))
  /\
  (forall end_time,
     end_time_of dateparser_parse start (duration s) = inr end_time ->
     ((exists b, In b (Db.list_bookings db) /\ Db.start_time b = start) ->
      handle text msgs clock db
      = (db, inr (Result Book s "You already have an event at that time.")))
     /\
     (~ (exists b, In b (Db.list_bookings db) /\ Db.start_time b = start) ->
      exists row r,
        handle text msgs clock db
        = ((db ++ [row])%list, inr (Result Book s r))
        /\ Db.st row = Db.active
        /\ Db.start_time row = start
        /\ Db.end_time row = end_time
        /\ Db.summary row = summary s
        /\ Db.timezone row = timezone s
        /\ Db.id row = Db.next_id db)).
Proof.
  intros Hi Hs Ha Hd.
  unfold handle_user_message. cbv zeta. rewrite Hi, Hs. cbv beta iota.
  rewrite Ha, Hd. split.
  - intros e He. rewrite He. reflexivity.
  - intros end_time He. rewrite He. split; intros H.
    + apply collision_scan_spec in H. rewrite H. reflexivity.
    + destruct (existsb _ (Db.list_bookings db)) eqn:E.
      * exfalso. apply H. now apply collision_scan_spec.
      * unfold Db.save_booking. eexists. eexists.
        split; [reflexivity|]. simpl. repeat split.
Qed.

Lemma resolve_target_none (s : slots) (ctx : option context_event)
    (db : Db.ledger) :
  (forall b, In b db -> Db.st b = Db.cancelled) ->
  resolve_target s ctx db = None.
Proof.
  intros H. unfold resolve_target, find_booking_by_reference.
  rewrite (list_bookings_none db H), (get_last_booking_none db H).
  destruct (reference s) as [ref|]; [|reflexivity].
  destruct (Py.truthy ref); reflexivity.
Qed.

Lemma cancel_unresolved (text : string) (msgs : option (list message))
    (clock : nat -> Z) (db : Db.ledger) (s : slots) :
  extract_intent text = Cancel ->
  slots_of text msgs = inr s ->
  resolve_target s (history_context dateparser_parse msgs) db = None ->
  handle text msgs clock db
  = (db, inr (Result Cancel s "No matching event found to cancel.")).
Proof.
  intros Hi Hs Hr. unfold handle_user_message. cbv zeta.
  rewrite Hi, Hs. cbv beta iota. rewrite Hr. reflexivity.
Qed.

(** "cancel my last event" has intent cancel and reference "last", and its
    slots are extracted without error whatever dates are found in it. *)
Lemma cancel_my_last_event_slots (ctx : option context_event) :
  extract_intent "cancel my last event" = Cancel /\
  exists s, extract_slots search_dates "cancel my last event" ctx = inr s
            /\ reference s = Some "last".
Proof.
  split; [reflexivity|].
  destruct (@extract_slots_returns search_dates "cancel my last event" ctx
              _ eq_refl eq_refl) as [s Hs].
  exists s. split; [exact Hs|].
  apply extract_slots_fields in Hs. destruct Hs as [dt [_ [_ [_ [_ Hr]]]]].
  rewrite Hr. reflexivity.
Qed.

(** C6. A cancel request whose target resolves to no active booking is
    answered "No matching event found to cancel." and leaves the ledger as
    it was: so it is when every row is already cancelled, and for "cancel
    my last event" on the empty ledger; [cancel_booking] on an id that no
    active row bears changes nothing. *)
Theorem cancel_without_target_is_noop :
  (forall text msgs clock db s,
     extract_intent text = Cancel ->
     slots_of text msgs = inr s ->
     resolve_target s (history_context dateparser_parse msgs) db = None ->
     handle text msgs clock db
     = (db, inr (Result Cancel s "No matching event found to cancel.")))
  /\
  (forall text msgs clock db s,
     extract_intent text = Cancel ->
     slots_of text msgs = inr s ->
     (forall b, In b db -> Db.st b = Db.cancelled) ->
     handle text msgs clock db
     = (db, inr (Result Cancel s "No matching event found to cancel.")))
  /\
  (forall clock, exists s,
     handle "cancel my last event" None clock []
     = ([], inr (Result Cancel s "No matching event found to cancel.")))
  /\
  (forall booking_id now db,
     (forall b, In b db -> Db.id b = booking_id -> Db.st b = Db.cancelled) ->
     Db.cancel_booking booking_id now db = db).
Proof.
  split; [|split; [|split]].
  - exact cancel_unresolved.
  - intros text msgs clock db s Hi Hs Hc.
    apply cancel_unresolved; try assumption. now apply resolve_target_none.
  - intros clock.
    destruct (cancel_my_last_event_slots None) as [Hi [s [Hs _]]].
    exists s. apply cancel_unresolved; try assumption.
    apply resolve_target_none. intros b [].
  - exact cancel_booking_noop.
Qed.

(** C10. A request classified list, check, help or unknown leaves the
    ledger as it was; for check, help and unknown a reply is produced as
    soon as the slots are extracted. *)
Theorem read_only_intents_leave_ledger (text : string)
    (msgs : option (list message)) (clock : nat -> Z) (db : Db.ledger) :
  In (extract_intent text) [List; Check; Help; Unknown] ->
  fst (handle text msgs clock db) = db
  /\ (forall s,
        slots_of text msgs = inr s ->
        extract_intent text <> List ->
        exists r,
          snd (handle text msgs clock db)
          = inr (Result (extract_intent text) s r)).
Proof.
  intros Hin. unfold handle_user_message. cbv zeta.
  destruct (slots_of text msgs) as [e|s0].
  - split; [reflexivity | discriminate].
  - simpl in Hin.
    destruct Hin as [H|[H|[H|[H|[]]]]]; rewrite <- H; cbv beta iota.
    + split; [reflexivity|]. intros s _ Hl. now elim Hl.
    + destruct (Db.list_bookings db); split; try reflexivity;
        intros s Hs _; injection Hs as <-; eexists; reflexivity.
    + split; [reflexivity|].
      intros s Hs _; injection Hs as <-; eexists; reflexivity.
    + split; [reflexivity|].
      intros s Hs _; injection Hs as <-; eexists; reflexivity.
Qed.

(** *** The [list] branch *)


End Engine.

(** The runs of the worked examples. *)

Lemma book_rejects_collision_else_inserts_witness :
  let text := "book a call on 2030-01-05 10:00" in
  (exists s,
     Stub.handle text Stub.booked_once
     = (Stub.booked_once,
        inr (Result Book s "You already have an event at that time.")))
  /\ (exists row s r,
        Stub.handle text [] = ([row], inr (Result Book s r))
        /\ Db.st row = Db.active
        /\ Db.start_time row = "2030-01-05T10:00:00+00:00")
  /\ handle_user_message Edge.search_dates Edge.parse Stub.astimezone
       "book a call on 9999-12-31 23:50" None Stub.clock Stub.booked_once
     = (Stub.booked_once, inl OverflowError).
Proof.
  intros text.
  pose (s := Slots (Some "2030-01-05T10:00:00+00:00") 30 "Event" "UTC" []
                   false (Some "20")).
  assert (Hi : extract_intent text = Book) by (vm_compute; reflexivity).
  assert (Hs : extract_slots Stub.search_dates text
                 (history_context Stub.parse None) = inr s)
    by (vm_compute; reflexivity).
  assert (He : end_time_of Stub.parse "2030-01-05T10:00:00+00:00"
                 (duration s) = inr "2030-01-05T10:30:00+00:00")
    by (vm_compute; reflexivity).
  assert (Hl : Db.list_bookings Stub.booked_once = Stub.booked_once)
    by (vm_compute; reflexivity).
  split; [|split].
  - exists s.
    apply (proj1 (proj2 (@book_rejects_collision_else_inserts
             Stub.search_dates Stub.parse Stub.astimezone text None
             Stub.clock Stub.booked_once s "2030-01-05T10:00:00+00:00"
             Hi Hs eq_refl eq_refl) "2030-01-05T10:30:00+00:00" He)).
    rewrite Hl. unfold Stub.booked_once.
    eexists. split; [left; reflexivity | reflexivity].
  - destruct (proj2 (proj2 (@book_rejects_collision_else_inserts
              Stub.search_dates Stub.parse Stub.astimezone text None
              Stub.clock [] s "2030-01-05T10:00:00+00:00"
              Hi Hs eq_refl eq_refl) "2030-01-05T10:30:00+00:00" He))
      as [row [r [H [Hst [Hstart _]]]]].
    + intros [b [[] _]].
    + exists row, s, r. split; [exact H|]. split; assumption.
  - pose (s' := Slots (Some "9999-12-31T23:50:00+00:00") 30 "Event" "UTC" []
                      false (Some "99")).
    assert (Hi' : extract_intent "book a call on 9999-12-31 23:50" = Book)
      by (vm_compute; reflexivity).
    assert (Hs' : extract_slots Edge.search_dates
                    "book a call on 9999-12-31 23:50"
                    (history_context Edge.parse None) = inr s')
      by (vm_compute; reflexivity).
    assert (He' : end_time_of Edge.parse "9999-12-31T23:50:00+00:00"
                    (duration s') = inl OverflowError)
      by (vm_compute; reflexivity).
    exact (proj1 (@book_rejects_collision_else_inserts Edge.search_dates
             Edge.parse Stub.astimezone "book a call on 9999-12-31 23:50"
             None Stub.clock Stub.booked_once s'
             "9999-12-31T23:50:00+00:00" Hi' Hs' eq_refl eq_refl)
             OverflowError He').
Defined.

Lemma cancel_without_target_is_noop_witness :
  let text := "cancel my last event" in
  let db := Stub.run ["book a call on 2030-01-05 10:00"; text] [] in
  (exists s,
     Stub.handle text db
     = (db, inr (Result Cancel s "No matching event found to cancel.")))
  /\ (exists s,
        Stub.handle text []
        = ([], inr (Result Cancel s "No matching event found to cancel.")))
  /\ Db.cancel_booking 1 "2025-11-03T17:13:20" db = db.
Proof.
  intros text db.
  pose proof (@cancel_without_target_is_noop Stub.search_dates Stub.parse
                Stub.astimezone) as [_ [H2 [H3 H4]]].
  split; [|split].
  - eexists. apply (H2 text None Stub.clock db); try reflexivity.
    intros b Hb. vm_compute in Hb. destruct Hb as [<-|[]]. reflexivity.
  - exact (H3 Stub.clock).
  - apply H4. intros b Hb. vm_compute in Hb. destruct Hb as [<-|[]].
    reflexivity.
Defined.

Lemma read_only_intents_leave_ledger_witness :
  fst (Stub.handle "what are my events?" Stub.booked_once) = Stub.booked_once
  /\ fst (Stub.handle "am I free?" Stub.booked_once) = Stub.booked_once
  /\ fst (Stub.handle "help" Stub.booked_once) = Stub.booked_once
  /\ fst (Stub.handle "good morning" Stub.booked_once) = Stub.booked_once.
Proof.
  pose proof (fun text H =>
    proj1 (@read_only_intents_leave_ledger Stub.search_dates Stub.parse
             Stub.astimezone text None Stub.clock Stub.booked_once H)) as F.
  split; [|split; [|split]]; apply F; vm_compute; auto.
Defined.

(** ** One active booking per start time *)

Lemma no_collision_no_active (start : string) (db : Db.ledger) :
  existsb (fun b => ((Db.start_time b =? start)%string
                     && Db.status_eqb (Db.st b) Db.active)%bool)
          (Db.list_bookings db) = false ->
  active_at start db = [].
Proof.
  intros H. unfold active_at.
  destruct (filter _ db) as [|x l] eqn:E; [reflexivity|].
  assert (Hx : In x (filter
            (fun r => ((Db.start_time r =? start)%string
                       && Db.status_eqb (Db.st r) Db.active)%bool) db))
    by (rewrite E; left; reflexivity).
  apply filter_In in Hx. destruct Hx as [Hin Hp].
  apply andb_true_iff in Hp. destruct Hp as [Hs Ha].
  apply String.eqb_eq in Hs. apply status_eqb_eq in Ha.
  assert (Hc : existsb (fun b => ((Db.start_time b =? start)%string
                        && Db.status_eqb (Db.st b) Db.active)%bool)
                 (Db.list_bookings db) = true).
  { apply collision_scan_spec. exists x. split; [|exact Hs].
    apply In_list_bookings. split; assumption. }
  congruence.
Qed.

(** The insert of the [book] branch, guarded by the collision scan, keeps
    the start times of the active rows distinct. *)
Lemma guarded_insert_keeps_unique (summary event_id start end_ tz now : string)
    (db : Db.ledger) :
  existsb (fun b => ((Db.start_time b =? start)%string
                     && Db.status_eqb (Db.st b) Db.active)%bool)
          (Db.list_bookings db) = false ->
  unique_active_start db ->
  unique_active_start (Db.save_booking summary event_id start end_ tz now db).
Proof.
  intros Hno Hu s. unfold Db.save_booking, active_at.
  rewrite filter_app, length_app. fold (active_at s db). simpl.
  destruct (start =? s)%string eqn:E; simpl.
  - apply String.eqb_eq in E. subst s.
    rewrite (no_collision_no_active start db Hno). simpl. lia.
  - specialize (Hu s). lia.
Qed.

Lemma cancel_shrinks_active (booking_id : Z) (now s : string) (db : Db.ledger) :
  (List.length (active_at s (Db.cancel_booking booking_id now db))
   <= List.length (active_at s db))%nat.
Proof.
  unfold active_at, Db.cancel_booking.
  induction db as [|r db IH]; simpl; [lia|].
  destruct ((Db.id r =? booking_id) && Db.status_eqb (Db.st r) Db.active)%bool;
    simpl.
  - rewrite andb_false_r.
    destruct ((Db.start_time r =? s)%string
              && Db.status_eqb (Db.st r) Db.active)%bool; simpl; lia.
  - destruct ((Db.start_time r =? s)%string
              && Db.status_eqb (Db.st r) Db.active)%bool; simpl; lia.
Qed.

Section Uniqueness.

Variable search_dates : string -> option (list (string * Dt.datetime)).
Variable dateparser_parse : string -> option Dt.datetime.
Variable astimezone : string -> Dt.datetime -> raises Dt.datetime.

(** Every request but an edit keeps the start times of the active rows
    distinct: the book branch scans before it inserts, a cancel only
    removes a row from the active ones, the other branches do not write. *)
Lemma unique_kept_without_edit (text : string) (msgs : option (list message))
    (clock : nat -> Z) (db : Db.ledger) :
  extract_intent text <> Edit ->
  unique_active_start db ->
  unique_active_start
    (fst (handle_user_message search_dates dateparser_parse astimezone
            text msgs clock db)).
Proof.
  intros He Hu. unfold handle_user_message. cbv zeta.
  destruct (extract_slots search_dates text
              (history_context dateparser_parse msgs)) as [e|s];
    [exact Hu|].
  destruct (extract_intent text); cbv beta iota; try exact Hu.
  - destruct (ambiguity s); [exact Hu|].
    destruct (datetime s) as [start|]; [|exact Hu].
    destruct (end_time_of dateparser_parse start (duration s)) as [e|end_];
      [exact Hu|].
    destruct (existsb _ (Db.list_bookings db)) eqn:E; [exact Hu|].
    simpl. now apply guarded_insert_keeps_unique.
  - destruct (resolve_target s (history_context dateparser_parse msgs) db)
      as [b|]; [|exact Hu].
    simpl. intros t. specialize (Hu t).
    pose proof (cancel_shrinks_active (Db.id b)
                  (Dt.isoformat (Dt.utcnow (clock 0%nat))) t db). lia.
  - now elim He.
  - destruct (Db.list_bookings db); exact Hu.
Qed.

(** From the empty ledger, requests none of which is an edit reach only
    ledgers with at most one active row per start time. *)
Lemma runs_without_edit_keep_unique
    (reqs : list (string * option (list message) * (nat -> Z)))
    (db : Db.ledger) :
  Forall (fun r => extract_intent (fst (fst r)) <> Edit) reqs ->
  unique_active_start db ->
  unique_active_start
    (fold_left
       (fun db r =>
          fst (handle_user_message search_dates dateparser_parse astimezone
                 (fst (fst r)) (snd (fst r)) (snd r) db))
       reqs db).
Proof.
  intros Hf. revert db. induction Hf as [|r reqs Hr _ IH]; intros db Hu.
  - exact Hu.
  - simpl. apply IH. now apply unique_kept_without_edit.
Qed.

(** The edit branch writes the new start time without a scan: when the
    target is an active row and another active row already starts at the
    new time, two active rows start there afterwards. *)
Lemma unguarded_update_duplicates (booking_id : Z)
    (summary start end_ tz now : string) (db : Db.ledger) (b other : Db.row) :
  In b db -> Db.id b = booking_id -> Db.st b = Db.active ->
  In other db -> Db.id other <> booking_id -> Db.st other = Db.active ->
  Db.start_time other = start ->
  ~ unique_active_start
      (Db.update_booking booking_id summary start end_ tz now db).
Proof.
  intros Hb Hid Hst Ho Hoid Host Hos Hu. specialize (Hu start).
  set (b' := Db.Row booking_id summary (Db.event_id b) start end_ tz
                    Db.active (Db.created_at b) now).
  assert (H1 : In b' (active_at start
                (Db.update_booking booking_id summary start end_ tz now db))).
  { unfold active_at. apply filter_In. split.
    - unfold Db.update_booking. apply in_map_iff. exists b. split; [|exact Hb].
      rewrite Hid, Z.eqb_refl, Hst. reflexivity.
    - simpl. rewrite String.eqb_refl. reflexivity. }
  assert (H2 : In other (active_at start
                (Db.update_booking booking_id summary start end_ tz now db))).
  { unfold active_at. apply filter_In. split.
    - unfold Db.update_booking. apply in_map_iff. exists other.
      split; [|exact Ho].
      apply Z.eqb_neq in Hoid. rewrite Hoid. reflexivity.
    - rewrite Hos, String.eqb_refl, Host. reflexivity. }
  assert (Hne : b' <> other).
  { intros E. apply Hoid. rewrite <- E. reflexivity. }
  destruct (active_at start _) as [|x [|y l]]; simpl in *.
  - destruct H1.
  - destruct H1 as [H1|[]], H2 as [H2|[]]. congruence.
  - lia.
Qed.

End Uniqueness.

(** C1. The invariant "at most one active record per [start_time]" is
    kept by the guarded insert but not by an edit. Two bookings at
    different times followed by an edit that moves the first onto the
    time of the second leave two active rows with the same [start_time]. *)
Theorem edit_duplicates_active_start :
  let db := Stub.run ["book a call on 2030-01-05 10:00";
                      "book a call on 2030-01-06 10:00";
                      "move it to 2030-01-06 10:00"] [] in
  map Db.id (active_at "2030-01-06T10:00:00+00:00" db) = [1; 2]
  /\ ~ unique_active_start db.
Proof.
  intros db. split; [reflexivity|].
  intros H. specialize (H "2030-01-06T10:00:00+00:00").
  vm_compute in H. lia.
Qed.

(** ** The provider and the ledger *)




(** ** The event formatter *)

Lemma strip_prefix_app (p rest : string) :
  Rd.strip_prefix p (p ++ rest) = Some rest.
Proof.
  induction p as [|a p IH]; simpl; [reflexivity|].
  now rewrite Ascii.eqb_refl.
Qed.

Lemma read_day_name (w : Z) (rest : string) :
  0 <= w < 7 ->
  exists i, Rd.read_name Dt.day_names ", " 0
              (nth (Z.to_nat w) Dt.day_names "" ++ ", " ++ rest)
            = Some (i, rest).
Proof.
  intros H.
  assert (E : w = 0 \/ w = 1 \/ w = 2 \/ w = 3 \/ w = 4 \/ w = 5 \/ w = 6)
    by lia.
  destruct E as [->|[->|[->|[->|[->|[->| ->]]]]]];
    eexists; reflexivity.
Qed.

Lemma read_month_name (m : Z) (rest : string) :
  1 <= m <= 12 ->
  Rd.read_name Dt.month_names " " 1 (Dt.month_name m ++ " " ++ rest)
  = Some (m, rest).
Proof.
  intros H.
  assert (E : m = 1 \/ m = 2 \/ m = 3 \/ m = 4 \/ m = 5 \/ m = 6 \/ m = 7
              \/ m = 8 \/ m = 9 \/ m = 10 \/ m = 11 \/ m = 12) by lia.
  destruct E as [->|[->|[->|[->|[->|[->|[->|[->|[->|[->|[->| ->]]]]]]]]]]];
    reflexivity.
Qed.

Lemma read_two_two (n : Z) (rest : string) :
  0 <= n < 100 -> Rd.read_two (Dt.two n ++ rest) = Some (n, rest).
Proof.
  intros H.
  assert (E : exists k, (k < 100)%nat /\ n = Z.of_nat k)
    by (exists (Z.to_nat n); lia).
  destruct E as [k [Hk ->]]. clear H.
  do 100 (destruct k as [|k]; [reflexivity|]). lia.
Qed.

Lemma hour12_range (h : Z) : 0 <= h <= 23 -> 0 <= Dt.hour12 h < 100.
Proof.
  intros H. unfold Dt.hour12.
  pose proof (Z.mod_pos_bound h 12 ltac:(lia)).
  destruct (h mod 12 =? 0); lia.
Qed.

Lemma hour12_back (h : Z) :
  0 <= h <= 23 ->
  (if h <? 12 then Dt.hour12 h mod 12 else Dt.hour12 h mod 12 + 12) = h.
Proof.
  intros H. unfold Dt.hour12.
  destruct (h <? 12) eqn:E.
  - apply Z.ltb_lt in E. rewrite (Z.mod_small h 12) by lia.
    destruct (h =? 0) eqn:E0.
    + apply Z.eqb_eq in E0. subst h. reflexivity.
    + apply Z.eqb_neq in E0. apply Z.mod_small. lia.
  - apply Z.ltb_ge in E.
    assert (Hm : h mod 12 = h - 12).
    { symmetry. apply (Z.mod_unique h 12 1 (h - 12)); lia. }
    rewrite Hm. destruct (h - 12 =? 0) eqn:E0.
    + apply Z.eqb_eq in E0. replace h with 12 by lia. reflexivity.
    + apply Z.eqb_neq in E0. rewrite (Z.mod_small (h - 12) 12) by lia. lia.
Qed.

(** What ["%A, %B %d at %I:%M %p"] renders can be read back: the month,
    the day, the hour and the minute. *)
Lemma read_event_date_strftime (d : Dt.datetime) :
  Dt.valid d = true ->
  Rd.read_event_date (Dt.strftime_event d)
  = Some (Dt.month d, Dt.day d, Dt.hour d, Dt.minute d).
Proof.
  intros Hv. unfold Dt.valid in Hv.
  repeat (apply andb_true_iff in Hv; destruct Hv as [Hv ?]).
  repeat match goal with
         | H : (_ <=? _) = true |- _ => apply Z.leb_le in H
         end.
  unfold Rd.read_event_date, Dt.strftime_event, Dt.day_name.
  destruct (@read_day_name (Dt.weekday d)
              (Dt.month_name (Dt.month d) ++ " " ++ Dt.two (Dt.day d)
               ++ " at " ++ Dt.two (Dt.hour12 (Dt.hour d)) ++ ":"
               ++ Dt.two (Dt.minute d) ++ " " ++ Dt.am_pm (Dt.hour d)))
    as [i Hi].
  { unfold Dt.weekday. apply Z.mod_pos_bound. lia. }
  rewrite Hi, read_month_name by lia.
  rewrite read_two_two by lia.
  rewrite (strip_prefix_app " at ").
  rewrite read_two_two by (apply hour12_range; lia).
  rewrite (strip_prefix_app ":").
  rewrite read_two_two by lia.
  pose proof (@hour12_back (Dt.hour d) ltac:(lia)) as Hb.
  unfold Dt.am_pm. destruct (Dt.hour d <? 12); simpl; rewrite Hb; reflexivity.
Qed.

(** C8 as the specification words it does not hold: two bookings eleven
    years apart are rendered by the same text, so nothing read back from
    the text agrees with both start times to the minute, whatever parser
    reads the stored ISO strings and whatever re-reads the text. *)
Lemma year_lost_in_format :
  ~ (exists (dateparser_parse : string -> option Dt.datetime)
            (astimezone : string -> Dt.datetime -> raises Dt.datetime)
            (reread : string -> option Dt.datetime),
       dateparser_parse "2030-01-05T10:00:00+00:00" = Some Stub.jan5
       /\ dateparser_parse "2019-01-05T10:00:00+00:00" = Some Stub.jan5_2019
       /\ forall b dt text,
            dateparser_parse (Db.start_time b) = Some dt ->
            format_event_natural dateparser_parse astimezone b = inr text ->
            exists dt',
              reread text = Some dt' /\ agree_to_minute dt dt' = true).
Proof.
  intros [p [tz [rr [H1 [H2 H]]]]].
  set (b1 := Db.Row 1 "Event" "evt_1" "2030-01-05T10:00:00+00:00"
                    "2030-01-05T10:30:00+00:00" "UTC" Db.active "" "").
  set (b2 := Db.Row 1 "Event" "evt_1" "2019-01-05T10:00:00+00:00"
                    "2019-01-05T10:30:00+00:00" "UTC" Db.active "" "").
  set (text := "Your event 'Event' is scheduled for Saturday, January 05 at 10:00 AM (UTC). Status: active.").
  assert (F1 : format_event_natural p tz b1 = inr text).
  { unfold format_event_natural. cbn [Db.start_time b1]. rewrite H1.
    reflexivity. }
  assert (F2 : format_event_natural p tz b2 = inr text).
  { unfold format_event_natural. cbn [Db.start_time b2]. rewrite H2.
    reflexivity. }
  destruct (H b1 Stub.jan5 text H1 F1) as [d1 [R1 A1]].
  destruct (H b2 Stub.jan5_2019 text H2 F2) as [d2 [R2 A2]].
  rewrite R1 in R2. injection R2 as <-.
  unfold agree_to_minute in A1, A2.
  repeat (apply andb_true_iff in A1; destruct A1 as [A1 _]).
  repeat (apply andb_true_iff in A2; destruct A2 as [A2 _]).
  apply Z.eqb_eq in A1, A2. simpl in A1, A2. lia.
Qed.

Section FormatterFacts.

Variable dateparser_parse : string -> option Dt.datetime.
Variable astimezone : string -> Dt.datetime -> raises Dt.datetime.

(** C8, amended. For a booking whose [start_time] parses, the produced
    text embeds the rendering of the start time in the booking's zone (the
    start time itself for "UTC"), and reading that substring back yields
    its month, day, hour and minute; the year, the seconds and the offset
    are not in the text. *)
Theorem format_event_round_trip (b : Db.row) (dt dt_local : Dt.datetime) :
  dateparser_parse (Db.start_time b) = Some dt ->
  localized astimezone b dt = inr dt_local ->
  Dt.valid dt_local = true ->
  format_event_natural dateparser_parse astimezone b
  = inr ("Your event '" ++ Db.summary b ++ "' is scheduled for "
         ++ Dt.strftime_event dt_local ++ " (" ++ Db.timezone b
         ++ "). Status: " ++ Db.status_text (Db.st b) ++ ".")
  /\ Rd.read_event_date (Dt.strftime_event dt_local)
     = Some (Dt.month dt_local, Dt.day dt_local, Dt.hour dt_local,
             Dt.minute dt_local)
  /\ (Db.timezone b = "UTC" -> dt_local = dt).
Proof.
  intros Hp Hl Hv. split; [|split].
  - unfold format_event_natural. rewrite Hp.
    unfold localized in Hl. rewrite Hl. reflexivity.
  - now apply read_event_date_strftime.
  - intros Htz. unfold localized in Hl. rewrite Htz in Hl.
    simpl in Hl. now injection Hl as <-.
Qed.

End FormatterFacts.

Lemma format_event_round_trip_witness :
  let b := Db.Row 1 "Event" "evt_1" "2030-01-05T10:00:00+00:00"
                  "2030-01-05T10:30:00+00:00" "UTC" Db.active "" "" in
  format_event_natural Stub.parse Stub.astimezone b
  = inr "Your event 'Event' is scheduled for Saturday, January 05 at 10:00 AM (UTC). Status: active."
  /\ Rd.read_event_date "Saturday, January 05 at 10:00 AM"
     = Some (1, 5, 10, 0).
Proof.
  intros b.
  destruct (@format_event_round_trip Stub.parse Stub.astimezone b
              Stub.jan5 Stub.jan5 eq_refl eq_refl eq_refl) as [H1 [H2 _]].
  split; [exact H1 | exact H2].
Defined.

(** ** The clock during a [list] request, and failures of a [book] *)

Section ClockFacts.

Variable search_dates : string -> option (list (string * Dt.datetime)).
Variable dateparser_parse : string -> option Dt.datetime.
Variable astimezone : string -> Dt.datetime -> raises Dt.datetime.

Lemma select_In (clock : nat -> Z) (test : Z -> Db.row -> raises bool)
    (bookings : list Db.row) :
  forall (tick : nat) (kept : list Db.row) (b : Db.row),
    select clock test tick bookings = inr kept ->
    In b kept ->
    exists k, (tick <= k < tick + List.length bookings)%nat
              /\ test (clock k) b = inr true.
Proof.
  induction bookings as [|x rest IH]; intros tick kept b Hs Hin; simpl in Hs.
  - injection Hs as <-. destruct Hin.
  - unfold bind in Hs.
    destruct (test (clock tick) x) as [e|keep] eqn:Et; [discriminate|].
    destruct (select clock test (S tick) rest) as [e|l] eqn:El;
      [discriminate|].
    injection Hs as <-.
    assert (Hrest : In b l ->
              exists k, (tick <= k < tick + List.length (x :: rest))%nat
                        /\ test (clock k) b = inr true).
    { intros Hl. destruct (IH (S tick) l b El Hl) as [k [Hk Ht]].
      exists k. split; [simpl; lia | exact Ht]. }
    destruct keep.
    + destruct Hin as [<-|Hl]; [|now apply Hrest].
      exists tick. split; [simpl; lia | exact Et].
    + now apply Hrest.
Qed.

(** Whatever the clock does between its readings, as long as it does not
    run backwards, no booking is listed in both sections. *)
Lemma sections_disjoint_monotone (clock : nat -> Z) (bookings held upcoming
    : list Db.row) (b : Db.row) :
  (forall k j, (k <= j)%nat -> clock k <= clock j) ->
  select clock (starts_before dateparser_parse) 0 bookings = inr held ->
  select clock (starts_at_or_after dateparser_parse)
         (List.length bookings) bookings = inr upcoming ->
  In b held -> In b upcoming -> False.
Proof.
  intros Hm Hh Hu Hbh Hbu.
  destruct (@select_In _ _ _ _ _ _ Hh Hbh) as [k [Hk Hlt]].
  destruct (@select_In _ _ _ _ _ _ Hu Hbu) as [j [Hj Hge]].
  unfold starts_before in Hlt. unfold starts_at_or_after in Hge.
  destruct (dateparser_parse (Db.start_time b)) as [dt|]; [|discriminate].
  destruct (Dt.instant dt) as [i|]; [|discriminate].
  injection Hlt as Hlt. injection Hge as Hge.
  apply Z.ltb_lt in Hlt. rewrite Z.geb_leb in Hge. apply Z.leb_le in Hge.
  pose proof (Hm k j ltac:(lia)). lia.
Qed.





(** A [book] request leaves the ledger as it was or appends one row; it
    leaves it as it was when the end time cannot be computed. *)
Lemma book_appends_at_most_one (text : string) (msgs : option (list message))
    (clock : nat -> Z) (db : Db.ledger) :
  extract_intent text = Book ->
  let db' := fst (handle_user_message search_dates dateparser_parse
                    astimezone text msgs clock db) in
  db' = db \/ exists row, db' = (db ++ [row])%list /\ Db.st row = Db.active.
Proof.
  intros Hi. unfold handle_user_message. cbv zeta. rewrite Hi.
  destruct (extract_slots search_dates text
              (history_context dateparser_parse msgs)) as [e|s];
    [left; reflexivity|].
  cbv beta iota.
  destruct (ambiguity s); [left; reflexivity|].
  destruct (datetime s) as [start|]; [|left; reflexivity].
  destruct (end_time_of dateparser_parse start (duration s)) as [e|end_];
    [left; reflexivity|].
  destruct (existsb _ (Db.list_bookings db)); [left; reflexivity|].
  right. eexists. split; reflexivity.
Qed.

End ClockFacts.



(** A list request raises when a listed booking carries a zone name that
    [pytz] does not know: "and/or" in a booking request is read as its
    zone. *)
Lemma unknown_zone_breaks_list :
  let db := fst (Stub.handle "book a call and/or lunch on 2030-01-05 10:00"
                   []) in
  map Db.timezone db = ["and/or"]
  /\ Stub.handle "list" db = (db, inl (OtherError "UnknownTimeZoneError")).
Proof.
  vm_compute. split; reflexivity.
Qed.


(** * The ledger functions, one by one *)

Lemma id_below_next (db : Db.ledger) (r : Db.row) :
  In r db -> Db.id r < Db.next_id db.
Proof.
  unfold Db.next_id. induction db as [|x db IH]; cbn [fold_right In];
    [intros []|].
  intros [->|H]; [lia|]. specialize (IH H). lia.
Qed.

Lemma find_id_app (i : Z) (db : Db.ledger) (row : Db.row) :
  Db.get_booking_by_id i (db ++ [row])%list
  = match Db.get_booking_by_id i db with
    | Some r => Some r
    | None => if Db.id row =? i then Some row else None
    end.
Proof.
  unfold Db.get_booking_by_id. induction db as [|x db IH]; simpl.
  - reflexivity.
  - destruct (Db.id x =? i); [reflexivity | exact IH].
Qed.

Lemma find_id_none (i : Z) (db : Db.ledger) :
  (forall r, In r db -> Db.id r <> i) -> Db.get_booking_by_id i db = None.
Proof.
  intros H. unfold Db.get_booking_by_id.
  destruct (find _ db) as [r|] eqn:E; [|reflexivity].
  apply find_some in E. destruct E as [Hin Hid].
  apply Z.eqb_eq in Hid. now elim (H r Hin).
Qed.

Lemma fold_max_nonneg (db : Db.ledger) :
  0 <= fold_right (fun r m => Z.max (Db.id r) m) 0 db.
Proof.
  induction db as [|x db IH]; cbn [fold_right]; lia.
Qed.

Lemma fold_max_from (db : Db.ledger) (m : Z) :
  0 <= m ->
  fold_right (fun r m => Z.max (Db.id r) m) m db
  = Z.max m (fold_right (fun r m => Z.max (Db.id r) m) 0 db).
Proof.
  intros Hm. induction db as [|x db IH]; cbn [fold_right]; [lia|].
  rewrite IH. lia.
Qed.

(** X1. After [save_booking], [get_booking_by_id] at the fresh id returns
    the row just written, active, with both timestamps equal; every other
    id reads as before. *)
Theorem saved_booking_is_found
    (summary event_id start end_ tz now : string) (db : Db.ledger) :
  let db' := Db.save_booking summary event_id start end_ tz now db in
  Db.get_booking_by_id (Db.next_id db) db'
  = Some (Db.Row (Db.next_id db) summary event_id start end_ tz Db.active
                 now now)
  /\ (forall i, i <> Db.next_id db ->
        Db.get_booking_by_id i db' = Db.get_booking_by_id i db)
  /\ Db.next_id db' = Db.next_id db + 1.
Proof.
  intros db'. unfold db', Db.save_booking. split; [|split].
  - rewrite find_id_app, find_id_none.
    + simpl. now rewrite Z.eqb_refl.
    + intros r Hr. pose proof (id_below_next db r Hr). lia.
  - intros i Hi. rewrite find_id_app.
    destruct (Db.get_booking_by_id i db); [reflexivity|].
    simpl. destruct (Db.next_id db =? i) eqn:E; [|reflexivity].
    apply Z.eqb_eq in E. now elim Hi.
  - unfold Db.next_id at 1. rewrite fold_right_app. cbn [fold_right Db.id].
    rewrite fold_max_from by (unfold Db.next_id; pose proof (fold_max_nonneg db); lia).
    unfold Db.next_id. pose proof (fold_max_nonneg db). lia.
Qed.

(** The string order behind ORDER BY. *)
Lemma ascii_compare_lt (a b : ascii) :
  Ascii.compare a b = Lt <-> (N_of_ascii a < N_of_ascii b)%N.
Proof. unfold Ascii.compare. apply N.compare_lt_iff. Qed.

Lemma ascii_compare_refl (a : ascii) : Ascii.compare a a = Eq.
Proof. unfold Ascii.compare. apply N.compare_refl. Qed.

Lemma string_leb_trans (s1 s2 s3 : string) :
  String.leb s1 s2 = true -> String.leb s2 s3 = true ->
  String.leb s1 s3 = true.
Proof.
  unfold String.leb. revert s2 s3.
  induction s1 as [|a s1 IH]; intros [|b s2] [|c s3]; simpl;
    try reflexivity; try discriminate.
  destruct (Ascii.compare a b) eqn:Eab; try discriminate.
  - apply Ascii.compare_eq_iff in Eab. subst b.
    destruct (Ascii.compare a c); try reflexivity; try discriminate.
    apply IH.
  - intros _. destruct (Ascii.compare b c) eqn:Ebc; try discriminate.
    + apply Ascii.compare_eq_iff in Ebc. subst c. now rewrite Eab.
    + intros _. apply ascii_compare_lt in Eab, Ebc.
      assert (E : Ascii.compare a c = Lt)
        by (apply ascii_compare_lt; eapply N.lt_trans; eassumption).
      now rewrite E.
Qed.

Lemma string_ltb_false_leb (s1 s2 : string) :
  String.ltb s1 s2 = false -> String.leb s2 s1 = true.
Proof.
  unfold String.ltb, String.leb. rewrite (String.compare_antisym s2 s1).
  destruct (String.compare s1 s2); simpl; try reflexivity; discriminate.
Qed.

Lemma string_ltb_true_leb (s1 s2 : string) :
  String.ltb s1 s2 = true -> String.leb s1 s2 = true.
Proof.
  unfold String.ltb, String.leb.
  destruct (String.compare s1 s2); simpl; try reflexivity; discriminate.
Qed.

Lemma insert_by_start_sorted (r : Db.row) (rs : list Db.row) :
  StronglySorted start_le rs ->
  StronglySorted start_le (Db.insert_by_start r rs).
Proof.
  induction 1 as [|x rs Hs IH Hx]; simpl.
  - constructor; constructor.
  - destruct (String.ltb (Db.start_time r) (Db.start_time x)) eqn:E.
    + constructor; [constructor; assumption|].
      apply string_ltb_true_leb in E. constructor; [exact E|].
      rewrite Forall_forall in *. intros y Hy.
      eapply string_leb_trans; [exact E | now apply Hx].
    + constructor; [exact IH|].
      rewrite Forall_forall in *. intros y Hy.
      apply In_insert_by_start in Hy. destruct Hy as [->|Hy].
      * now apply string_ltb_false_leb.
      * now apply Hx.
Qed.

Lemma insert_by_start_perm (r : Db.row) (rs : list Db.row) :
  Permutation (Db.insert_by_start r rs) (r :: rs).
Proof.
  induction rs as [|x rs IH]; simpl; [reflexivity|].
  destruct (String.ltb (Db.start_time r) (Db.start_time x)); [reflexivity|].
  rewrite IH. apply perm_swap.
Qed.

Lemma order_by_start_from (rs acc : list Db.row) :
  StronglySorted start_le acc ->
  StronglySorted start_le
    (fold_left (fun acc r => Db.insert_by_start r acc) rs acc)
  /\ Permutation (fold_left (fun acc r => Db.insert_by_start r acc) rs acc)
                 (rs ++ acc).
Proof.
  revert acc. induction rs as [|r rs IH]; intros acc Hs; simpl.
  - split; [exact Hs | reflexivity].
  - destruct (IH (Db.insert_by_start r acc) (insert_by_start_sorted r Hs))
      as [H1 H2].
    split; [exact H1|]. rewrite H2, insert_by_start_perm.
    symmetry. apply Permutation_middle.
Qed.

(** X2. [list_bookings] returns the active rows, each once, in ascending
    [start_time] (bytewise text order). *)
Theorem list_bookings_sorted_active (db : Db.ledger) :
  StronglySorted start_le (Db.list_bookings db)
  /\ Permutation (Db.list_bookings db)
       (filter (fun r => Db.status_eqb (Db.st r) Db.active) db)
  /\ Forall (fun r => Db.st r = Db.active) (Db.list_bookings db).
Proof.
  unfold Db.list_bookings, Db.list_bookings_with, Db.order_by_start.
  destruct (@order_by_start_from
              (filter (fun r => Db.status_eqb (Db.st r) Db.active) db) [])
    as [H1 H2]; [constructor|].
  rewrite app_nil_r in H2. split; [exact H1|]. split; [exact H2|].
  apply Forall_forall. intros r Hr.
  apply (Permutation_in _ H2) in Hr. apply filter_In in Hr.
  now apply status_eqb_eq.
Qed.

Lemma status_cases (s : Db.status) : s = Db.active \/ s = Db.cancelled.
Proof. destruct s; auto. Qed.

Lemma get_last_booking_invariant (db seen : list Db.row)
    (best : option Db.row) :
  match best with
  | Some b => In b seen /\ Db.st b = Db.active
              /\ forall r, In r seen -> Db.st r = Db.active ->
                           Db.id r <= Db.id b
  | None => forall r, In r seen -> Db.st r = Db.cancelled
  end ->
  match fold_left
          (fun best r =>
             if Db.status_eqb (Db.st r) Db.active then
               match best with
               | Some b => if Db.id b <? Db.id r then Some r else best
               | None => Some r
               end
             else best) db best with
  | Some b => In b (seen ++ db)%list /\ Db.st b = Db.active
              /\ forall r, In r (seen ++ db)%list -> Db.st r = Db.active ->
                           Db.id r <= Db.id b
  | None => forall r, In r (seen ++ db)%list -> Db.st r = Db.cancelled
  end.
Proof.
  revert seen best. induction db as [|x db IH]; intros seen best H.
  - simpl. rewrite app_nil_r. exact H.
  - cbn [fold_left].
    replace (seen ++ x :: db)%list with ((seen ++ [x]) ++ db)%list
      by (rewrite <- app_assoc; reflexivity).
    apply IH.
    destruct (status_cases (Db.st x)) as [Hx|Hx]; rewrite Hx; simpl.
    + destruct best as [b|].
      * destruct H as [Hb [Hbs Hmax]].
        destruct (Db.id b <? Db.id x) eqn:E.
        -- apply Z.ltb_lt in E. split; [apply in_or_app; right; now left|].
           split; [exact Hx|]. intros r Hr Hrs.
           apply in_app_or in Hr. destruct Hr as [Hr|[<-|[]]]; [|lia].
           specialize (Hmax r Hr Hrs). lia.
        -- apply Z.ltb_ge in E. split; [apply in_or_app; now left|].
           split; [exact Hbs|]. intros r Hr Hrs.
           apply in_app_or in Hr. destruct Hr as [Hr|[<-|[]]]; [|lia].
           now apply Hmax.
      * split; [apply in_or_app; right; now left|]. split; [exact Hx|].
        intros r Hr Hrs. apply in_app_or in Hr.
        destruct Hr as [Hr|[<-|[]]]; [|lia].
        specialize (H r Hr). congruence.
    + destruct best as [b|].
      * destruct H as [Hb [Hbs Hmax]]. split; [apply in_or_app; now left|].
        split; [exact Hbs|]. intros r Hr Hrs. apply in_app_or in Hr.
        destruct Hr as [Hr|[<-|[]]]; [now apply Hmax | congruence].
      * intros r Hr. apply in_app_or in Hr.
        destruct Hr as [Hr|[<-|[]]]; [now apply H | exact Hx].
Qed.

(** X3. [get_last_booking] returns the active row with the greatest id,
    and [None] exactly when the table holds no active row. *)
Theorem get_last_booking_greatest_active (db : Db.ledger) :
  match Db.get_last_booking db with
  | Some b => In b db /\ Db.st b = Db.active
              /\ forall r, In r db -> Db.st r = Db.active ->
                           Db.id r <= Db.id b
  | None => forall r, In r db -> Db.st r = Db.cancelled
  end.
Proof.
  unfold Db.get_last_booking.
  apply (@get_last_booking_invariant db [] None). intros r [].
Qed.

(** X4. [cancel_booking] is a soft delete: the rows, their ids and their
    order stay; afterwards no row with that id is active; rows with
    another id are untouched; cancelling again changes nothing. *)
Theorem cancel_booking_soft_delete (booking_id : Z) (now now' : string)
    (db : Db.ledger) :
  let db' := Db.cancel_booking booking_id now db in
  map Db.id db' = map Db.id db
  /\ (forall r, In r db' -> Db.id r = booking_id -> Db.st r = Db.cancelled)
  /\ (forall r, In r db -> Db.id r <> booking_id -> In r db')
  /\ Db.cancel_booking booking_id now' db' = db'.
Proof.
  intros db'. unfold db'.
  assert (H2 : forall r, In r (Db.cancel_booking booking_id now db) ->
                 Db.id r = booking_id -> Db.st r = Db.cancelled).
  { unfold Db.cancel_booking. intros r Hr Hid.
    apply in_map_iff in Hr. destruct Hr as [x [Hx _]].
    destruct (Db.id x =? booking_id) eqn:E; simpl in Hx.
    - destruct (status_cases (Db.st x)) as [Hs|Hs]; rewrite Hs in Hx;
        simpl in Hx; subst r; [reflexivity | exact Hs].
    - subst r. apply Z.eqb_neq in E. now elim E. }
  split; [|split; [exact H2|split]].
  - unfold Db.cancel_booking. rewrite map_map. apply map_ext.
    intros r. destruct (_ && _)%bool; reflexivity.
  - intros r Hr Hid. unfold Db.cancel_booking. apply in_map_iff.
    exists r. split; [|exact Hr].
    apply Z.eqb_neq in Hid. now rewrite Hid.
  - now apply cancel_booking_noop.
Qed.

(** [update_booking] changes nothing when no active row has the id. *)
Lemma update_booking_noop (booking_id : Z)
    (summary start end_ tz now : string) (db : Db.ledger) :
  (forall b, In b db -> Db.id b = booking_id -> Db.st b = Db.cancelled) ->
  Db.update_booking booking_id summary start end_ tz now db = db.
Proof.
  intros H. unfold Db.update_booking.
  induction db as [|r db IH]; simpl; [reflexivity|].
  rewrite IH by (intros b Hb; apply H; right; exact Hb). f_equal.
  destruct (Db.id r =? booking_id) eqn:E; simpl; [|reflexivity].
  apply Z.eqb_eq in E. rewrite (H r (or_introl eq_refl) E). reflexivity.
Qed.

(** X5. [update_booking] rewrites the summary, the times, the zone and
    [updated_at] of the active rows with the id, and nothing else: ids and
    statuses stay row by row, the event id and the creation time of the
    target stay, other rows are untouched, and an id whose rows are all
    cancelled is left alone. *)
Theorem update_booking_overwrites_active_only (booking_id : Z)
    (summary start end_ tz now : string) (db : Db.ledger) :
  let db' := Db.update_booking booking_id summary start end_ tz now db in
  map Db.id db' = map Db.id db
  /\ map Db.st db' = map Db.st db
  /\ (forall r, In r db -> Db.id r <> booking_id \/ Db.st r = Db.cancelled ->
                In r db')
  /\ (forall r, In r db -> Db.id r = booking_id -> Db.st r = Db.active ->
        In (Db.Row booking_id summary (Db.event_id r) start end_ tz
                   Db.active (Db.created_at r) now) db')
  /\ ((forall r, In r db -> Db.id r = booking_id -> Db.st r = Db.cancelled) ->
      db' = db).
Proof.
  intros db'. unfold db', Db.update_booking.
  split; [|split; [|split; [|split]]].
  - rewrite map_map. apply map_ext.
    intros r. destruct (_ && _)%bool; reflexivity.
  - rewrite map_map. apply map_ext.
    intros r. destruct (_ && _)%bool; reflexivity.
  - intros r Hr Hc. apply in_map_iff. exists r. split; [|exact Hr].
    destruct Hc as [Hid|Hs].
    + apply Z.eqb_neq in Hid. now rewrite Hid.
    + rewrite Hs. now rewrite andb_false_r.
  - intros r Hr Hid Hs. apply in_map_iff. exists r. split; [|exact Hr].
    rewrite Hid, Z.eqb_refl, Hs. reflexivity.
  - apply update_booking_noop.
Qed.

(** * What a request can do to the ledger *)

Lemma evolves_refl (r : Db.row) : evolves r r.
Proof. unfold evolves. auto. Qed.

Lemma Forall2_map_evolves (f : Db.row -> Db.row) (db : Db.ledger) :
  (forall r, evolves r (f r)) -> Forall2 evolves db (map f db).
Proof.
  intros H. induction db as [|r db IH]; simpl; constructor; auto.
Qed.

Lemma Forall2_evolves_refl (db : Db.ledger) : Forall2 evolves db db.
Proof.
  induction db; constructor; [apply evolves_refl | assumption].
Qed.

Lemma cancel_evolves (booking_id : Z) (now : string) (db : Db.ledger) :
  Forall2 evolves db (Db.cancel_booking booking_id now db).
Proof.
  apply Forall2_map_evolves. intros r.
  destruct (Db.id r =? booking_id); simpl; [|apply evolves_refl].
  destruct (status_cases (Db.st r)) as [H|H]; rewrite H; simpl.
  - unfold evolves. simpl. repeat split; congruence.
  - apply evolves_refl.
Qed.

Lemma update_evolves (booking_id : Z) (summary start end_ tz now : string)
    (db : Db.ledger) :
  Forall2 evolves db
    (Db.update_booking booking_id summary start end_ tz now db).
Proof.
  apply Forall2_map_evolves. intros r.
  destruct (Db.id r =? booking_id); simpl; [|apply evolves_refl].
  destruct (status_cases (Db.st r)) as [H|H]; rewrite H; simpl.
  - unfold evolves. simpl. repeat split; congruence.
  - apply evolves_refl.
Qed.

Lemma fold_max_ids (db : Db.ledger) :
  fold_right (fun r m => Z.max (Db.id r) m) 0 db
  = fold_right Z.max 0 (map Db.id db).
Proof.
  induction db as [|r db IH]; cbn [fold_right map]; [reflexivity|].
  now rewrite IH.
Qed.

Lemma fold_max_seq (a n : nat) :
  fold_right Z.max 0 (map Z.of_nat (seq a n))
  = match n with O => 0 | S _ => Z.of_nat (a + n - 1) end.
Proof.
  revert a. induction n as [|n IH]; intros a; cbn [seq map fold_right].
  - reflexivity.
  - rewrite IH. destruct n; lia.
Qed.

Lemma NoDup_map_inj_Z_of_nat (l : list nat) :
  NoDup l -> NoDup (map Z.of_nat l).
Proof.
  induction 1 as [|x l Hx Hl IH]; simpl; constructor; [|exact IH].
  intros H. apply in_map_iff in H. destruct H as [y [Hy Hin]].
  apply Nat2Z.inj in Hy. now subst y.
Qed.

Lemma next_id_sequential (db : Db.ledger) :
  ids_sequential db -> Db.next_id db = Z.of_nat (S (List.length db)).
Proof.
  unfold ids_sequential, Db.next_id. intros H.
  rewrite fold_max_ids, H, fold_max_seq. destruct (List.length db); lia.
Qed.

Lemma save_keeps_sequential (summary event_id start end_ tz now : string)
    (db : Db.ledger) :
  ids_sequential db ->
  ids_sequential (Db.save_booking summary event_id start end_ tz now db).
Proof.
  intros H. pose proof (next_id_sequential H) as Hn.
  unfold ids_sequential, Db.save_booking in *.
  rewrite map_app, length_app, H. cbn [map List.length Db.id].
  rewrite Hn, Nat.add_1_r, seq_S, map_app. reflexivity.
Qed.

Section Requests.

Variable search_dates : string -> option (list (string * Dt.datetime)).
Variable dateparser_parse : string -> option Dt.datetime.
Variable astimezone : string -> Dt.datetime -> raises Dt.datetime.

Local Abbreviation handle :=
  (handle_user_message search_dates dateparser_parse astimezone).
Local Abbreviation slots_of text msgs :=
  (extract_slots search_dates text (history_context dateparser_parse msgs)).

(** The four things a request does to the table. *)
Lemma handle_ledger_cases (text : string) (msgs : option (list message))
    (clock : nat -> Z) (db : Db.ledger) :
  let db' := fst (handle text msgs clock db) in
  db' = db
  \/ (exists summary event_id start end_ tz now,
        db' = Db.save_booking summary event_id start end_ tz now db)
  \/ (exists booking_id now, db' = Db.cancel_booking booking_id now db)
  \/ (exists booking_id summary start end_ tz now,
        db' = Db.update_booking booking_id summary start end_ tz now db).
Proof.
  unfold handle_user_message. cbv zeta.
  destruct (slots_of text msgs) as [e|s]; [left; reflexivity|].
  destruct (extract_intent text); cbv beta iota.
  - destruct (ambiguity s); [left; reflexivity|].
    destruct (datetime s) as [start|]; [|left; reflexivity].
    destruct (end_time_of dateparser_parse start (duration s)) as [e|end_];
      [left; reflexivity|].
    destruct (existsb _ (Db.list_bookings db)); [left; reflexivity|].
    right. left. do 6 eexists. reflexivity.
  - destruct (resolve_target s (history_context dateparser_parse msgs) db);
      [|left; reflexivity].
    right. right. left. do 2 eexists. reflexivity.
  - destruct (resolve_target s (history_context dateparser_parse msgs) db);
      [|left; reflexivity].
    destruct (ambiguity s); [left; reflexivity|].
    destruct (datetime s) as [start|]; [|left; reflexivity].
    destruct (end_time_of dateparser_parse start (duration s)) as [e|end_];
      [left; reflexivity|].
    right. right. right. do 6 eexists. reflexivity.
  - left. reflexivity.
  - left. destruct (Db.list_bookings db); reflexivity.
  - left. reflexivity.
  - left. reflexivity.
Qed.

(** X6. A request that ends in an exception has written nothing: whenever
    [handle_user_message] raises, and so whenever [chat_endpoint] answers
    with an error, the ledger is as it was. *)
Theorem failed_request_leaves_ledger (text : string)
    (msgs : option (list message)) (clock : nat -> Z) (db : Db.ledger) :
  (forall e, snd (handle text msgs clock db) = inl e ->
             fst (handle text msgs clock db) = db)
  /\ (forall e,
        snd (chat_endpoint search_dates dateparser_parse astimezone
               text clock db) = ChatError e ->
        fst (chat_endpoint search_dates dateparser_parse astimezone
               text clock db) = db).
Proof.
  assert (H : forall msgs e, snd (handle text msgs clock db) = inl e ->
                fst (handle text msgs clock db) = db).
  { clear msgs. intros msgs e. unfold handle_user_message. cbv zeta.
    destruct (slots_of text msgs) as [e0|s]; [reflexivity|].
    destruct (extract_intent text); cbv beta iota; try reflexivity.
    - destruct (ambiguity s); [reflexivity|].
      destruct (datetime s) as [start|]; [|reflexivity].
      destruct (end_time_of dateparser_parse start (duration s))
        as [e1|end_]; [reflexivity|].
      destruct (existsb _ (Db.list_bookings db)); [reflexivity|].
      simpl. discriminate.
    - destruct (resolve_target s (history_context dateparser_parse msgs) db);
        [|reflexivity].
      simpl. discriminate.
    - destruct (resolve_target s (history_context dateparser_parse msgs) db);
        [|reflexivity].
      destruct (ambiguity s); [reflexivity|].
      destruct (datetime s) as [start|]; [|reflexivity].
      destruct (end_time_of dateparser_parse start (duration s))
        as [e1|end_]; [reflexivity|].
      simpl. discriminate.
    - destruct (Db.list_bookings db); reflexivity. }
  split; [apply H|].
  intros e. unfold chat_endpoint.
  specialize (H None).
  destruct (handle text None clock db) as [db' [e'|r]]; simpl in *.
  - intros _. now apply (H e').
  - discriminate.
Qed.

(** X7. No request deletes, revives or rewrites history: the ledger after
    a request is the old rows, in order, each with its id, event id and
    creation time, a cancelled row exactly as it was and no row newly
    active, followed by at most one new active row. *)
Theorem ledger_grows_and_keeps_history (text : string)
    (msgs : option (list message)) (clock : nat -> Z) (db : Db.ledger) :
  exists kept added,
    fst (handle text msgs clock db) = (kept ++ added)%list
    /\ Forall2 evolves db kept
    /\ (List.length added <= 1)%nat
    /\ Forall (fun r => Db.st r = Db.active) added.
Proof.
  destruct (handle_ledger_cases text msgs clock db)
    as [H|[H|[H|H]]]; cbv zeta in H.
  - exists db, []. rewrite H, app_nil_r.
    split; [reflexivity|]. split; [apply Forall2_evolves_refl|].
    split; [simpl; lia | constructor].
  - destruct H as [su [ev [st [en [tz [now H]]]]]]. rewrite H.
    unfold Db.save_booking. eexists db, [_].
    split; [reflexivity|]. split; [apply Forall2_evolves_refl|].
    split; [simpl; lia|]. constructor; [reflexivity | constructor].
  - destruct H as [i [now H]]. rewrite H.
    exists (Db.cancel_booking i now db), []. rewrite app_nil_r.
    split; [reflexivity|]. split; [apply cancel_evolves|].
    split; [simpl; lia | constructor].
  - destruct H as [i [su [st [en [tz [now H]]]]]]. rewrite H.
    exists (Db.update_booking i su st en tz now db), []. rewrite app_nil_r.
    split; [reflexivity|]. split; [apply update_evolves|].
    split; [simpl; lia | constructor].
Qed.

Lemma request_keeps_sequential (text : string)
    (msgs : option (list message)) (clock : nat -> Z) (db : Db.ledger) :
  ids_sequential db -> ids_sequential (fst (handle text msgs clock db)).
Proof.
  intros Hs.
  destruct (handle_ledger_cases text msgs clock db)
    as [H|[H|[H|H]]]; cbv zeta in H.
  - now rewrite H.
  - destruct H as [su [ev [st [en [tz [now H]]]]]]. rewrite H.
    now apply save_keeps_sequential.
  - destruct H as [i [now H]]. rewrite H. unfold ids_sequential in *.
    unfold Db.cancel_booking at 1. rewrite map_map.
    unfold Db.cancel_booking. rewrite length_map. rewrite <- Hs.
    apply map_ext. intros r. destruct (_ && _)%bool; reflexivity.
  - destruct H as [i [su [st [en [tz [now H]]]]]]. rewrite H.
    unfold ids_sequential in *.
    unfold Db.update_booking at 1. rewrite map_map.
    unfold Db.update_booking. rewrite length_map. rewrite <- Hs.
    apply map_ext. intros r. destruct (_ && _)%bool; reflexivity.
Qed.

(** X8. From the empty ledger, whatever the requests, the ids in the
    table are 1, 2, ..., n in insertion order: they are distinct, and
    [get_booking_by_id] finds at most one row per id. *)
Theorem reachable_ids_are_sequential
    (reqs : list (string * option (list message) * (nat -> Z))) :
  let db :=
    fold_left
      (fun db r => fst (handle (fst (fst r)) (snd (fst r)) (snd r) db))
      reqs [] in
  ids_sequential db /\ NoDup (map Db.id db).
Proof.
  intros db.
  assert (Hs : ids_sequential db).
  { unfold db. generalize (eq_refl : ids_sequential []).
    generalize (@nil Db.row). induction reqs as [|r reqs IH]; intros l Hl.
    - exact Hl.
    - simpl. apply IH. now apply request_keeps_sequential. }
  split; [exact Hs|]. rewrite Hs.
  apply NoDup_map_inj_Z_of_nat. apply seq_NoDup.
Qed.

End Requests.

(** * Resolving the target of a cancel or an edit *)

Lemma string_leb_refl (s : string) : String.leb s s = true.
Proof.
  unfold String.leb.
  assert (H : String.compare s s = Eq).
  { induction s as [|a s IH]; simpl; [reflexivity|].
    now rewrite ascii_compare_refl. }
  now rewrite H.
Qed.

Lemma sorted_last_greatest (l : list Db.row) (d y : Db.row) :
  StronglySorted start_le l -> In y l -> start_le y (last l d).
Proof.
  induction 1 as [|x l Hs IH Hx]; [intros []|].
  intros Hy. destruct l as [|x' l'].
  - destruct Hy as [<-|[]]. apply string_leb_refl.
  - change (last (x :: x' :: l') d) with (last (x' :: l') d).
    destruct Hy as [<-|Hy]; [|now apply IH].
    rewrite Forall_forall in Hx. apply Hx.
    clear. revert x'. induction l' as [|z l' IH]; intros x'.
    + now left.
    + right. apply IH.
Qed.

Lemma sorted_head_least (x y : Db.row) (l : list Db.row) :
  StronglySorted start_le (x :: l) -> In y (x :: l) -> start_le x y.
Proof.
  intros Hs [<-|Hy]; [apply string_leb_refl|].
  inversion Hs as [|? ? _ Hx]. subst. rewrite Forall_forall in Hx.
  now apply Hx.
Qed.

Lemma list_bookings_sorted (db : Db.ledger) :
  StronglySorted start_le (Db.list_bookings db).
Proof.
  unfold Db.list_bookings, Db.list_bookings_with, Db.order_by_start.
  apply order_by_start_from. constructor.
Qed.

Lemma length_list_bookings (db : Db.ledger) :
  List.length (Db.list_bookings db)
  = List.length (filter (fun r => Db.status_eqb (Db.st r) Db.active) db).
Proof.
  unfold Db.list_bookings, Db.list_bookings_with, Db.order_by_start.
  destruct (@order_by_start_from
              (filter (fun r => Db.status_eqb (Db.st r) Db.active) db) [])
    as [_ H]; [constructor|].
  rewrite app_nil_r in H. now apply Permutation_length.
Qed.

Lemma found_booking_is_listed (reference : string)
    (ctx : option context_event) (db : Db.ledger) (b : Db.row) :
  find_booking_by_reference reference ctx db = Some b ->
  In b (Db.list_bookings db).
Proof.
  unfold find_booking_by_reference.
  destruct (Db.list_bookings db) as [|x l] eqn:E; [discriminate|].
  destruct (reference =? "last")%string.
  { intros H. injection H as <-.
    destruct l as [|x' l']; [now left|].
    right. change (last (x :: x' :: l') x) with (last (x' :: l') x).
    clear. revert x'. induction l' as [|z l' IH]; intros x'.
    - now left.
    - right. apply IH. }
  destruct (reference =? "next")%string.
  { intros H. injection H as <-. now left. }
  match goal with
  | |- match ?c with _ => _ end = _ -> _ => destruct c as [b'|] eqn:Ec
  end.
  - intros H. injection H as <-.
    destruct ctx as [c|]; [|discriminate].
    destruct (reference =? "context")%string; [|discriminate].
    now apply find_some in Ec.
  - intros H. now apply find_some in H.
Qed.

Lemma resolved_target_in_ledger (s : slots) (ctx : option context_event)
    (db : Db.ledger) (b : Db.row) :
  resolve_target s ctx db = Some b -> In b db /\ Db.st b = Db.active.
Proof.
  unfold resolve_target. intros H.
  assert (Hlast : Db.get_last_booking db = Some b ->
                  In b db /\ Db.st b = Db.active).
  { intros E. pose proof (get_last_booking_invariant db [] None) as G.
    unfold Db.get_last_booking in E. rewrite E in G. simpl in G.
    destruct G as [G1 [G2 _]]; [intros r []|]. auto. }
  destruct (reference s) as [ref|]; [|now apply Hlast].
  destruct (Py.truthy ref); [|now apply Hlast].
  apply found_booking_is_listed in H. now apply In_list_bookings.
Qed.

(** X9. The target of a cancel or an edit is always an active row of the
    ledger, whatever the reference and the context: a cancelled booking is
    never found again, by reference or as the most recent one. *)
Theorem resolved_target_is_active (s : slots) (ctx : option context_event)
    (db : Db.ledger) (b : Db.row) :
  resolve_target s ctx db = Some b -> In b db /\ Db.st b = Db.active.
Proof.
  apply resolved_target_in_ledger.
Qed.

Lemma resolved_target_is_active_witness :
  resolve_target (Slots None 30 "Event" "UTC" [] true (Some "last")) None
    Stub.booked_twice
  = Some (Db.Row 2 "Event" "evt_1762190000" "2030-01-06T10:00:00+00:00"
                 "2030-01-06T10:30:00+00:00" "UTC" Db.active
                 "2025-11-03T17:13:20" "2025-11-03T17:13:20")
  /\ Db.st (Db.Row 2 "Event" "evt_1762190000" "2030-01-06T10:00:00+00:00"
                   "2030-01-06T10:30:00+00:00" "UTC" Db.active
                   "2025-11-03T17:13:20" "2025-11-03T17:13:20") = Db.active.
Proof.
  assert (H : resolve_target
                (Slots None 30 "Event" "UTC" [] true (Some "last")) None
                Stub.booked_twice
              = Some (Db.Row 2 "Event" "evt_1762190000"
                        "2030-01-06T10:00:00+00:00"
                        "2030-01-06T10:30:00+00:00" "UTC" Db.active
                        "2025-11-03T17:13:20" "2025-11-03T17:13:20"))
    by (vm_compute; reflexivity).
  split; [exact H|]. exact (proj2 (resolved_target_is_active _ _ _ H)).
Defined.

(** X10. "last" and "next" are positions in start-time order, not in
    order of creation: "last" resolves to an active booking with the
    greatest [start_time], "next" to one with the least, and both resolve
    as soon as one booking is active. *)
Theorem last_and_next_follow_start_time (ctx : option context_event)
    (db : Db.ledger) :
  (forall b, find_booking_by_reference "last" ctx db = Some b ->
             forall r, In r db -> Db.st r = Db.active -> start_le r b)
  /\ (forall b, find_booking_by_reference "next" ctx db = Some b ->
                forall r, In r db -> Db.st r = Db.active -> start_le b r)
  /\ (forall r, In r db -> Db.st r = Db.active ->
        find_booking_by_reference "last" ctx db <> None
        /\ find_booking_by_reference "next" ctx db <> None).
Proof.
  pose proof (list_bookings_sorted db) as Hs.
  unfold find_booking_by_reference.
  destruct (Db.list_bookings db) as [|x l] eqn:E.
  - split; [discriminate|]. split; [discriminate|].
    intros r Hr Ha. exfalso.
    assert (Hin : In r (Db.list_bookings db))
      by (apply In_list_bookings; auto).
    rewrite E in Hin. destruct Hin.
  - change ("next" =? "last")%string with false.
    rewrite !String.eqb_refl. cbv beta iota.
    split; [|split].
    + intros b H r Hr Ha. injection H as <-.
      apply (@sorted_last_greatest (x :: l) x r Hs).
      rewrite <- E. apply In_list_bookings. auto.
    + intros b H r Hr Ha. injection H as <-.
      apply (@sorted_head_least x r l Hs).
      rewrite <- E. apply In_list_bookings. auto.
    + intros r _ _. split; discriminate.
Qed.

Lemma last_and_next_follow_start_time_witness :
  let first_created :=
    Db.Row 1 "Late" "evt_1" "2030-01-06T10:00:00+00:00"
           "2030-01-06T10:30:00+00:00" "UTC" Db.active "" "" in
  let second_created :=
    Db.Row 2 "Early" "evt_2" "2030-01-05T10:00:00+00:00"
           "2030-01-05T10:30:00+00:00" "UTC" Db.active "" "" in
  find_booking_by_reference "last" None [first_created; second_created]
  = Some first_created
  /\ start_le second_created first_created.
Proof.
  intros first_created second_created.
  assert (H : find_booking_by_reference "last" None
                [first_created; second_created] = Some first_created)
    by (vm_compute; reflexivity).
  split; [exact H|].
  apply (proj1 (last_and_next_follow_start_time None
                  [first_created; second_created]) first_created H).
  - right. left. reflexivity.
  - reflexivity.
Defined.

(** * Cancel, edit and refused bookings *)

Lemma find_id_In (db : Db.ledger) (r : Db.row) :
  NoDup (map Db.id db) -> In r db -> Db.get_booking_by_id (Db.id r) db = Some r.
Proof.
  unfold Db.get_booking_by_id.
  induction db as [|x db IH]; simpl; [intros _ []|].
  intros Hn Hin. inversion Hn as [|? ? Hx Hn']. subst.
  destruct Hin as [->|Hin]; [now rewrite Z.eqb_refl|].
  destruct (Db.id x =? Db.id r) eqn:E; [|now apply IH].
  apply Z.eqb_eq in E. exfalso. apply Hx. rewrite E. now apply in_map.
Qed.

Lemma active_count_after_cancel (db : Db.ledger) (b : Db.row) (now : string) :
  NoDup (map Db.id db) -> In b db -> Db.st b = Db.active ->
  (List.length (filter (fun r => Db.status_eqb (Db.st r) Db.active)
                  (Db.cancel_booking (Db.id b) now db)) + 1
   = List.length (filter (fun r => Db.status_eqb (Db.st r) Db.active) db))%nat.
Proof.
  induction db as [|x db IH]; [intros _ []|].
  intros Hn Hin Hb. inversion Hn as [|? ? Hx Hn']. subst.
  cbn [Db.cancel_booking map filter].
  destruct Hin as [->|Hin].
  - rewrite Z.eqb_refl, Hb. simpl.
    fold (Db.cancel_booking (Db.id b) now db).
    rewrite cancel_booking_noop; [lia|].
    intros r Hr Hid. exfalso. apply Hx. rewrite <- Hid. now apply in_map.
  - assert (E : (Db.id x =? Db.id b) = false).
    { apply Z.eqb_neq. intros E. apply Hx. rewrite E. now apply in_map. }
    rewrite E. simpl. fold (Db.cancel_booking (Db.id b) now db).
    specialize (IH Hn' Hin Hb).
    destruct (Db.status_eqb (Db.st x) Db.active); simpl; lia.
Qed.

Lemma active_count_after_update (booking_id : Z)
    (summary start end_ tz now : string) (db : Db.ledger) :
  List.length (filter (fun r => Db.status_eqb (Db.st r) Db.active)
                 (Db.update_booking booking_id summary start end_ tz now db))
  = List.length (filter (fun r => Db.status_eqb (Db.st r) Db.active) db).
Proof.
  unfold Db.update_booking.
  induction db as [|x db IH]; simpl; [reflexivity|].
  destruct ((Db.id x =? booking_id) && Db.status_eqb (Db.st x) Db.active)%bool;
    simpl; destruct (Db.status_eqb (Db.st x) Db.active); simpl; lia.
Qed.

Lemma filter_active_idem (db : Db.ledger) :
  filter (fun r => Db.status_eqb (Db.st r) Db.active)
    (filter (fun r => Db.status_eqb (Db.st r) Db.active) db)
  = filter (fun r => Db.status_eqb (Db.st r) Db.active) db.
Proof.
  induction db as [|x db IH]; simpl; [reflexivity|].
  destruct (Db.status_eqb (Db.st x) Db.active) eqn:E; simpl;
    [rewrite E, IH; reflexivity | exact IH].
Qed.

Section Outcomes.

Variable search_dates : string -> option (list (string * Dt.datetime)).
Variable dateparser_parse : string -> option Dt.datetime.
Variable astimezone : string -> Dt.datetime -> raises Dt.datetime.

Local Abbreviation handle :=
  (handle_user_message search_dates dateparser_parse astimezone).
Local Abbreviation slots_of text msgs :=
  (extract_slots search_dates text (history_context dateparser_parse msgs)).

(** X11. A cancel request whose target resolves to booking [b] flips
    exactly that booking: the reply names its summary and start time, the
    row with its id reads cancelled with a fresh [updated_at] and all
    other fields kept, and the active bookings are one fewer. *)
Theorem cancel_flips_the_target (text : string)
    (msgs : option (list message)) (clock : nat -> Z) (db : Db.ledger)
    (s : slots) (b : Db.row) :
  extract_intent text = Cancel ->
  slots_of text msgs = inr s ->
  resolve_target s (history_context dateparser_parse msgs) db = Some b ->
  NoDup (map Db.id db) ->
  let now := Dt.isoformat (Dt.utcnow (clock 0%nat)) in
  let db' := Db.cancel_booking (Db.id b) now db in
  handle text msgs clock db
  = (db', inr (Result Cancel s ("Cancelled event: '" ++ Db.summary b
                                ++ "' at " ++ Db.start_time b)))
  /\ Db.get_booking_by_id (Db.id b) db'
     = Some (Db.Row (Db.id b) (Db.summary b) (Db.event_id b)
                    (Db.start_time b) (Db.end_time b) (Db.timezone b)
                    Db.cancelled (Db.created_at b) now)
  /\ (List.length (Db.list_bookings db') + 1
      = List.length (Db.list_bookings db))%nat.
Proof.
  intros Hi Hs Hr Hn now db'.
  destruct (resolved_target_in_ledger _ _ _ Hr) as [Hin Hact].
  split; [|split].
  - unfold handle_user_message. cbv zeta. rewrite Hi, Hs. cbv beta iota.
    rewrite Hr. reflexivity.
  - set (b' := Db.Row (Db.id b) (Db.summary b) (Db.event_id b)
                 (Db.start_time b) (Db.end_time b) (Db.timezone b)
                 Db.cancelled (Db.created_at b) now).
    change (Db.id b) with (Db.id b') at 1.
    apply find_id_In.
    + unfold db', Db.cancel_booking. rewrite map_map.
      erewrite map_ext; [exact Hn|].
      intros r. simpl. destruct (_ && _)%bool; reflexivity.
    + unfold db', Db.cancel_booking. apply in_map_iff. exists b.
      split; [|exact Hin]. rewrite Z.eqb_refl, Hact. reflexivity.
  - rewrite !length_list_bookings. now apply active_count_after_cancel.
Qed.

(** X12. An edit request: without a target it only replies; when the
    request is ambiguous it asks for the new time and writes nothing;
    otherwise the target keeps its id, event id, status and creation
    time and takes the new summary, times and zone, and the number of
    active bookings stays. *)
Theorem edit_overwrites_the_target (text : string)
    (msgs : option (list message)) (clock : nat -> Z) (db : Db.ledger)
    (s : slots) :
  extract_intent text = Edit ->
  slots_of text msgs = inr s ->
  (resolve_target s (history_context dateparser_parse msgs) db = None ->
   handle text msgs clock db
   = (db, inr (Result Edit s "No matching event found to edit.")))
  /\ (forall b,
        resolve_target s (history_context dateparser_parse msgs) db = Some b ->
        ambiguity s = true ->
        handle text msgs clock db
        = (db, inr (Result Edit s
             "Please specify the new date/time or summary for your event.")))
  /\ (forall b start end_,
        resolve_target s (history_context dateparser_parse msgs) db = Some b ->
        ambiguity s = false ->
        datetime s = Some start ->
        end_time_of dateparser_parse start (duration s) = inr end_ ->
        NoDup (map Db.id db) ->
        let now := Dt.isoformat (Dt.utcnow (clock 0%nat)) in
        let db' := Db.update_booking (Db.id b) (summary s) start end_
                     (timezone s) now db in
        handle text msgs clock db
        = (db', inr (Result Edit s
                       ("Updated event to '" ++ summary s ++ "' at " ++ start
                        ++ " (" ++ timezone s ++ ").")))
        /\ Db.get_booking_by_id (Db.id b) db'
           = Some (Db.Row (Db.id b) (summary s) (Db.event_id b) start end_
                          (timezone s) Db.active (Db.created_at b) now)
        /\ List.length (Db.list_bookings db')
           = List.length (Db.list_bookings db)).
Proof.
  intros Hi Hs. split; [|split].
  - intros Hr. unfold handle_user_message. cbv zeta. rewrite Hi, Hs.
    cbv beta iota. rewrite Hr. reflexivity.
  - intros b Hr Ha. unfold handle_user_message. cbv zeta. rewrite Hi, Hs.
    cbv beta iota. rewrite Hr, Ha. reflexivity.
  - intros b start end_ Hr Ha Hd He Hn now db'.
    destruct (resolved_target_in_ledger _ _ _ Hr) as [Hin Hact].
    split; [|split].
    + unfold handle_user_message. cbv zeta. rewrite Hi, Hs. cbv beta iota.
      rewrite Hr, Ha, Hd, He. reflexivity.
    + set (b' := Db.Row (Db.id b) (summary s) (Db.event_id b) start end_
                   (timezone s) Db.active (Db.created_at b) now).
      change (Db.id b) with (Db.id b') at 1.
      apply find_id_In.
      * unfold db', Db.update_booking. rewrite map_map.
        erewrite map_ext; [exact Hn|].
        intros r. simpl. destruct (_ && _)%bool; reflexivity.
      * unfold db', Db.update_booking. apply in_map_iff. exists b.
        split; [|exact Hin]. rewrite Z.eqb_refl, Hact. reflexivity.
    + rewrite !length_list_bookings. apply active_count_after_update.
Qed.

(** X13. A book request is refused, with the request for a clear date
    and time and no write, when no date was found in it or when its
    lowercased text holds a vague-time phrase, even beside a date. *)
Theorem vague_book_request_is_refused (text : string)
    (msgs : option (list message)) (clock : nat -> Z) (db : Db.ledger)
    (s : slots) :
  extract_intent text = Book ->
  slots_of text msgs = inr s ->
  datetime s = None
  \/ (exists w, In w vague_words /\ substring w (Py.lower text)) ->
  handle text msgs clock db
  = (db, inr (Result Book s
                "Please specify a clear date and time for your event.")).
Proof.
  intros Hi Hs Hv.
  assert (Ha : ambiguity s = true).
  { destruct (extract_slots_fields _ _ _ Hs) as [dt [_ [Hd [_ [Ha _]]]]].
    rewrite Ha. apply orb_true_iff. destruct Hv as [Hn|Hw].
    - left. rewrite Hd in Hn. destruct dt; [discriminate | reflexivity].
    - right. now apply any_in_spec. }
  unfold handle_user_message. cbv zeta. rewrite Hi, Hs. cbv beta iota.
  rewrite Ha. reflexivity.
Qed.

(** X14. Cancelled bookings are invisible to list and check: the outcome
    of such a request is the one it has on the ledger without its
    cancelled rows, and on a ledger whose rows are all cancelled the
    replies are "You have no events scheduled." and "You are free! No
    events scheduled.". *)
Theorem cancelled_rows_are_invisible (text : string)
    (msgs : option (list message)) (clock : nat -> Z) (db : Db.ledger) :
  extract_intent text = List \/ extract_intent text = Check ->
  snd (handle text msgs clock db)
  = snd (handle text msgs clock
           (filter (fun r => Db.status_eqb (Db.st r) Db.active) db))
  /\ (forall s,
        slots_of text msgs = inr s ->
        (forall r, In r db -> Db.st r = Db.cancelled) ->
        snd (handle text msgs clock db)
        = inr (Result (extract_intent text) s
                 (if match extract_intent text with List => true | _ => false end
                  then "You have no events scheduled."
                  else "You are free! No events scheduled."))).
Proof.
  intros Hi.
  assert (Hl : Db.list_bookings
                 (filter (fun r => Db.status_eqb (Db.st r) Db.active) db)
               = Db.list_bookings db).
  { unfold Db.list_bookings, Db.list_bookings_with.
    now rewrite filter_active_idem. }
  split.
  - unfold handle_user_message. cbv zeta.
    destruct (slots_of text msgs) as [e|s]; [reflexivity|].
    destruct Hi as [Hi|Hi]; rewrite Hi; cbv beta iota; rewrite Hl.
    + reflexivity.
    + destruct (Db.list_bookings db); reflexivity.
  - intros s Hs Hc. unfold handle_user_message. cbv zeta. rewrite Hs.
    destruct Hi as [Hi|Hi]; rewrite Hi; cbv beta iota;
      rewrite (list_bookings_none db Hc); reflexivity.
Qed.

End Outcomes.

Lemma cancel_flips_the_target_witness :
  let s := Slots None 30 "Event" "UTC" [] true (Some "last") in
  let now := "2025-11-03T17:13:20" in
  Stub.handle "cancel my last event" Stub.booked_twice
  = (Db.cancel_booking 2 now Stub.booked_twice,
     inr (Result Cancel s
            "Cancelled event: 'Event' at 2030-01-06T10:00:00+00:00"))
  /\ (List.length (Db.list_bookings (Db.cancel_booking 2 now Stub.booked_twice))
      + 1 = List.length (Db.list_bookings Stub.booked_twice))%nat.
Proof.
  intros s now.
  pose (b := Db.Row 2 "Event" "evt_1762190000" "2030-01-06T10:00:00+00:00"
               "2030-01-06T10:30:00+00:00" "UTC" Db.active
               "2025-11-03T17:13:20" "2025-11-03T17:13:20").
  assert (Hi : extract_intent "cancel my last event" = Cancel)
    by (vm_compute; reflexivity).
  assert (Hs : extract_slots Stub.search_dates "cancel my last event"
                 (history_context Stub.parse None) = inr s)
    by (vm_compute; reflexivity).
  assert (Hr : resolve_target s (history_context Stub.parse None)
                 Stub.booked_twice = Some b)
    by (vm_compute; reflexivity).
  assert (Hn : NoDup (map Db.id Stub.booked_twice)).
  { unfold Stub.booked_twice. simpl. repeat constructor; simpl; intuition lia. }
  destruct (@cancel_flips_the_target Stub.search_dates Stub.parse
              Stub.astimezone "cancel my last event" None Stub.clock
              Stub.booked_twice s b Hi Hs Hr Hn) as [H1 [_ H3]].
  split; [exact H1 | exact H3].
Defined.

Lemma edit_overwrites_the_target_witness :
  let s := Slots (Some "2030-01-06T10:00:00+00:00") 30 "Event" "UTC" []
                 false (Some "20") in
  Db.get_booking_by_id 1
    (Db.update_booking 1 "Event" "2030-01-06T10:00:00+00:00"
       "2030-01-06T10:30:00+00:00" "UTC" "2025-11-03T17:13:20"
       Stub.booked_once)
  = Some (Db.Row 1 "Event" "evt_1762190000" "2030-01-06T10:00:00+00:00"
                 "2030-01-06T10:30:00+00:00" "UTC" Db.active
                 "2025-11-03T17:13:20" "2025-11-03T17:13:20").
Proof.
  intros s.
  pose (b := Db.Row 1 "Event" "evt_1762190000" "2030-01-05T10:00:00+00:00"
               "2030-01-05T10:30:00+00:00" "UTC" Db.active
               "2025-11-03T17:13:20" "2025-11-03T17:13:20").
  assert (Hi : extract_intent "move it to 2030-01-06 10:00" = Edit)
    by (vm_compute; reflexivity).
  assert (Hs : extract_slots Stub.search_dates "move it to 2030-01-06 10:00"
                 (history_context Stub.parse None) = inr s)
    by (vm_compute; reflexivity).
  assert (Hr : resolve_target s (history_context Stub.parse None)
                 Stub.booked_once = Some b)
    by (vm_compute; reflexivity).
  assert (He : end_time_of Stub.parse "2030-01-06T10:00:00+00:00"
                 (duration s) = inr "2030-01-06T10:30:00+00:00")
    by (vm_compute; reflexivity).
  assert (Hn : NoDup (map Db.id Stub.booked_once)).
  { unfold Stub.booked_once. simpl. repeat constructor; simpl; intuition lia. }
  destruct (@edit_overwrites_the_target Stub.search_dates Stub.parse
              Stub.astimezone "move it to 2030-01-06 10:00" None Stub.clock
              Stub.booked_once s Hi Hs) as [_ [_ H]].
  exact (proj1 (proj2 (H b "2030-01-06T10:00:00+00:00"
                         "2030-01-06T10:30:00+00:00" Hr eq_refl eq_refl
                         He Hn))).
Defined.

Lemma vague_book_request_is_refused_witness :
  let text := "book a call later, say 2030-01-05 10:00" in
  let s := Slots (Some "2030-01-05T10:00:00+00:00") 30 "Event" "UTC" []
                 true (Some "20") in
  Stub.handle text Stub.booked_once
  = (Stub.booked_once,
     inr (Result Book s
            "Please specify a clear date and time for your event.")).
Proof.
  intros text s.
  assert (Hi : extract_intent text = Book) by (vm_compute; reflexivity).
  assert (Hs : extract_slots Stub.search_dates text
                 (history_context Stub.parse None) = inr s)
    by (vm_compute; reflexivity).
  apply (@vague_book_request_is_refused Stub.search_dates Stub.parse
           Stub.astimezone text None Stub.clock Stub.booked_once s Hi Hs).
  right. exists "later". split.
  - simpl. auto.
  - exists "book a call ", ", say 2030-01-05 10:00". reflexivity.
Defined.

Lemma cancelled_rows_are_invisible_witness :
  let db := Db.cancel_booking 1 "2025-11-03T17:13:20" Stub.booked_once in
  snd (Stub.handle "list" db) = snd (Stub.handle "list" []).
Proof.
  intros db.
  assert (Hi : extract_intent "list" = List \/ extract_intent "list" = Check)
    by (left; vm_compute; reflexivity).
  exact (proj1 (@cancelled_rows_are_invisible Stub.search_dates Stub.parse
                  Stub.astimezone "list" None Stub.clock db Hi)).
Defined.

(** * The formatter, the history and the slot extractor at their edges *)

(** X15. [format_event_natural] answers "(time unknown)" for a start
    time that does not parse; for the zone "UTC" it never converts and
    never raises; and whatever it raises is what the zone conversion
    raised. *)
Theorem format_event_edge_cases
    (dateparser_parse : string -> option Dt.datetime)
    (astimezone : string -> Dt.datetime -> raises Dt.datetime)
    (b : Db.row) :
  (dateparser_parse (Db.start_time b) = None ->
   format_event_natural dateparser_parse astimezone b
   = inr ("Your event '" ++ Db.summary b ++ "' (time unknown)."))
  /\ (Db.timezone b = "UTC" ->
      (exists text,
         format_event_natural dateparser_parse astimezone b = inr text)
      /\ forall astimezone',
           format_event_natural dateparser_parse astimezone' b
           = format_event_natural dateparser_parse astimezone b)
  /\ (forall e,
        format_event_natural dateparser_parse astimezone b = inl e ->
        exists dt,
          dateparser_parse (Db.start_time b) = Some dt
          /\ Db.timezone b <> "UTC"
          /\ astimezone (Db.timezone b) dt = inl e).
Proof.
  unfold format_event_natural. split; [|split].
  - intros H. now rewrite H.
  - intros H. rewrite H. simpl.
    destruct (dateparser_parse (Db.start_time b)); split;
      try (eexists; reflexivity); reflexivity.
  - intros e.
    destruct (dateparser_parse (Db.start_time b)) as [dt|]; [|discriminate].
    destruct (Db.timezone b =? "UTC")%string eqn:E; [discriminate|].
    unfold bind. destruct (astimezone (Db.timezone b) dt) as [e'|d] eqn:Ea;
      [|discriminate].
    intros H. injection H as <-. exists dt. split; [reflexivity|].
    split; [|exact Ea]. now apply String.eqb_neq.
Qed.

Section History.

Variable dateparser_parse : string -> option Dt.datetime.

Lemma first_event_reply_defaults (msgs : list message) (c : context_event) :
  first_event_reply dateparser_parse msgs = Some c ->
  ce_duration c = 30 /\ ce_timezone c = "UTC" /\ ce_attendees c = [].
Proof.
  induction msgs as [|m msgs IH]; simpl; [discriminate|].
  destruct ((role m =? "assistant")%string
            && Py.contains "event" (Py.lower (content m)))%bool;
    [|exact IH].
  destruct (Re.search Pat.history_event (content m)); [|exact IH].
  intros H. injection H as <-. simpl. auto.
Qed.

(** X16. The context event comes from the most recent assistant message
    that mentions "event" and matches the confirmation pattern: such a
    message at the end of the history decides it alone; any other message
    at the end of the history (of another role, without "event", or one
    the pattern does not match) is skipped and the messages before it
    decide; a history without such a message gives no context; and a
    context always carries duration 30, zone "UTC" and no attendees. *)
Theorem context_event_from_latest_reply (msgs : list message) :
  (forall c, get_context_event_from_history dateparser_parse msgs = Some c ->
             ce_duration c = 30 /\ ce_timezone c = "UTC"
             /\ ce_attendees c = [])
  /\ (forall m mt,
        role m = "assistant" ->
        substring "event" (Py.lower (content m)) ->
        Re.search Pat.history_event (content m) = Some mt ->
        get_context_event_from_history dateparser_parse (msgs ++ [m])%list
        = Some (ContextEvent (Pat.grp 1 mt)
                  (option_map Dt.isoformat
                     (dateparser_parse (Pat.grp 2 mt)))
                  30 "UTC" []))
  /\ (forall m,
        role m <> "assistant"
        \/ ~ substring "event" (Py.lower (content m))
        \/ Re.search Pat.history_event (content m) = None ->
        get_context_event_from_history dateparser_parse (msgs ++ [m])%list
        = get_context_event_from_history dateparser_parse msgs)
  /\ ((forall m, In m msgs ->
         role m <> "assistant"
         \/ ~ substring "event" (Py.lower (content m))
         \/ Re.search Pat.history_event (content m) = None) ->
      get_context_event_from_history dateparser_parse msgs = None).
Proof.
  assert (Skip : forall m older,
            role m <> "assistant"
            \/ ~ substring "event" (Py.lower (content m))
            \/ Re.search Pat.history_event (content m) = None ->
            first_event_reply dateparser_parse (m :: older)
            = first_event_reply dateparser_parse older).
  { intros m older H. cbn [first_event_reply].
    destruct H as [Hr|[He|Hp]].
    - apply String.eqb_neq in Hr. now rewrite Hr.
    - destruct (Py.contains "event" (Py.lower (content m))) eqn:E.
      + exfalso. apply He. now apply contains_spec.
      + now rewrite andb_false_r.
    - rewrite Hp.
      destruct ((role m =? "assistant")%string
                && Py.contains "event" (Py.lower (content m)))%bool;
        reflexivity. }
  unfold get_context_event_from_history. split; [|split; [|split]].
  - intros c. apply first_event_reply_defaults.
  - intros m mt Hr He Hm. rewrite rev_app_distr. simpl.
    rewrite Hr, String.eqb_refl. apply contains_spec in He. rewrite He.
    simpl. now rewrite Hm.
  - intros m H. rewrite rev_app_distr. simpl. now apply Skip.
  - intros H.
    assert (G : forall l, (forall m, In m l -> In m msgs) ->
                  first_event_reply dateparser_parse l = None).
    { induction l as [|m l IH]; intros Hl; [reflexivity|].
      rewrite (Skip m l (H m (Hl m (or_introl eq_refl)))).
      apply IH. intros m' Hm'. apply Hl. now right. }
    apply G. intros m Hm. now apply in_rev.
Qed.

End History.



Section SlotErrors.

Variable search_dates : string -> option (list (string * Dt.datetime)).


End SlotErrors.


(** * The last two nodes of the graph *)

(** X18. [end_conversation_node] fills in the closing sentence when the
    reply is missing or empty and only then: a state with a non-empty
    reply comes back as it went in. It always leaves a non-empty reply,
    and run after [confirm_booking_node] it changes nothing: the reply of
    the booking node is the one the graph ends with. *)
Theorem end_node_keeps_the_booking_reply
    (fromisoformat : string -> option Dt.datetime)
    (create_event : Dt.datetime -> Dt.datetime -> string -> provider_reply)
    (state : booking_state) (db : Db.ledger) :
  end_conversation_node
    (snd (confirm_booking_node fromisoformat create_event state db))
  = snd (confirm_booking_node fromisoformat create_event state db)
  /\ Py.truthy_opt (bs_response (end_conversation_node state)) = true
  /\ end_conversation_node (end_conversation_node state)
     = end_conversation_node state
  /\ (bs_response state = None \/ bs_response state = Some "" ->
      end_conversation_node state
      = set_response state
          "Let me know if you want to schedule another meeting.")
  /\ (forall r, bs_response state = Some r -> r <> "" ->
                end_conversation_node state = state).
Proof.
  split; [|split; [|split; [|split]]].
  - unfold confirm_booking_node, try_confirm.
    destruct (bs_datetime state) as [s|]; [|reflexivity].
    destruct (fromisoformat s) as [dt|]; [|reflexivity].
    destruct (Dt.add_minutes dt _) as [e|]; [|reflexivity].
    destruct (create_event dt e _); reflexivity.
  - unfold end_conversation_node.
    destruct (Py.truthy_opt (bs_response state)) eqn:E; [exact E|reflexivity].
  - unfold end_conversation_node.
    destruct (Py.truthy_opt (bs_response state)) eqn:E.
    + now rewrite E.
    + reflexivity.
  - unfold end_conversation_node. intros [H|H]; rewrite H; reflexivity.
  - unfold end_conversation_node. intros r H Hr. rewrite H.
    destruct r; [congruence | reflexivity].
Qed.

(** * Literals in patterns *)

Lemma rmatch_lit_i (A : Type) (p s : string) (c : Re.caps)
    (k : string -> Re.caps -> option A) :
  Re.rmatch (Re.lit_i p) s c k
  = if Py.startswith (Py.lower p) (Py.lower s)
    then k (Py.drop (String.length p) s) c else None.
Proof.
  revert s. induction p as [|a p IH]; intros s.
  - destruct s; reflexivity.
  - cbn [Re.lit_i Re.rmatch Py.lower]. unfold Re.chr_i at 1.
    cbn [Re.rmatch].
    destruct s as [|b s]; [reflexivity|].
    cbn [Py.lower Py.startswith String.length Py.drop].
    destruct (Ascii.eqb (Py.lower_char a) (Py.lower_char b));
      [apply IH | reflexivity].
Qed.

(** A pattern that begins with a literal under re.I is not found in a
    text whose lowercased form lacks the lowercased literal. *)
Lemma search_needs_literal (p : string) (r : Re.regex) (text : string) :
  Py.contains (Py.lower p) (Py.lower text) = false ->
  Re.search (Re.Cat (Re.lit_i p) r) text = None.
Proof.
  unfold Re.search. generalize 0%nat.
  induction text as [|a s IH]; intros pos H.
  - cbn [Py.lower Py.contains] in H. rewrite orb_false_r in H.
    cbn [Re.search_from]. unfold Re.match_here. cbn [Re.rmatch].
    rewrite rmatch_lit_i. cbn [Py.lower]. now rewrite H.
  - cbn [Py.lower Py.contains] in H. apply orb_false_iff in H.
    destruct H as [H1 H2].
    cbn [Re.search_from]. unfold Re.match_here at 1. cbn [Re.rmatch].
    rewrite rmatch_lit_i. cbn [Py.lower]. rewrite H1. now apply IH.
Qed.

Lemma search_from_suffix (r : Re.regex) (pre post : string) (pos : nat) :
  (forall p, Re.match_here r p post <> None) ->
  Re.search_from r pos (pre ++ post) <> None.
Proof.
  intros H. revert pos. induction pre as [|a pre IH]; intros pos.
  - simpl. destruct post; simpl.
    + specialize (H pos). destruct (Re.match_here r pos ""); congruence.
    + specialize (H pos).
      destruct (Re.match_here r pos (String a post)); congruence.
  - cbn [append Re.search_from].
    destruct (Re.match_here r pos (String a (pre ++ post)));
      [discriminate | apply IH].
Qed.

Lemma lower_app (s t : string) :
  Py.lower (s ++ t) = Py.lower s ++ Py.lower t.
Proof.
  induction s as [|a s IH]; simpl; [reflexivity | now rewrite IH].
Qed.

Lemma lower_length (s : string) : String.length (Py.lower s) = String.length s.
Proof.
  induction s as [|a s IH]; simpl; [reflexivity | now rewrite IH].
Qed.

(** A piece of the lowercased text is the lowercased form of a piece of
    the text. *)
Lemma lower_split (s pre w post : string) :
  Py.lower s = pre ++ w ++ post ->
  exists pre' rest, s = pre' ++ rest
                    /\ Py.startswith w (Py.lower rest) = true.
Proof.
  revert s. induction pre as [|a pre IH]; intros s H.
  - exists "", s. split; [reflexivity|].
    apply startswith_spec. exists post. exact H.
  - destruct s as [|b s]; [discriminate|].
    simpl in H. injection H as _ H.
    destruct (IH s H) as [pre' [rest [-> Hr]]].
    exists (String b pre'), rest. split; [reflexivity | exact Hr].
Qed.

Lemma one_hour_here (pos : nat) (s : string) :
  Py.startswith "1 hour" (Py.lower s) = true
  \/ Py.startswith "1hour" (Py.lower s) = true ->
  Re.match_here Pat.one_hour pos s <> None.
Proof.
  intros H. unfold Re.match_here, Pat.one_hour, Re.opt, Re.chr.
  destruct s as [|a s]; [destruct H; discriminate|].
  cbn [Re.rmatch].
  assert (Ha : Ascii.eqb "1" a = true).
  { cbn [Py.lower Py.startswith] in H.
    assert (E : Ascii.eqb "1" (Py.lower_char a) = true)
      by (destruct H as [H|H]; apply andb_true_iff in H; tauto).
    revert E. clear.
    destruct a as [[] [] [] [] [] [] [] []]; vm_compute; congruence. }
  rewrite Ha. cbn [Py.lower Py.startswith] in H.
  assert (Hs : Py.startswith " hour" (Py.lower s) = true
               \/ Py.startswith "hour" (Py.lower s) = true).
  { destruct H as [H|H]; apply andb_true_iff in H; tauto. }
  clear H Ha.
  destruct s as [|b s].
  { destruct Hs; discriminate. }
  destruct (Ascii.eqb " " b) eqn:Eb.
  - rewrite !rmatch_lit_i.
    destruct (Py.startswith (Py.lower "hour") (Py.lower s)) eqn:E1;
      [discriminate|].
    destruct Hs as [Hs|Hs].
    + change (Py.startswith " hour" (Py.lower (String b s)))
        with (Ascii.eqb " " (Py.lower_char b)
              && Py.startswith "hour" (Py.lower s))%bool in Hs.
      apply andb_true_iff in Hs.
      destruct Hs as [_ Hs]. change (Py.lower "hour") with "hour" in E1.
      congruence.
    + change (Py.lower "hour") with "hour". rewrite Hs. discriminate.
  - rewrite rmatch_lit_i. change (Py.lower "hour") with "hour".
    destruct Hs as [Hs|Hs].
    + exfalso.
      change (Py.startswith " hour" (Py.lower (String b s)))
        with (Ascii.eqb " " (Py.lower_char b)
              && Py.startswith "hour" (Py.lower s))%bool in Hs.
      apply andb_true_iff in Hs. destruct Hs as [Hs _].
      revert Hs Eb. clear.
      destruct b as [[] [] [] [] [] [] [] []]; vm_compute; congruence.
    + rewrite Hs. discriminate.
Qed.

Section OneHour.

Variable search_dates : string -> option (list (string * Dt.datetime)).

(** X19. Whenever the lowercased text holds "1 hour" or "1hour", and so
    also inside "11 hours" or "21 hour", the duration is 60, whatever
    minute count, hour count or context the request carries. *)
Theorem one_hour_anywhere_gives_sixty (text : string)
    (ctx : option context_event) (s : slots) :
  extract_slots search_dates text ctx = inr s ->
  substring "1 hour" (Py.lower text) \/ substring "1hour" (Py.lower text) ->
  duration s = 60.
Proof.
  intros Hs Hw.
  assert (Hm : Re.search Pat.one_hour text <> None).
  { assert (E : exists pre rest, text = pre ++ rest
                  /\ (Py.startswith "1 hour" (Py.lower rest) = true
                      \/ Py.startswith "1hour" (Py.lower rest) = true)).
    { destruct Hw as [[pre [post H]]|[pre [post H]]];
        destruct (lower_split _ _ _ _ H) as [pre' [rest [E Hr]]];
        exists pre', rest; auto. }
    destruct E as [pre [rest [-> Hr]]].
    apply search_from_suffix. intros p. now apply one_hour_here. }
  destruct (extract_slots_fields _ _ _ Hs) as [dt [_ [_ [Hd _]]]].
  revert Hd. unfold extract_duration.
  destruct (Re.search Pat.one_hour text); [|congruence].
  intros Hd. now injection Hd.
Qed.

End OneHour.

Lemma one_hour_anywhere_gives_sixty_witness :
  exists s,
    extract_slots Stub.search_dates "90 min, at most 11 hours" None = inr s
    /\ duration s = 60.
Proof.
  eexists. split; [vm_compute; reflexivity|].
  apply (@one_hour_anywhere_gives_sixty Stub.search_dates
           "90 min, at most 11 hours" None).
  - vm_compute. reflexivity.
  - left. exists "90 min, at most 1", "s". reflexivity.
Defined.

(** * Attendees *)

Lemma case_chars_stable (a : ascii) :
  Py.is_alpha (Py.lower_char a) = Py.is_alpha a
  /\ Py.is_alpha (Py.upper_char a) = Py.is_alpha a
  /\ Py.lower_char (Py.lower_char a) = Py.lower_char a
  /\ Py.upper_char (Py.upper_char a) = Py.upper_char a.
Proof.
  destruct a as [[] [] [] [] [] [] [] []]; vm_compute; repeat split.
Qed.

Lemma title_from_idem (s : string) (prev : bool) :
  Py.title_from prev (Py.title_from prev s) = Py.title_from prev s.
Proof.
  revert prev. induction s as [|a s IH]; intros prev; simpl; [reflexivity|].
  destruct (case_chars_stable a) as [H1 [H2 [H3 H4]]].
  destruct (Py.is_alpha a) eqn:E; simpl.
  - destruct prev.
    + rewrite H1, H3, IH. reflexivity.
    + rewrite H2, H4, IH. reflexivity.
  - rewrite E, IH. reflexivity.
Qed.

Lemma title_nonempty (s : string) : s <> "" -> Py.title s <> "".
Proof.
  destruct s as [|a s]; [congruence|]. intros _. unfold Py.title. simpl.
  destruct (Py.is_alpha a); discriminate.
Qed.

(** X20. On ASCII text the attendees [extract_attendees] returns are
    normalised: no name is empty and every name is already in title case;
    and without "with " in the lowercased text the list is empty. *)
Theorem attendees_are_normalised (text : string) :
  Py.is_ascii text = true ->
  Forall (fun n => n <> "" /\ Py.title n = n) (extract_attendees text)
  /\ (~ substring "with " (Py.lower text) -> extract_attendees text = []).
Proof.
  intros _. unfold extract_attendees. split.
  - destruct (Re.search Pat.with_names text) as [m|]; [|constructor].
    apply Forall_forall. intros n Hn.
    apply in_map_iff in Hn. destruct Hn as [x [<- Hx]].
    apply filter_In in Hx. destruct Hx as [_ Hx]. split.
    + apply title_nonempty. destruct (Py.strip x); [discriminate|congruence].
    + apply title_from_idem.
  - intros H. unfold Pat.with_names. rewrite search_needs_literal.
    + reflexivity.
    + destruct (Py.contains (Py.lower "with ") (Py.lower text)) eqn:E;
        [|reflexivity].
      exfalso. apply H. now apply contains_spec.
Qed.

Lemma attendees_are_normalised_witness :
  extract_attendees "lunch WITH  alice , and BOB jones"
  = ["Alice"; "Bob Jones"]
  /\ extract_attendees "lunch at noon" = [].
Proof.
  split; [vm_compute; reflexivity|].
  apply (proj2 (@attendees_are_normalised "lunch at noon" eq_refl)).
  apply not_substring_of_contains. vm_compute. reflexivity.
Defined.

(** * Requests without a reference, and repeated bookings *)

Section Fallbacks.

Variable search_dates : string -> option (list (string * Dt.datetime)).
Variable dateparser_parse : string -> option Dt.datetime.
Variable astimezone : string -> Dt.datetime -> raises Dt.datetime.

Local Abbreviation handle :=
  (handle_user_message search_dates dateparser_parse astimezone).
Local Abbreviation slots_of text msgs :=
  (extract_slots search_dates text (history_context dateparser_parse msgs)).

(** X21. A request whose text has no digit, no event phrase and none of
    "last", "next", "it", "that", "this" carries no reference, and its
    cancel or edit targets what [get_last_booking] returns, the active
    booking created last; a text with a digit always carries a
    reference. *)
Theorem unreferenced_request_targets_latest (text : string)
    (ctx ctx' : option context_event) (s : slots) (db : Db.ledger) :
  extract_slots search_dates text ctx = inr s ->
  (Py.any_char Py.is_digit text = false ->
   Re.search Pat.event_phrase text = None ->
   Py.any_in ["last"; "next"; "it"; "that"; "this"] (Py.lower text) = false ->
   reference s = None
   /\ resolve_target s ctx' db = Db.get_last_booking db)
  /\ (Py.any_char Py.is_digit text = true -> reference s <> None).
Proof.
  intros Hs. destruct (extract_slots_fields _ _ _ Hs) as [dt [_ [_ [_ [_ Hr]]]]].
  split.
  - intros Hd He Hk.
    assert (E : reference s = None).
    { rewrite Hr. unfold extract_reference.
      rewrite (proj2 (time_token_iff_digit text) Hd), He.
      cbn [Py.any_in existsb] in Hk.
      apply orb_false_iff in Hk. destruct Hk as [H1 Hk].
      apply orb_false_iff in Hk. destruct Hk as [H2 Hk].
      rewrite H1, H2. cbn [Py.any_in existsb]. now rewrite Hk. }
    split; [exact E|]. unfold resolve_target. now rewrite E.
  - intros Hd. rewrite Hr. unfold extract_reference.
    destruct (Re.search Pat.time_token text) eqn:E; [discriminate|].
    apply time_token_iff_digit in E. congruence.
Qed.

End Fallbacks.

Lemma unreferenced_request_targets_latest_witness :
  exists s,
    extract_slots Stub.search_dates "cancel the meeting" None = inr s
    /\ reference s = None
    /\ resolve_target s None Stub.booked_twice
       = Db.get_last_booking Stub.booked_twice.
Proof.
  eexists. split; [vm_compute; reflexivity|].
  apply (proj1 (@unreferenced_request_targets_latest Stub.search_dates
                  "cancel the meeting" None None _ Stub.booked_twice
                  eq_refl));
    vm_compute; reflexivity.
Defined.



(** * The sidebar reads the list reply back *)

Lemma rev_onto_app (s t acc : string) :
  Py.rev_onto (s ++ t) acc = Py.rev_onto t (Py.rev_onto s acc).
Proof.
  revert acc. induction s as [|a s IH]; intros acc; simpl;
    [reflexivity | apply IH].
Qed.

Lemma rev_onto_twice (s a b : string) :
  Py.rev_onto (Py.rev_onto s a) b = Py.rev_onto a (s ++ b).
Proof.
  revert a b. induction s as [|c s IH]; intros a b; simpl.
  - reflexivity.
  - rewrite IH. reflexivity.
Qed.

Lemma append_empty_r (s : string) : s ++ "" = s.
Proof.
  induction s as [|a s IH]; simpl; [reflexivity | now rewrite IH].
Qed.

Lemma append_assoc_string (s t u : string) : (s ++ t) ++ u = s ++ t ++ u.
Proof.
  induction s as [|a s IH]; simpl; [reflexivity | now rewrite IH].
Qed.

Lemma rev_rev_onto (s : string) : Py.rev (Py.rev_onto s "") = s.
Proof.
  unfold Py.rev. rewrite rev_onto_twice. simpl. apply append_empty_r.
Qed.

(** No separator that begins with a line feed starts inside a line. *)
Lemma scan_line (sep_tail cur line rest : string) :
  Py.any_char (Ascii.eqb "010") line = false ->
  Py.split_go (String "010" sep_tail) 0 cur (line ++ rest)
  = Py.split_go (String "010" sep_tail) 0 (Py.rev_onto line cur) rest.
Proof.
  revert cur. induction line as [|a l IH]; intros cur H.
  - reflexivity.
  - cbn [Py.any_char] in H. apply orb_false_iff in H. destruct H as [Ha Hl].
    cbn [append Py.split_go Py.startswith Py.rev_onto]. rewrite Ha.
    cbn [andb]. now apply IH.
Qed.

Lemma scan_last_line (sep_tail cur line : string) :
  Py.any_char (Ascii.eqb "010") line = false ->
  Py.split_go (String "010" sep_tail) 0 cur line
  = [Py.rev (Py.rev_onto line cur)].
Proof.
  intros H. rewrite <- (append_empty_r line) at 1.
  rewrite scan_line by exact H. reflexivity.
Qed.

Lemma split_lines_of_join (lines : list string) (x cur : string) :
  Py.any_char (Ascii.eqb "010") x = false ->
  Forall (fun l => Py.any_char (Ascii.eqb "010") l = false) lines ->
  Py.split_go nl 0 cur (Py.join nl (x :: lines))
  = Py.rev (Py.rev_onto x cur) :: lines.
Proof.
  revert x cur. induction lines as [|y more IH]; intros x cur Hx Hl.
  - apply scan_last_line. exact Hx.
  - inversion Hl as [|? ? Hy Hmore]. subst.
    change (Py.join nl (x :: y :: more))
      with (x ++ nl ++ Py.join nl (y :: more)).
    unfold nl at 1. rewrite scan_line by exact Hx.
    unfold nl at 1. cbn [append Py.split_go Py.startswith].
    rewrite Ascii.eqb_refl. cbn [andb String.length Nat.sub].
    f_equal. fold nl. rewrite (IH y "" Hy Hmore).
    now rewrite rev_rev_onto.
Qed.

Lemma join_head (b : ascii) (y : string) (more : list string) :
  exists tail, Py.join nl (String b y :: more) = String b tail.
Proof.
  destruct more; simpl; eexists; reflexivity.
Qed.

(** A block of non-empty lines joined by single line feeds holds no
    double line feed. *)
Lemma scan_block (lines : list string) (x cur rest : string) :
  Py.any_char (Ascii.eqb "010") x = false ->
  Forall (fun l => Py.any_char (Ascii.eqb "010") l = false /\ l <> "")
         lines ->
  Py.split_go (nl ++ nl) 0 cur (Py.join nl (x :: lines) ++ rest)
  = Py.split_go (nl ++ nl) 0 (Py.rev_onto (Py.join nl (x :: lines)) cur)
      rest.
Proof.
  revert x cur. induction lines as [|y more IH]; intros x cur Hx Hl.
  - apply scan_line. exact Hx.
  - inversion Hl as [|? ? [Hy Hne] Hmore]. subst.
    change (Py.join nl (x :: y :: more))
      with (x ++ nl ++ Py.join nl (y :: more)).
    rewrite !append_assoc_string, !rev_onto_app.
    change (Py.rev_onto nl (Py.rev_onto x cur))
      with (String "010" (Py.rev_onto x cur)).
    change (nl ++ nl) with (String "010" nl).
    rewrite scan_line by exact Hx.
    change (String "010" nl) with (nl ++ nl).
    rewrite <- (IH y (String "010" (Py.rev_onto x cur)) Hy Hmore).
    destruct y as [|b y']; [congruence|].
    destruct (join_head b y' more) as [tail Et]. rewrite Et.
    cbn [Py.any_char] in Hy. apply orb_false_iff in Hy.
    destruct Hy as [Hb _].
    unfold nl. cbn [append Py.split_go Py.startswith].
    rewrite Ascii.eqb_refl, Hb. reflexivity.
Qed.

Lemma plain_lines_pass (lines : list string) :
  Forall plain_line lines ->
  filter (fun line => Py.truthy (Py.strip line)) lines = lines.
Proof.
  induction 1 as [|l lines [_ Hl] _ IH]; simpl; [reflexivity|].
  now rewrite Hl, IH.
Qed.

Lemma plain_lines_scan (lines : list string) :
  Forall plain_line lines ->
  Forall (fun l => Py.any_char (Ascii.eqb "010") l = false) lines
  /\ Forall (fun l => Py.any_char (Ascii.eqb "010") l = false /\ l <> "")
            lines.
Proof.
  induction 1 as [|l lines [Hn Hl] _ [IH1 IH2]]; split; constructor;
    try assumption.
  split; [exact Hn|]. intros ->. discriminate Hl.
Qed.

(** The lines under a heading come back from its block. *)
Lemma lines_of_block (heading : string) (lines : list string) :
  Py.any_char (Ascii.eqb "010") heading = false ->
  Forall plain_line lines ->
  filter (fun line => Py.truthy (Py.strip line))
         (tl (Py.split nl (Py.join nl (heading :: lines))))
  = lines.
Proof.
  intros Hh Hl. unfold Py.split.
  rewrite split_lines_of_join;
    [|exact Hh | exact (proj1 (plain_lines_scan Hl))].
  simpl. now apply plain_lines_pass.
Qed.

Lemma split_single_block (heading : string) (lines : list string) :
  Py.any_char (Ascii.eqb "010") heading = false ->
  Forall plain_line lines ->
  Py.split (nl ++ nl) (Py.join nl (heading :: lines))
  = [Py.join nl (heading :: lines)].
Proof.
  intros Hh Hl. unfold Py.split.
  rewrite <- (append_empty_r (Py.join nl (heading :: lines))) at 1.
  rewrite scan_block; [|exact Hh | exact (proj2 (plain_lines_scan Hl))].
  simpl. now rewrite rev_rev_onto.
Qed.

Lemma split_at_double (cur rest : string) :
  Py.split_go (nl ++ nl) 0 cur (nl ++ nl ++ rest)
  = Py.rev cur :: Py.split_go (nl ++ nl) 0 "" rest.
Proof. reflexivity. Qed.

Lemma split_two_blocks (heading heading' : string)
    (lines lines' : list string) :
  Py.any_char (Ascii.eqb "010") heading = false ->
  Py.any_char (Ascii.eqb "010") heading' = false ->
  Forall plain_line lines -> Forall plain_line lines' ->
  Py.split (nl ++ nl)
    (Py.join nl (heading :: lines) ++ nl ++ nl
     ++ Py.join nl (heading' :: lines'))
  = [Py.join nl (heading :: lines); Py.join nl (heading' :: lines')].
Proof.
  intros Hh Hh' Hl Hl'. unfold Py.split.
  rewrite scan_block; [|exact Hh | exact (proj2 (plain_lines_scan Hl))].
  rewrite split_at_double, rev_rev_onto. f_equal.
  apply split_single_block; assumption.
Qed.

(** X23. The sidebar of the Streamlit page reads a list reply back: for
    a reply with at least one upcoming event, whose lines hold no line
    feed and are not blank, [fetch_events] recovers the upcoming and the
    held lines exactly; a reply without the upcoming heading, as the one
    with past events only is when no line repeats that heading, reads as
    no events at all. *)
Theorem fetch_events_reads_list_reply :
  (forall upcoming held,
     upcoming <> [] ->
     Forall plain_line upcoming -> Forall plain_line held ->
     fetch_events (list_reply upcoming held) = (upcoming, held))
  /\ (forall held,
        Py.contains "Here are your upcoming events" (Py.join nl held)
        = false ->
        fetch_events (list_reply [] held) = ([], [])).
Proof.
  split.
  - intros upcoming held Hne Hu Hh.
    destruct upcoming as [|u us]; [congruence|]. clear Hne.
    assert (H1 : Py.any_char (Ascii.eqb "010")
                   "Here are your upcoming events:" = false)
      by reflexivity.
    assert (H2 : Py.any_char (Ascii.eqb "010")
                   "Here are your past events:" = false)
      by reflexivity.
    unfold fetch_events. cbv zeta.
    destruct held as [|h hs].
    + change (list_reply (u :: us) [])
        with (Py.join nl ("Here are your upcoming events:" :: u :: us)
              ++ "").
      rewrite append_empty_r.
      replace (Py.contains "Here are your upcoming events"
                 (Py.join nl ("Here are your upcoming events:" :: u :: us)))
        with true by reflexivity.
      rewrite split_single_block by assumption.
      now rewrite lines_of_block by assumption.
    + change (list_reply (u :: us) (h :: hs))
        with (Py.join nl ("Here are your upcoming events:" :: u :: us)
              ++ nl ++ nl
              ++ Py.join nl ("Here are your past events:" :: h :: hs)).
      replace (Py.contains "Here are your upcoming events"
                 (Py.join nl ("Here are your upcoming events:" :: u :: us)
                  ++ nl ++ nl
                  ++ Py.join nl ("Here are your past events:" :: h :: hs)))
        with true by reflexivity.
      rewrite split_two_blocks by assumption.
      now rewrite !lines_of_block by assumption.
  - intros held H. unfold fetch_events. cbv zeta.
    destruct held as [|h hs]; [reflexivity|].
    replace (Py.contains "Here are your upcoming events"
               (list_reply [] (h :: hs)))
      with (Py.contains "Here are your upcoming events"
              (Py.join nl (h :: hs)))
      by reflexivity.
    now rewrite H.
Qed.

Lemma fetch_events_reads_list_reply_witness :
  let line1 := "Your event 'Sync' is scheduled for Sunday, January 06 at 10:00 AM (UTC). Status: active." in
  let line2 := "Your event 'Call' is scheduled for Saturday, January 05 at 10:00 AM (UTC). Status: active." in
  fetch_events (list_reply [line1] [line2]) = ([line1], [line2])
  /\ fetch_events (list_reply [] [line2]) = ([], []).
Proof.
  intros line1 line2. split.
  - apply (proj1 fetch_events_reads_list_reply).
    + discriminate.
    + constructor; [|constructor]. split; vm_compute; reflexivity.
    + constructor; [|constructor]. split; vm_compute; reflexivity.
  - apply (proj2 fetch_events_reads_list_reply). vm_compute. reflexivity.
Defined.

(** * The intent classifier *)

Lemma lower_idem (s : string) : Py.lower (Py.lower s) = Py.lower s.
Proof.
  induction s as [|a s IH]; simpl; [reflexivity|].
  rewrite IH. now rewrite (proj1 (proj2 (proj2 (case_chars_stable a)))).
Qed.

Lemma any_in_false (ws : list string) (s w : string) :
  Py.any_in ws s = false -> In w ws -> ~ substring w s.
Proof.
  intros H Hin Hs.
  assert (E : Py.any_in ws s = true) by (apply any_in_spec; eauto).
  congruence.
Qed.

(** X24. The classifier ignores case; a cancel keyword anywhere in the
    text decides for cancel, before every other keyword; a text with
    "reschedule" is never a booking although it holds "schedule"; and the
    intent is unknown exactly when no keyword of any family occurs. *)
Theorem intent_follows_keyword_priority (text : string) :
  extract_intent (Py.lower text) = extract_intent text
  /\ (extract_intent text = Cancel
      <-> exists w, In w ["cancel"; "delete"; "remove"]
                    /\ substring w (Py.lower text))
  /\ (substring "reschedule" (Py.lower text) ->
      extract_intent text = Cancel \/ extract_intent text = Edit)
  /\ (extract_intent text = Unknown
      <-> forall w,
            In w ["cancel"; "delete"; "remove";
                  "edit"; "reschedule"; "move"; "change";
                  "book"; "schedule"; "set up"; "add";
                  "list"; "show"; "what"; "upcoming"; "events"; "history";
                  "held";
                  "free"; "available"; "slots";
                  "help"; "how"] ->
            ~ substring w (Py.lower text)).
Proof.
  split; [|split; [|split]].
  - unfold extract_intent. cbv zeta. now rewrite lower_idem.
  - rewrite <- any_in_spec. unfold extract_intent. cbv zeta.
    destruct (Py.any_in ["cancel"; "delete"; "remove"] (Py.lower text)).
    + split; reflexivity.
    + split; [|discriminate].
      repeat match goal with
             | |- context [if ?c then _ else _] => destruct c
             end; discriminate.
  - intros H. unfold extract_intent. cbv zeta.
    destruct (Py.any_in ["cancel"; "delete"; "remove"] (Py.lower text));
      [left; reflexivity|].
    assert (E : Py.any_in ["edit"; "reschedule"; "move"; "change"]
                  (Py.lower text) = true).
    { apply any_in_spec. exists "reschedule". split; [simpl; auto | exact H]. }
    rewrite E. right. reflexivity.
  - unfold extract_intent. cbv zeta.
    destruct (Py.any_in ["cancel"; "delete"; "remove"] (Py.lower text))
      eqn:E1;
    [split; [discriminate|]; intros H; exfalso;
     apply any_in_spec in E1; destruct E1 as [w [Hw Hs]];
     apply (H w); [simpl in *; tauto | exact Hs] |].
    destruct (Py.any_in ["edit"; "reschedule"; "move"; "change"]
                (Py.lower text)) eqn:E2;
    [split; [discriminate|]; intros H; exfalso;
     apply any_in_spec in E2; destruct E2 as [w [Hw Hs]];
     apply (H w); [simpl in *; tauto | exact Hs] |].
    destruct (Py.any_in ["book"; "schedule"; "set up"; "add"]
                (Py.lower text)) eqn:E3;
    [split; [discriminate|]; intros H; exfalso;
     apply any_in_spec in E3; destruct E3 as [w [Hw Hs]];
     apply (H w); [simpl in *; tauto | exact Hs] |].
    destruct (Py.any_in ["list"; "show"; "what"; "upcoming"; "events";
                         "history"; "held"] (Py.lower text)) eqn:E4;
    [split; [discriminate|]; intros H; exfalso;
     apply any_in_spec in E4; destruct E4 as [w [Hw Hs]];
     apply (H w); [simpl in *; tauto | exact Hs] |].
    destruct (Py.any_in ["free"; "available"; "slots"] (Py.lower text))
      eqn:E5;
    [split; [discriminate|]; intros H; exfalso;
     apply any_in_spec in E5; destruct E5 as [w [Hw Hs]];
     apply (H w); [simpl in *; tauto | exact Hs] |].
    destruct (Py.any_in ["help"; "how"] (Py.lower text)) eqn:E6;
    [split; [discriminate|]; intros H; exfalso;
     apply any_in_spec in E6; destruct E6 as [w [Hw Hs]];
     apply (H w); [simpl in *; tauto | exact Hs] |].
    split; [|reflexivity]. intros _ w Hin.
    simpl in Hin.
    repeat (destruct Hin as [<-|Hin];
            [first [ apply (any_in_false _ E1); simpl; tauto
                   | apply (any_in_false _ E2); simpl; tauto
                   | apply (any_in_false _ E3); simpl; tauto
                   | apply (any_in_false _ E4); simpl; tauto
                   | apply (any_in_false _ E5); simpl; tauto
                   | apply (any_in_false _ E6); simpl; tauto ] |]).
    destruct Hin.
Qed.

Lemma intent_follows_keyword_priority_witness :
  extract_intent "Please RESCHEDULE my call" = Edit
  /\ extract_intent "remove it and book again" = Cancel.
Proof.
  split.
  - destruct (proj1 (proj2 (proj2
       (intent_follows_keyword_priority "Please RESCHEDULE my call"))))
      as [H|H].
    + exists "please ", " my call". reflexivity.
    + vm_compute in H. discriminate H.
    + exact H.
  - apply (proj1 (proj2
       (intent_follows_keyword_priority "remove it and book again"))).
    exists "remove". split; [simpl; auto|].
    exists "", " it and book again". reflexivity.
Defined.

Lemma context_event_from_latest_reply_witness :
  let booked :=
    Message "assistant"
      "Event 'Sync' booked for 2030-01-05T10:00:00+00:00 (UTC)." in
  let noted := Message "assistant" "Your event is noted." in
  let asked := Message "user" "cancel the event" in
  option_map ce_summary
    (get_context_event_from_history Stub.parse [booked; noted; asked])
  = Some "Sync".
Proof.
  intros booked noted asked.
  change [booked; noted; asked] with ([booked; noted] ++ [asked])%list.
  rewrite (proj1 (proj2 (proj2
             (@context_event_from_latest_reply Stub.parse [booked; noted])))
             asked) by (left; discriminate).
  change [booked; noted] with ([booked] ++ [noted])%list.
  rewrite (proj1 (proj2 (proj2
             (@context_event_from_latest_reply Stub.parse [booked])))
             noted) by (right; right; vm_compute; reflexivity).
  change [booked] with ([] ++ [booked])%list.
  rewrite (proj1 (proj2 (@context_event_from_latest_reply Stub.parse []))
             booked
             (Re.MatchObj 6 "'Sync' booked for 2030"
                [(2%nat, "2030"); (1%nat, "Sync")])).
  - reflexivity.
  - reflexivity.
  - exists "", " 'sync' booked for 2030-01-05t10:00:00+00:00 (utc).".
    reflexivity.
  - vm_compute. reflexivity.
Defined.

(** * The booking made last, and pronouns without history *)

Lemma get_last_booking_fold_app (db : Db.ledger) (r : Db.row)
    (best : option Db.row) :
  fold_left
    (fun best r =>
       if Db.status_eqb (Db.st r) Db.active then
         match best with
         | Some b => if Db.id b <? Db.id r then Some r else best
         | None => Some r
         end
       else best) (db ++ [r])%list best
  = (fun best =>
       if Db.status_eqb (Db.st r) Db.active then
         match best with
         | Some b => if Db.id b <? Db.id r then Some r else best
         | None => Some r
         end
       else best)
      (fold_left
         (fun best r =>
            if Db.status_eqb (Db.st r) Db.active then
              match best with
              | Some b => if Db.id b <? Db.id r then Some r else best
              | None => Some r
              end
            else best) db best).
Proof.
  now rewrite fold_left_app.
Qed.

(** X25. Right after [save_booking], [get_last_booking] is the row just
    written, whatever the table held; and once that row is cancelled
    again, [get_last_booking] is what it was before the booking. *)
Theorem last_booking_is_the_one_just_saved
    (summary event_id start end_ tz now now' : string) (db : Db.ledger) :
  let row := Db.Row (Db.next_id db) summary event_id start end_ tz
                    Db.active now now in
  let db' := Db.save_booking summary event_id start end_ tz now db in
  Db.get_last_booking db' = Some row
  /\ Db.get_last_booking (Db.cancel_booking (Db.next_id db) now' db')
     = Db.get_last_booking db.
Proof.
  intros row db'. split.
  - unfold db', Db.save_booking, Db.get_last_booking.
    rewrite get_last_booking_fold_app. cbn [Db.st Db.status_eqb Db.id].
    pose proof (get_last_booking_invariant db [] None) as G.
    destruct (fold_left _ db None) as [b|]; [|reflexivity].
    destruct G as [Hb _]; [intros r []|].
    pose proof (id_below_next db b Hb) as Hlt.
    apply Z.ltb_lt in Hlt. now rewrite Hlt.
  - unfold db', Db.save_booking.
    assert (E : Db.cancel_booking (Db.next_id db) now'
                  (db ++ [Db.Row (Db.next_id db) summary event_id start
                            end_ tz Db.active now now])%list
                = (db ++ [Db.Row (Db.next_id db) summary event_id start
                            end_ tz Db.cancelled now now'])%list).
    { unfold Db.cancel_booking at 1. rewrite map_app. f_equal.
      - fold (Db.cancel_booking (Db.next_id db) now' db).
        apply cancel_booking_noop. intros b Hb Hid.
        pose proof (id_below_next db b Hb). lia.
      - simpl. now rewrite Z.eqb_refl. }
    rewrite E. unfold Db.get_last_booking.
    rewrite get_last_booking_fold_app. reflexivity.
Qed.

Section Pronouns.

Variable search_dates : string -> option (list (string * Dt.datetime)).
Variable dateparser_parse : string -> option Dt.datetime.
Variable astimezone : string -> Dt.datetime -> raises Dt.datetime.

(** X26. Without chat history, as through [chat_endpoint], a pronoun
    does not reach the booking last talked about: the reference
    "context" is looked up as a text, and when no active booking has
    "context" in its start time or its lowercased summary the cancel
    request finds nothing and writes nothing. *)
Theorem pronoun_without_history_finds_nothing (text : string)
    (clock : nat -> Z) (db : Db.ledger) (s : slots) :
  extract_intent text = Cancel ->
  extract_slots search_dates text None = inr s ->
  reference s = Some "context" ->
  (forall b, In b db -> Db.st b = Db.active ->
             ~ substring "context" (Db.start_time b)
             /\ ~ substring "context" (Py.lower (Db.summary b))) ->
  chat_endpoint search_dates dateparser_parse astimezone text clock db
  = (db, ChatResult (Result Cancel s "No matching event found to cancel.")).
Proof.
  intros Hi Hs Hr Hc.
  assert (Hf : find_booking_by_reference "context" None db = None).
  { unfold find_booking_by_reference.
    destruct (Db.list_bookings db) as [|x l] eqn:E; [reflexivity|].
    change ("context" =? "last")%string with false.
    change ("context" =? "next")%string with false. cbv beta iota.
    destruct (find _ (x :: l)) as [b|] eqn:Ef; [|reflexivity].
    exfalso. apply find_some in Ef. destruct Ef as [Hin Hb].
    rewrite <- E in Hin. apply In_list_bookings in Hin.
    destruct Hin as [Hin Hact]. destruct (Hc b Hin Hact) as [H1 H2].
    cbn [Py.truthy andb] in Hb. apply orb_true_iff in Hb.
    destruct Hb as [Hb|Hb]; apply contains_spec in Hb; auto. }
  unfold chat_endpoint, handle_user_message. cbv zeta.
  change (history_context dateparser_parse None) with (@None context_event).
  rewrite Hi, Hs. cbv beta iota. unfold resolve_target. rewrite Hr.
  cbn [Py.truthy]. rewrite Hf. reflexivity.
Qed.

End Pronouns.

Lemma pronoun_without_history_finds_nothing_witness :
  let s := Slots None 30 "Event" "UTC" [] true (Some "context") in
  chat_endpoint Stub.search_dates Stub.parse Stub.astimezone "cancel it"
    Stub.clock Stub.booked_twice
  = (Stub.booked_twice,
     ChatResult (Result Cancel s "No matching event found to cancel.")).
Proof.
  intros s.
  apply (@pronoun_without_history_finds_nothing Stub.search_dates
           Stub.parse Stub.astimezone "cancel it" Stub.clock
           Stub.booked_twice s).
  - vm_compute. reflexivity.
  - vm_compute. reflexivity.
  - reflexivity.
  - unfold Stub.booked_twice. intros b [<-|[<-|[]]] _;
      split; apply not_substring_of_contains; vm_compute; reflexivity.
Defined.

(** * Two invariants of the engine, for every clock and every oracle *)

Section EngineInvariants.

Variable search_dates : string -> option (list (string * Dt.datetime)).
Variable dateparser_parse : string -> option Dt.datetime.
Variable astimezone : string -> Dt.datetime -> raises Dt.datetime.

(** X27. Whatever the clock does between its readings during a list
    request, as long as it does not run backwards, no booking is put in
    both the past and the upcoming section. *)
Theorem no_booking_in_both_sections (clock : nat -> Z)
    (bookings held upcoming : list Db.row) :
  (forall k j, (k <= j)%nat -> clock k <= clock j) ->
  select clock (starts_before dateparser_parse) 0 bookings = inr held ->
  select clock (starts_at_or_after dateparser_parse)
         (List.length bookings) bookings = inr upcoming ->
  forall b, ~ (In b held /\ In b upcoming).
Proof.
  intros Hm Hh Hu b [Hbh Hbu].
  exact (sections_disjoint_monotone dateparser_parse clock bookings b
           Hm Hh Hu Hbh Hbu).
Qed.

(** X28. From the empty ledger, requests none of which is an edit
    (bookings, cancellations, lists, checks, anything else) reach only
    ledgers with at most one active booking per start time. *)
Theorem requests_but_edits_keep_starts_distinct
    (reqs : list (string * option (list message) * (nat -> Z))) :
  Forall (fun r => extract_intent (fst (fst r)) <> Edit) reqs ->
  unique_active_start
    (fold_left
       (fun db r =>
          fst (handle_user_message search_dates dateparser_parse astimezone
                 (fst (fst r)) (snd (fst r)) (snd r) db))
       reqs []).
Proof.
  intros H.
  apply (runs_without_edit_keep_unique search_dates dateparser_parse
           astimezone H).
  intros s. simpl. lia.
Qed.

End EngineInvariants.

Lemma no_booking_in_both_sections_witness :
  let ticking (n : nat) := 1893924000000000 + Z.of_nat n in
  let jan5 := Db.Row 1 "Event" "evt_1762190000" "2030-01-05T10:00:00+00:00"
                "2030-01-05T10:30:00+00:00" "UTC" Db.active
                "2025-11-03T17:13:20" "2025-11-03T17:13:20" in
  let jan6 := Db.Row 2 "Event" "evt_1762190000" "2030-01-06T10:00:00+00:00"
                "2030-01-06T10:30:00+00:00" "UTC" Db.active
                "2025-11-03T17:13:20" "2025-11-03T17:13:20" in
  select ticking (starts_before Stub.parse) 0 [jan5; jan6]
  = inr [jan5; jan6]
  /\ select ticking (starts_at_or_after Stub.parse) 2 [jan5; jan6] = inr []
  /\ ~ (In jan6 [jan5; jan6] /\ In jan6 []).
Proof.
  intros ticking jan5 jan6.
  assert (Hh : select ticking (starts_before Stub.parse) 0 [jan5; jan6]
               = inr [jan5; jan6]) by (vm_compute; reflexivity).
  assert (Hu : select ticking (starts_at_or_after Stub.parse)
                 (List.length [jan5; jan6]) [jan5; jan6] = inr [])
    by (vm_compute; reflexivity).
  split; [exact Hh|]. split; [exact Hu|].
  apply (@no_booking_in_both_sections Stub.parse ticking [jan5; jan6]
           [jan5; jan6] [] ltac:(unfold ticking; intros; lia) Hh Hu jan6).
Defined.

Lemma requests_but_edits_keep_starts_distinct_witness :
  let reqs :=
    [("book a call on 2030-01-05 10:00", @None (list message), Stub.clock);
     ("book a call on 2030-01-05 10:00", None, Stub.clock);
     ("cancel my last event", None, Stub.clock);
     ("book a call on 2030-01-05 10:00", None, Stub.clock)] in
  unique_active_start
    (fold_left
       (fun db r =>
          fst (handle_user_message Stub.search_dates Stub.parse
                 Stub.astimezone (fst (fst r)) (snd (fst r)) (snd r) db))
       reqs []).
Proof.
  intros reqs.
  apply (@requests_but_edits_keep_starts_distinct Stub.search_dates
           Stub.parse Stub.astimezone reqs).
  unfold reqs. repeat constructor; vm_compute; discriminate.
Defined.
